(** * NagaAgent game core: the Distributor (role set builder and
      permission parser) and the bounded round loop

    A shallow embedding of [game/core/interaction_graph/distributor.py]:
    Python strings are sequences of code points, decoded JSON documents are
    values of [pyval], exceptions are values of [exn], and the asynchronous
    methods that talk to the text-generation capability run in a small
    state-and-error monad whose state is the log of capability calls.

    The flow logger of [game/full_flow_logger.py] and the gated run of
    [game/full_test_fix.py] follow in the module [FullFlow]: the logger
    is a record, its test data a map from keys to values, and a run
    threads the logger, the clock, the files written and the records of
    the log file through a second state-and-error monad; the system
    under test is a parameter. *)

From Stdlib Require Import ZArith List Lia String Ascii Bool Permutation Sorted.
From Stdlib Require Import SpecFloat DecimalString QArith.
From stdpp Require Import base gmap list.

Set Warnings "-register-all".
#[local] Open Scope Z_scope.

(** A Python [str] is a sequence of Unicode code points. *)
Abbreviation str := (list N).

(** ** Python sequences *)

Module PySeq.
Section Slice.
Context {A : Type}.

(** A slice bound, as Python normalises it. *)
Definition clamp (l : list A) (i : Z) : Z :=
  if i <? 0 then Z.max 0 (i + Z.of_nat (length l))
  else Z.min i (Z.of_nat (length l)).

(** [l[lo:hi]] *)
Definition slice (l : list A) (lo hi : Z) : list A :=
  let lo' := clamp l lo in
  let hi' := clamp l hi in
  take (Z.to_nat (hi' - lo')) (drop (Z.to_nat lo') l).

(** [l[:hi]] *)
Definition slice_to (l : list A) (hi : Z) : list A := slice l 0 hi.

(** [sorted(l, key=key, reverse=True)]: descending by key; elements
    with equal keys keep the order they had in [l]. *)
Fixpoint insert_desc (key : A -> Z) (x : A) (l : list A) : list A :=
  match l with
  | [] => [x]
  | y :: l' => if key y <=? key x then x :: y :: l'
               else y :: insert_desc key x l'
  end.

Fixpoint sorted_reverse (key : A -> Z) (l : list A) : list A :=
  match l with
  | [] => []
  | x :: l' => insert_desc key x (sorted_reverse key l')
  end.
End Slice.

(** [sep.join(parts)] *)
Fixpoint join (sep : str) (parts : list str) : str :=
  match parts with
  | [] => []
  | [p] => p
  | p :: rest => p ++ sep ++ join sep rest
  end.
End PySeq.

(** ** Operations of [str] *)

Module PyStr.

(** Source literals are UTF-8; [utf8] turns the bytes of a literal into
    the code points Python sees. *)
Fixpoint utf8_decode (bs : list N) : str :=
  match bs with
  | [] => []
  | b0 :: r0 =>
      if (b0 <? 192)%N then b0 :: utf8_decode r0
      else match r0 with
      | [] => [b0]
      | b1 :: r1 =>
          if (b0 <? 224)%N
          then ((b0 - 192) * 64 + (b1 - 128))%N :: utf8_decode r1
          else match r1 with
          | [] => [b0; b1]
          | b2 :: r2 =>
              if (b0 <? 240)%N
              then ((b0 - 224) * 4096 + (b1 - 128) * 64 + (b2 - 128))%N
                     :: utf8_decode r2
              else match r2 with
              | [] => [b0; b1; b2]
              | b3 :: r3 =>
                  ((b0 - 240) * 262144 + (b1 - 128) * 4096
                   + (b2 - 128) * 64 + (b3 - 128))%N :: utf8_decode r3
              end
          end
      end
  end.

Definition utf8 (s : string) : str :=
  utf8_decode (List.map N_of_ascii (list_ascii_of_string s)).

(** The double quote, which a literal cannot hold. *)
Definition dquote : N := 34%N.
Definition quoted (s : string) : str := dquote :: utf8 s ++ [dquote].

Definition newline : str := [10%N].

Definition eqb (a b : str) : bool := bool_decide (a = b).

(** [str.isspace] on one character: the code points of CPython's
    [_PyUnicode_IsWhitespace]. *)
Definition isspace (c : N) : bool :=
  ((9 <=? c) && (c <=? 13) || (28 <=? c) && (c <=? 32)
   || (c =? 133) || (c =? 160) || (c =? 5760)
   || (8192 <=? c) && (c <=? 8202)
   || (c =? 8232) || (c =? 8233) || (c =? 8239) || (c =? 8287)
   || (c =? 12288))%N.

Fixpoint lstrip (s : str) : str :=
  match s with
  | c :: s' => if isspace c then lstrip s' else s
  | [] => []
  end.

Definition rstrip (s : str) : str := rev (lstrip (rev s)).

(** [s.strip()] *)
Definition strip (s : str) : str := rstrip (lstrip s).

(** [s.startswith(prefix)] *)
Fixpoint startswith (s prefix : str) {struct prefix} : bool :=
  match prefix with
  | [] => true
  | p :: prefix' =>
      match s with
      | c :: s' => (c =? p)%N && startswith s' prefix'
      | [] => false
      end
  end.

(** Leftmost match of [sub] in [s], where [s] begins at index [i] of the
    whole string. *)
Fixpoint find_at (sub s : str) (i : nat) : option nat :=
  if startswith s sub then Some i
  else match s with
       | [] => None
       | _ :: s' => find_at sub s' (S i)
       end.

(** Rightmost match. *)
Fixpoint rfind_at (sub s : str) (i : nat) : option nat :=
  match s with
  | [] => if startswith [] sub then Some i else None
  | c :: s' =>
      match rfind_at sub s' (S i) with
      | Some j => Some j
      | None => if startswith (c :: s') sub then Some i else None
      end
  end.

Definition len (s : str) : Z := Z.of_nat (length s).

(** [s.find(sub, start)]: a negative [start] counts from the end, a
    [start] past the end finds nothing; -1 when there is no match. *)
Definition find (s sub : str) (start : Z) : Z :=
  let start := if start <? 0 then Z.max 0 (start + len s) else start in
  if len s <? start then -1
  else match find_at sub (drop (Z.to_nat start) s) (Z.to_nat start) with
       | Some i => Z.of_nat i
       | None => -1
       end.

(** [s.rfind(sub)] *)
Definition rfind (s sub : str) : Z :=
  match rfind_at sub s 0 with
  | Some i => Z.of_nat i
  | None => -1
  end.

(** [s[lo:hi]] and [s[:hi]] *)
Definition slice (s : str) (lo hi : Z) : str := PySeq.slice s lo hi.
Definition slice_to (s : str) (hi : Z) : str := PySeq.slice_to s hi.

(** [sub in s] *)
Definition contains (s sub : str) : bool := negb (find s sub 0 =? -1).

(** [sub] occurs in [s] at index [i]. *)
Definition occurs_at (sub s : str) (i : nat) : Prop :=
  exists pre post, s = pre ++ sub ++ post /\ length pre = i.

End PyStr.

(** ** Python values and exceptions *)

(** The exceptions the distributor can meet.  [RuntimeError] carries its
    message: the source raises it for every failure of its own and tells
    the failures apart by message only. *)
Inductive exn : Type :=
| JSONDecodeError
| TypeError
| ValueError
| OverflowError
| KeyError
| AttributeError
| RuntimeError (msg : string)
| OtherException (name : string).

Inductive result (A : Type) : Type :=
| Ok (a : A)
| Raise (e : exn).
Arguments Ok {A} a.
Arguments Raise {A} e.

#[global] Instance result_ret : MRet result := fun _ a => Ok a.
#[global] Instance result_bind : MBind result := fun _ _ f m =>
  match m with
  | Ok a => f a
  | Raise e => Raise e
  end.

(** [try: body except Exception as e: handler(e)] *)
Definition try_except {A} (body : result A) (handler : exn -> result A) : result A :=
  match body with
  | Ok a => Ok a
  | Raise e => handler e
  end.

Definition is_ok {A} (r : result A) : bool :=
  match r with Ok _ => true | Raise _ => false end.

(** What [json.loads] can return: [None], [bool], [int], [float], [str],
    [list], and [dict] with [str] keys. *)
Inductive pyval : Type :=
| PNone
| PBool (b : bool)
| PInt (n : Z)
| PFloat (f : spec_float)
| PStr (s : str)
| PList (l : list pyval)
| PDict (d : gmap str pyval).

Module Py.
Import PyStr.

(** [key in container], for a [str] key. *)
Definition contains (key : str) (container : pyval) : result bool :=
  match container with
  | PDict d => Ok (bool_decide (is_Some (d !! key)))
  | PList l =>
      Ok (existsb (fun v => match v with
                            | PStr s => PyStr.eqb s key
                            | _ => false
                            end) l)
  | PStr s => Ok (PyStr.contains s key)
  | PNone | PBool _ | PInt _ | PFloat _ => Raise TypeError
  end.

(** [container[key]], for a [str] key: only a [dict] can be indexed by
    a string. *)
Definition getitem (container : pyval) (key : str) : result pyval :=
  match container with
  | PDict d => match d !! key with
               | Some v => Ok v
               | None => Raise KeyError
               end
  | _ => Raise TypeError
  end.

(** [container.get(key, default)] *)
Definition get (container : pyval) (key : str) (dflt : pyval) : result pyval :=
  match container with
  | PDict d => Ok (default dflt (d !! key))
  | _ => Raise AttributeError
  end.

(** [iter(v)], run to the end. *)
Definition iter (v : pyval) : result (list pyval) :=
  match v with
  | PList l => Ok l
  | PStr s => Ok (List.map (fun c => PStr [c]) s)
  | PDict d => Ok (List.map (fun kv => PStr (fst kv)) (map_to_list d))
  | PNone | PBool _ | PInt _ | PFloat _ => Raise TypeError
  end.

(** Decimal text of an [int]. *)
Definition str_of_int (n : Z) : str :=
  utf8 (NilZero.string_of_int (Z.to_int n)).

(** [int(f)] for a float: truncation toward zero; NaN and the
    infinities raise. *)
Definition int_of_float (f : spec_float) : result Z :=
  match f with
  | S754_zero _ => Ok 0
  | S754_nan => Raise ValueError
  | S754_infinity _ => Raise OverflowError
  | S754_finite s m e =>
      let a := if 0 <=? e then Z.shiftl (Z.pos m) e
               else Z.shiftr (Z.pos m) (- e) in
      Ok (if s then - a else a)
  end.
End Py.

(** ** Data model ([game/core/models/data_models.py]) *)

Record Task := {
  task_id : str;
  description : str;
  domain : str;
  requirements : list str;
  constraints : list str;
  max_iterations : Z
}.

Record RoleGenerationRequest := {
  task_description : str;
  request_domain : str;
  expected_count_range : Z * Z;
  request_constraints : list str
}.

Record GeneratedRole := {
  name : str;
  role_type : str;
  responsibilities : list str;
  skills : list str;
  output_requirements : str;
  priority_level : Z
}.

(** ** The text-generation capability *)

(** One call of [get_response(prompt, temperature=...)]. *)
Record llm_call := {
  call_prompt : str;
  call_temperature : spec_float
}.

(** The binary64 value of the literal [0.7]. *)
Definition temperature_0_7 : spec_float :=
  S754_finite false 6305039478318694 (-53).

(** A conversation answers a call, possibly depending on the calls it
    has served before, with a text or with an exception. *)
Definition conversation := list llm_call -> llm_call -> result str.

(** The state the asynchronous methods thread: the calls made so far. *)
Definition call_log := list llm_call.

(** State-and-error monad of the [async] methods. *)
Definition M (A : Type) : Type := call_log -> result A * call_log.

#[global] Instance M_ret : MRet M := fun _ a w => (Ok a, w).
#[global] Instance M_bind : MBind M := fun _ _ f m w =>
  match m w with
  | (Ok a, w') => f a w'
  | (Raise e, w') => (Raise e, w')
  end.

Definition lift {A} (r : result A) : M A := fun w => (r, w).
Definition raise {A} (e : exn) : M A := fun w => (Raise e, w).

(** [try: body except Exception as e: log; raise] leaves the outcome as
    it is. *)
Definition reraising {A} (body : M A) : M A := body.

(** ** The fixed text of the two prompt templates

    Each f-string of the source is cut at its interpolated fields; the
    pieces are given line by line. *)

Module Prompts.
Import PyStr.

(** Role prompt, fixed text 0. *)
Definition role_prompt_0 : str :=
  PySeq.join newline
  [ utf8 "# 任务:智能体角色生成";
   [];
   utf8 "你是一个专业的团队组建专家,需要根据给定任务生成最优的角色分工方案.";
   [];
   utf8 "## 任务信息";
   utf8 "- **任务描述**: " ].

(** Role prompt, fixed text 1. *)
Definition role_prompt_1 : str :=
  PySeq.join newline
  [ [];
   utf8 "- **领域类型**: " ].

(** Role prompt, fixed text 2. *)
Definition role_prompt_2 : str :=
  PySeq.join newline
  [ [];
   utf8 "- **角色数量**: " ].

(** Role prompt, fixed text 3. *)
Definition role_prompt_3 : str :=
  PySeq.join newline
  [ utf8 "-" ].

(** Role prompt, fixed text 4. *)
Definition role_prompt_4 : str :=
  PySeq.join newline
  [ utf8 "个角色" ].

(** Role prompt, fixed text 5. *)
Definition role_prompt_5 : str :=
  PySeq.join newline
  [ [];
   [];
   utf8 "## 重要约束";
   utf8 "⚠️ **禁止生成" ++ [dquote] ++ utf8 "需求方" ++ [dquote] ++ utf8 "、" ++ [dquote] ++ utf8 "用户" ++ [dquote] ++ utf8 "、" ++ [dquote] ++ utf8 "客户" ++ [dquote] ++ utf8 "等角色** - 系统已自动包含需求方节点,你只需要生成执行任务的专业角色.";
   [];
   utf8 "## 生成要求";
   utf8 "1. **角色设计原则**:";
   utf8 "   - 每个角色都有明确的专业职责";
   utf8 "   - 角色之间形成有效的协作链条";
   utf8 "   - 避免职责重叠和功能冗余";
   utf8 "   - 确保能够完整覆盖任务需求";
   utf8 "   - 专注于任务执行角色,不要生成需求提出方角色";
   [];
   utf8 "2. **角色信息要求**:";
   utf8 "   - name: 角色的具体名称";
   utf8 "   - role_type: 角色类型分类";
   utf8 "   - responsibilities: 详细的职责列表（3-5个）";
   utf8 "   - skills: 需要的专业技能（4-6个）";
   utf8 "   - output_requirements: 该角色的预期输出内容";
   utf8 "   - priority_level: 优先级（1-10）";
   [];
   utf8 "3. **输出格式**:";
   utf8 "严格按照以下JSON格式输出,不要添加任何解释文本:";
   [];
   utf8 "```json";
   utf8 "{";
   utf8 "    " ++ [dquote] ++ utf8 "roles" ++ [dquote] ++ utf8 ": [";
   utf8 "        {";
   utf8 "            " ++ [dquote] ++ utf8 "name" ++ [dquote] ++ utf8 ": " ++ [dquote] ++ utf8 "角色名称" ++ [dquote] ++ utf8 ",";
   utf8 "            " ++ [dquote] ++ utf8 "role_type" ++ [dquote] ++ utf8 ": " ++ [dquote] ++ utf8 "角色类型" ++ [dquote] ++ utf8 ",";
   utf8 "            " ++ [dquote] ++ utf8 "responsibilities" ++ [dquote] ++ utf8 ": [" ++ [dquote] ++ utf8 "职责1" ++ [dquote] ++ utf8 ", " ++ [dquote] ++ utf8 "职责2" ++ [dquote] ++ utf8 ", " ++ [dquote] ++ utf8 "职责3" ++ [dquote] ++ utf8 "],";
   utf8 "            " ++ [dquote] ++ utf8 "skills" ++ [dquote] ++ utf8 ": [" ++ [dquote] ++ utf8 "技能1" ++ [dquote] ++ utf8 ", " ++ [dquote] ++ utf8 "技能2" ++ [dquote] ++ utf8 ", " ++ [dquote] ++ utf8 "技能3" ++ [dquote] ++ utf8 ", " ++ [dquote] ++ utf8 "技能4" ++ [dquote] ++ utf8 "],";
   utf8 "            " ++ [dquote] ++ utf8 "output_requirements" ++ [dquote] ++ utf8 ": " ++ [dquote] ++ utf8 "该角色需要输出的具体内容描述" ++ [dquote] ++ utf8 ",";
   utf8 "            " ++ [dquote] ++ utf8 "priority_level" ++ [dquote] ++ utf8 ": 8";
   utf8 "        }";
   utf8 "    ]";
   utf8 "}";
   utf8 "```";
   [];
   utf8 "## 领域参考";
   utf8 "根据" ++ [dquote] ].

(** Role prompt, fixed text 6. *)
Definition role_prompt_6 : str :=
  PySeq.join newline
  [ [dquote] ++ utf8 "领域的特点,请生成专业、实用且互补的角色组合.";
   [];
   utf8 "## 协作提示";
   utf8 "生成的角色需要能够:";
   utf8 "1. 接收需求方的初始需求";
   utf8 "2. 相互协作完成任务";
   utf8 "3. 最终将方案交付给需求方";
   [];
   utf8 "请立即开始生成角色方案:" ].

(** Permission prompt, fixed text 0. *)
Definition permission_prompt_0 : str :=
  PySeq.join newline
  [ utf8 "# 任务:角色协作权限分配";
   [];
   utf8 "根据以下角色信息,设计合理的协作权限结构,确保高效协作并避免无效沟通.";
   [];
   utf8 "## 角色信息";
   [] ].

(** Permission prompt, fixed text 1. *)
Definition permission_prompt_1 : str :=
  PySeq.join newline
  [ [];
   [];
   utf8 "## 特殊节点说明";
   utf8 "系统已自动包含" ++ [dquote] ++ utf8 "需求方" ++ [dquote] ++ utf8 "节点:";
   utf8 "- 需求方将连接到优先级最高的角色（通常是项目负责人/产品经理）";
   utf8 "- 优先级最高的角色完成工作后可以将结果返回给需求方";
   utf8 "- 你只需要设计上述角色之间的协作权限";
   [];
   utf8 "## 权限设计原则";
   utf8 "1. **层级协作**:高优先级角色可以与更多角色直接沟通";
   utf8 "2. **专业互补**:相关专业领域的角色应能直接沟通";
   utf8 "3. **避免跨越**:不同层级的角色需要通过中介沟通";
   utf8 "4. **流程顺序**:按工作流程安排协作顺序";
   utf8 "5. **回路设计**:确保最终能将结果传递给需求方";
   [];
   utf8 "## 输出格式";
   utf8 "严格按照以下JSON格式输出:";
   [];
   utf8 "```json";
   utf8 "{";
   utf8 "    " ++ [dquote] ++ utf8 "permissions" ++ [dquote] ++ utf8 ": {";
   utf8 "        " ++ [dquote] ++ utf8 "角色名称1" ++ [dquote] ++ utf8 ": [" ++ [dquote] ++ utf8 "可直接沟通的角色名称1" ++ [dquote] ++ utf8 ", " ++ [dquote] ++ utf8 "可直接沟通的角色名称2" ++ [dquote] ++ utf8 "],";
   utf8 "        " ++ [dquote] ++ utf8 "角色名称2" ++ [dquote] ++ utf8 ": [" ++ [dquote] ++ utf8 "可直接沟通的角色名称1" ++ [dquote] ++ utf8 ", " ++ [dquote] ++ utf8 "可直接沟通的角色名称3" ++ [dquote] ++ utf8 "]";
   utf8 "    }";
   utf8 "}";
   utf8 "```";
   [];
   utf8 "请根据角色特点和协作需求,设计最优的权限分配方案:" ].
End Prompts.

(** ** Distributor *)

Record Distributor := {
  naga_conversation : option conversation
}.

Section DistributorMethods.
Import PyStr.

(** [json.loads] of the standard library: a value, [JSONDecodeError],
    or another exception (a recursion limit, say). *)
Variable json_loads : str -> result pyval.

(** [str(v)] for the values that are not [str], [int], [bool] or
    [None]: the [repr] of floats and containers. *)
Variable py_repr : pyval -> str.

(** [int(s)] for a [str]. *)
Variable int_of_str : str -> result Z.

(** [str(v)] *)
Definition py_str (v : pyval) : str :=
  match v with
  | PStr s => s
  | PNone => utf8 "None"
  | PBool true => utf8 "True"
  | PBool false => utf8 "False"
  | PInt n => Py.str_of_int n
  | PFloat _ | PList _ | PDict _ => py_repr v
  end.

(** [int(v)] *)
Definition py_int (v : pyval) : result Z :=
  match v with
  | PInt n => Ok n
  | PBool b => Ok (if b then 1 else 0)
  | PFloat f => Py.int_of_float f
  | PStr s => int_of_str s
  | PNone | PList _ | PDict _ => Raise TypeError
  end.

Definition _build_role_generation_prompt (request : RoleGenerationRequest) : str :=
  let '(min_count, max_count) := expected_count_range request in
  let constraints_text :=
    match request_constraints request with
    | [] => []
    | cs => newline ++ utf8 "约束条件:" ++ newline
            ++ PySeq.join newline (List.map (fun c => utf8 "- " ++ c) cs)
    end in
  Prompts.role_prompt_0 ++ task_description request
  ++ Prompts.role_prompt_1 ++ request_domain request
  ++ Prompts.role_prompt_2 ++ Py.str_of_int min_count
  ++ Prompts.role_prompt_3 ++ Py.str_of_int max_count
  ++ Prompts.role_prompt_4 ++ constraints_text
  ++ Prompts.role_prompt_5 ++ request_domain request
  ++ Prompts.role_prompt_6.

Definition _call_llm_api (self : Distributor) (prompt : str) : M str :=
  fun w =>
    match naga_conversation self with
    | None => (Raise (RuntimeError "NagaAgent API未初始化"), w)
    | Some conv =>
        let call := {| call_prompt := prompt;
                       call_temperature := temperature_0_7 |} in
        (conv w call, w ++ [call])
    end.

(** Lines 169-180: the text handed to [json.loads]. *)
Definition roles_json_str (response : str) : str :=
  let json_start := find response (utf8 "```json") 0 in
  let json_end := find response (utf8 "```") (json_start + 7) in
  if negb (json_start =? -1) && negb (json_end =? -1)
  then strip (slice response (json_start + 7) json_end)
  else
    let json_str := strip response in
    if startswith json_str (utf8 "{")
    then
      let json_end := rfind json_str (utf8 "}") + 1 in
      slice_to json_str json_end
    else json_str.

Definition _parse_roles_from_response (response : str) : result pyval :=
  try_except
    (data ← json_loads (roles_json_str response);
     found ← Py.contains (utf8 "roles") data;
     if found : bool then Py.getitem data (utf8 "roles")
     else Ok (PList []))
    (fun e =>
       match e with
       | JSONDecodeError => Raise (RuntimeError "角色解析失败: 无法解析JSON")
       | _ => Raise e
       end).

(** [[str(item).strip() for item in value if str(item).strip()]] and
    its two other branches. *)
Definition _ensure_list (value : pyval) : list str :=
  match value with
  | PList l =>
      List.map (fun item => strip (py_str item))
        (List.filter (fun item => negb (PyStr.eqb (strip (py_str item)) [])) l)
  | PStr s => if negb (PyStr.eqb (strip s) []) then [strip s] else []
  | _ => []
  end.

Definition required_fields : list str :=
  [utf8 "name"; utf8 "role_type"; utf8 "responsibilities"; utf8 "skills";
   utf8 "output_requirements"].

(** [all(field in role_data for field in fields)], stopping at the
    first field that is not there. *)
Fixpoint all_fields_in (fields : list str) (role_data : pyval) : result bool :=
  match fields with
  | [] => Ok true
  | field :: fields' =>
      here ← Py.contains field role_data;
      if here : bool then all_fields_in fields' role_data else Ok false
  end.

Definition nonempty {A} (l : list A) : bool :=
  match l with [] => false | _ => true end.

(** The body of the [try] in the validation loop: [Ok None] is a
    candidate passed over, [Raise] one whose exception the loop
    swallows. *)
Definition validate_role (role_data : pyval) : result (option GeneratedRole) :=
  complete ← all_fields_in required_fields role_data;
  if negb complete then Ok None
  else
    v_name ← Py.getitem role_data (utf8 "name");
    v_role_type ← Py.getitem role_data (utf8 "role_type");
    v_responsibilities ← Py.getitem role_data (utf8 "responsibilities");
    v_skills ← Py.getitem role_data (utf8 "skills");
    v_output ← Py.getitem role_data (utf8 "output_requirements");
    v_priority ← Py.get role_data (utf8 "priority_level") (PInt 5);
    priority ← py_int v_priority;
    let role := {| name := strip (py_str v_name);
                   role_type := strip (py_str v_role_type);
                   responsibilities := _ensure_list v_responsibilities;
                   skills := _ensure_list v_skills;
                   output_requirements := strip (py_str v_output);
                   priority_level := priority |} in
    if nonempty (name role) && nonempty (role_type role)
       && nonempty (responsibilities role) && nonempty (skills role)
    then Ok (Some role) else Ok None.

(** The [for] loop with its [try ... except Exception: continue]. *)
Fixpoint validate_loop (raw_roles : list pyval) (validated_roles : list GeneratedRole)
  : list GeneratedRole :=
  match raw_roles with
  | [] => validated_roles
  | role_data :: rest =>
      match validate_role role_data with
      | Ok (Some role) => validate_loop rest (validated_roles ++ [role])
      | Ok None | Raise _ => validate_loop rest validated_roles
      end
  end.

Definition _validate_generated_roles (raw_roles : pyval) (request : RoleGenerationRequest)
  : result (list GeneratedRole) :=
  let '(min_count, max_count) := expected_count_range request in
  candidates ← Py.iter raw_roles;
  let validated_roles := validate_loop candidates [] in
  if max_count <? Z.of_nat (length validated_roles)
  then Ok (PySeq.slice_to (PySeq.sorted_reverse priority_level validated_roles) max_count)
  else Ok validated_roles.

(** The request built at lines 62-67. *)
Definition role_generation_request (task : Task) (expected_count_range : Z * Z)
  : RoleGenerationRequest :=
  {| task_description := description task;
     request_domain := domain task;
     expected_count_range := expected_count_range;
     request_constraints := constraints task |}.

Definition generate_roles (self : Distributor) (task : Task)
    (expected_count_range : Z * Z) : M (list GeneratedRole) :=
  reraising
    (let request := role_generation_request task expected_count_range in
     let generation_prompt := _build_role_generation_prompt request in
     response ← _call_llm_api self generation_prompt;
     roles ← lift (_parse_roles_from_response response);
     validated_roles ← lift (_validate_generated_roles roles request);
     if negb (nonempty validated_roles)
     then raise (RuntimeError "角色生成失败: 大模型返回空结果")
     else mret validated_roles).

(** The three roster lines of the role at index [i]. *)
Definition roster_lines (i : nat) (role : GeneratedRole) : list str :=
  [ Py.str_of_int (Z.of_nat i + 1) ++ utf8 ". " ++ name role
      ++ utf8 "（" ++ role_type role ++ utf8 "）";
    utf8 "   - 职责:"
      ++ PySeq.join (utf8 ", ") (PySeq.slice_to (responsibilities role) 3);
    utf8 "   - 优先级:" ++ Py.str_of_int (priority_level role) ].

Fixpoint roles_info (i : nat) (roles : list GeneratedRole) : list str :=
  match roles with
  | [] => []
  | role :: rest => roster_lines i role ++ roles_info (S i) rest
  end.

Definition _build_permission_assignment_prompt (roles : list GeneratedRole) : str :=
  let roles_text := PySeq.join newline (roles_info 0 roles) in
  Prompts.permission_prompt_0 ++ roles_text ++ Prompts.permission_prompt_1.

(** Lines 325-334: the text handed to [json.loads]. *)
Definition permissions_json_str (response : str) : str :=
  let json_start := find response (utf8 "```json") 0 in
  let json_end := find response (utf8 "```") (json_start + 7) in
  if negb (json_start =? -1) && negb (json_end =? -1)
  then strip (slice response (json_start + 7) json_end)
  else
    let json_str := strip response in
    if startswith json_str (utf8 "{")
    then
      let json_end := rfind json_str (utf8 "}") + 1 in
      slice_to json_str json_end
    else json_str.

Definition _parse_permissions_from_response (response : str)
    (roles : list GeneratedRole) : result pyval :=
  try_except
    (data ← json_loads (permissions_json_str response);
     found ← Py.contains (utf8 "permissions") data;
     if found : bool then Py.getitem data (utf8 "permissions")
     else Raise (RuntimeError "权限解析失败: 缺少permissions字段"))
    (fun e =>
       match e with
       | JSONDecodeError => Raise (RuntimeError "权限解析失败: 无法解析JSON")
       | _ => Raise e
       end).

Definition assign_collaboration_permissions (self : Distributor)
    (roles : list GeneratedRole) : M pyval :=
  reraising
    (let permission_prompt := _build_permission_assignment_prompt roles in
     response ← _call_llm_api self permission_prompt;
     permissions ← lift (_parse_permissions_from_response response roles);
     mret permissions).

End DistributorMethods.

(** ** A decoder to run the methods on concrete responses

    The methods above take [json.loads] as a parameter and every theorem
    below holds for any decoder.  To evaluate them on concrete responses
    this module implements the strict decoder of the standard library on
    a fragment of JSON: objects, arrays, strings with the one-character
    escapes, integers, [true], [false] and [null].  On a document with a
    fraction, an exponent, a [\u] escape or one of the constants [NaN]
    and [Infinity] it answers [unsupported]. *)

Module JsonFragment.
Import PyStr.

Inductive outcome (A : Type) : Type :=
| Parsed (a : A) (rest : str)
| Malformed
| TooLong
| Unsupported.
Arguments Parsed {A} a rest.
Arguments Malformed {A}.
Arguments TooLong {A}.
Arguments Unsupported {A}.

(** The most digits that [int] converts from decimal text (the default
    of CPython 3.11; longer text raises ValueError). *)
Definition max_str_digits : nat := 4300.

(** The decoder's whitespace: space, tab, line feed, carriage return. *)
Definition is_ws (c : N) : bool :=
  ((c =? 32) || (c =? 9) || (c =? 10) || (c =? 13))%N.

Fixpoint skip_ws (s : str) : str :=
  match s with
  | c :: s' => if is_ws c then skip_ws s' else s
  | [] => []
  end.

Definition is_digit (c : N) : bool := ((48 <=? c) && (c <=? 57))%N.

(** The body of a string, after its opening quote. *)
Fixpoint scan_string (s acc : str) : outcome str :=
  match s with
  | [] => Malformed
  | c :: s' =>
      if (c =? 34)%N then Parsed (rev acc) s'
      else if (c =? 92)%N then
        match s' with
        | [] => Malformed
        | e :: s'' =>
            if (e =? 117)%N then Unsupported
            else
              match (if (e =? 34)%N then Some 34 else if (e =? 92)%N then Some 92
                     else if (e =? 47)%N then Some 47 else if (e =? 98)%N then Some 8
                     else if (e =? 102)%N then Some 12 else if (e =? 110)%N then Some 10
                     else if (e =? 114)%N then Some 13 else if (e =? 116)%N then Some 9
                     else None)%N with
              | Some d => scan_string s'' (d :: acc)
              | None => Malformed
              end
        end
      else if (c <? 32)%N then Malformed
      else scan_string s' (c :: acc)
  end.

Fixpoint scan_digits (s : str) (acc : Z) : Z * str :=
  match s with
  | c :: s' => if is_digit c then scan_digits s' (10 * acc + (Z.of_N c - 48))
               else (acc, s)
  | [] => (acc, [])
  end.

(** An integer literal whose sign has been read: [0], or digits that
    do not start with [0]; the decoder converts them with [int]. *)
Definition scan_int (negative : bool) (s : str) : outcome pyval :=
  match s with
  | c :: s' =>
      if is_digit c then
        let '(n, rest) := if (c =? 48)%N then (0, s') else scan_digits s 0 in
        let converted :=
          if (max_str_digits <? length s - length rest)%nat then TooLong
          else Parsed (PInt (if negative then - n else n)) rest in
        match rest with
        | d :: _ =>
            if ((d =? 46) || (d =? 101) || (d =? 69))%N then Unsupported
            else converted
        | [] => converted
        end
      else if negative && startswith s (utf8 "Infinity") then Unsupported
      else Malformed
  | [] => Malformed
  end.

Definition scan_word (word : string) (v : pyval) (s : str) : outcome pyval :=
  if startswith s (utf8 word)
  then Parsed v (drop (length (utf8 word)) s)
  else Malformed.

(** A value, the elements of an array after its first, and the members
    of an object after its first. *)
Fixpoint scan_value (fuel : nat) (s : str) : outcome pyval :=
  match fuel with
  | O => Unsupported
  | S fuel' =>
      match s with
      | [] => Malformed
      | c :: s' =>
          if (c =? 34)%N then
            match scan_string s' [] with
            | Parsed k rest => Parsed (PStr k) rest
            | Malformed => Malformed
            | TooLong => TooLong
            | Unsupported => Unsupported
            end
          else if (c =? 91)%N then
            match skip_ws s' with
            | d :: s'' =>
                if (d =? 93)%N then Parsed (PList []) s''
                else scan_elements fuel' (d :: s'') []
            | [] => Malformed
            end
          else if (c =? 123)%N then
            match skip_ws s' with
            | d :: s'' =>
                if (d =? 125)%N then Parsed (PDict ∅) s''
                else scan_members fuel' (d :: s'') ∅
            | [] => Malformed
            end
          else if (c =? 45)%N then scan_int true s'
          else if is_digit c then scan_int false s
          else if (c =? 110)%N then scan_word "null" PNone s
          else if (c =? 116)%N then scan_word "true" (PBool true) s
          else if (c =? 102)%N then scan_word "false" (PBool false) s
          else if startswith s (utf8 "NaN") || startswith s (utf8 "Infinity")
          then Unsupported
          else Malformed
      end
  end
with scan_elements (fuel : nat) (s : str) (acc : list pyval) : outcome pyval :=
  match fuel with
  | O => Unsupported
  | S fuel' =>
      match scan_value fuel' s with
      | Parsed v rest =>
          match skip_ws rest with
          | d :: rest' =>
              if (d =? 44)%N then scan_elements fuel' (skip_ws rest') (acc ++ [v])
              else if (d =? 93)%N then Parsed (PList (acc ++ [v])) rest'
              else Malformed
          | [] => Malformed
          end
      | Malformed => Malformed
      | TooLong => TooLong
      | Unsupported => Unsupported
      end
  end
with scan_members (fuel : nat) (s : str) (acc : gmap str pyval) : outcome pyval :=
  match fuel with
  | O => Unsupported
  | S fuel' =>
      match s with
      | q :: s' =>
          if (q =? 34)%N then
            match scan_string s' [] with
            | Parsed k rest =>
                match skip_ws rest with
                | colon :: rest' =>
                    if (colon =? 58)%N then
                      match scan_value fuel' (skip_ws rest') with
                      | Parsed v rest'' =>
                          match skip_ws rest'' with
                          | d :: rest3 =>
                              if (d =? 44)%N
                              then scan_members fuel' (skip_ws rest3) (<[k := v]> acc)
                              else if (d =? 125)%N
                              then Parsed (PDict (<[k := v]> acc)) rest3
                              else Malformed
                          | [] => Malformed
                          end
                      | Malformed => Malformed
                      | TooLong => TooLong
                      | Unsupported => Unsupported
                      end
                    else Malformed
                | [] => Malformed
                end
            | Malformed => Malformed
            | TooLong => TooLong
            | Unsupported => Unsupported
            end
          else Malformed
      | [] => Malformed
      end
  end.

(** [json.loads(s)]: one value, whitespace around it, nothing else.  An
    integer literal of more than [max_str_digits] digits raises the
    ValueError of [int]. *)
Definition loads (s : str) : result pyval :=
  match scan_value (2 * length s + 2) (skip_ws s) with
  | Parsed v rest =>
      match skip_ws rest with
      | [] => Ok v
      | _ :: _ => Raise JSONDecodeError
      end
  | Malformed => Raise JSONDecodeError
  | TooLong => Raise ValueError
  | Unsupported => Raise (OtherException "unsupported")
  end.

(** The whitespace that [int] skips around ASCII text: space, tab, line
    feed, vertical tab, form feed, carriage return. *)
Definition is_space (c : N) : bool := ((c =? 32) || ((9 <=? c) && (c <=? 13)))%N.

Fixpoint skip_space (s : str) : str :=
  match s with
  | c :: s' => if is_space c then skip_space s' else s
  | [] => []
  end.

(** Decimal digits with single underscores between them: their value
    and their number, or nothing when the text is not of that form. *)
Fixpoint grouped_digits (s : str) (after_digit : bool) (acc : Z) (count : nat)
  : option (Z * nat) :=
  match s with
  | [] => if after_digit then Some (acc, count) else None
  | c :: s' =>
      if is_digit c then grouped_digits s' true (10 * acc + (Z.of_N c - 48)) (S count)
      else if (c =? 95)%N && after_digit then grouped_digits s' false acc count
      else None
  end.

(** [int(s)] on ASCII text: whitespace around, an optional sign, decimal
    digits with single underscores between them; ValueError on any other
    ASCII text and on more than [max_str_digits] digits.  [unsupported]
    on characters outside ASCII. *)
Definition int_of_str (s : str) : result Z :=
  if existsb (fun c => (127 <? c)%N) s
  then Raise (OtherException "unsupported")
  else
    let t := rev (skip_space (rev (skip_space s))) in
    let '(negative, digits) :=
      match t with
      | c :: t' => if (c =? 45)%N then (true, t')
                   else if (c =? 43)%N then (false, t') else (false, t)
      | [] => (false, [])
      end in
    match grouped_digits digits false 0 0 with
    | Some (n, count) =>
        if (max_str_digits <? count)%nat then Raise ValueError
        else Ok (if negative then - n else n)
    | None => Raise ValueError
    end.

(** [repr] of floats and containers is not computed: examples never
    read it. *)
Definition repr (v : pyval) : str := utf8 "<repr>".

End JsonFragment.

(** ** The payload selection in the words of the specification

    Section 4.1 describes the selection as "locate a fenced JSON block, or
    fall back to the first top-level [{...}] span"; this module writes
    that description down, to be compared with [roles_json_str]. *)

Module Described.
Import PyStr.

(** The text from a [{] (already read, [depth] braces open) to the
    brace that closes it. *)
Fixpoint close_span (s : str) (depth : nat) (acc : str) : option str :=
  match s with
  | [] => None
  | c :: s' =>
      if (c =? 123)%N then close_span s' (S depth) (c :: acc)
      else if (c =? 125)%N then
        match depth with
        | O => Some (rev (c :: acc))
        | S depth' => close_span s' depth' (c :: acc)
        end
      else close_span s' depth (c :: acc)
  end.

(** The first top-level [{...}] span of [s], wherever it starts. *)
Fixpoint first_brace_span (s : str) : option str :=
  match s with
  | [] => None
  | c :: s' =>
      if (c =? 123)%N then close_span s' 0 [c] else first_brace_span s'
  end.

(** The text between the first [```json] and the next [```]. *)
Definition fenced_block (response : str) : option str :=
  let json_start := find response (utf8 "```json") 0 in
  let json_end := find response (utf8 "```") (json_start + 7) in
  if negb (json_start =? -1) && negb (json_end =? -1)
  then Some (slice response (json_start + 7) json_end)
  else None.

Definition json_payload (response : str) : str :=
  match fenced_block response with
  | Some block => strip block
  | None => default (strip response) (first_brace_span response)
  end.

(** Decode the described payload and read [roles] as the source does. *)
Definition parse_roles (json_loads : str -> result pyval) (response : str)
  : result pyval :=
  try_except
    (data ← json_loads (json_payload response);
     found ← Py.contains (utf8 "roles") data;
     if found : bool then Py.getitem data (utf8 "roles")
     else Ok (PList []))
    (fun e =>
       match e with
       | JSONDecodeError => Raise (RuntimeError "角色解析失败: 无法解析JSON")
       | _ => Raise e
       end).
End Described.

(** ** The permission parser in the words of the specification

    By section 4.2 the permission response is decoded with "the same
    fenced-JSON-or-brace-scan strategy as §4.1"; read as "the two
    parsers differ only in which key they read from the decoded object",
    the permission parser is the role parser with another key.  This
    module writes that reading down, to be compared with
    [_parse_permissions_from_response]. *)

Module DescribedByKey.
Import PyStr.

(** The role parser, reading [key] instead of "roles". *)
Definition parse_key (json_loads : str -> result pyval) (key : string)
    (response : str) : result pyval :=
  try_except
    (data ← json_loads (roles_json_str response);
     found ← Py.contains (utf8 key) data;
     if found : bool then Py.getitem data (utf8 key)
     else Ok (PList []))
    (fun e =>
       match e with
       | JSONDecodeError => Raise (RuntimeError "角色解析失败: 无法解析JSON")
       | _ => Raise e
       end).

End DescribedByKey.

(** ** The round loop of the self-play engine

    [game/core/self_game/game_engine.py] is not among the sources at
    hand; the loop is written from section 4.4 of the specification. *)

Module RoundEngine.

(** Modelled from the spec: the decision tag of a RoundRecord, "continue
    | terminate" (the data model module is missing). *)
Inductive Decision := Continue | Terminate.

(** Modelled from the spec: what the GENERATE, CRITIQUE, NOVELTY and
    AGGREGATE phases of one round deliver (the phases themselves are
    missing): the surviving actor outputs by agent, the three means,
    and the Pareto front. *)
Record RoundOutcome := {
  actor_outputs : list str;
  average_critical_score : Q;
  average_novelty_score : Q;
  average_satisfaction_score : Q;
  pareto_front : list str
}.

(** Modelled from the spec: the RoundRecord of section 3 (the data
    model module is missing), without the per-agent payloads. *)
Record RoundRecord := {
  round_number : Z;
  decision : Decision;
  failed : bool;
  outcome : RoundOutcome
}.

(** Modelled from the spec: whether the session is still appended to or
    frozen at termination (the engine is missing). *)
Inductive Status := Running | Finished.

(** Modelled from the spec: the Session of section 3 while the engine
    appends to it. *)
Record Session := {
  session_task : Task;
  rounds : list RoundRecord;
  status : Status
}.

Section Engine.
(** Modelled from the spec: the deployment-configured epsilon and
    Pareto-front size of the DECIDE phase (section 9 leaves their
    values open). *)
Variable epsilon : Q.
Variable front_size : nat.

(** Modelled from the spec: the phases of round [n] after the given
    earlier rounds; their result comes from external capabilities. *)
Variable run_phases : Task -> list RoundRecord -> Z -> RoundOutcome.

(** Modelled from the spec: "the round-over-round improvement of the
    mean critical score falls below a configured epsilon and the
    Pareto front has collapsed to a single candidate" (the DECIDE
    phase is missing). *)
Definition converged (earlier : list RoundRecord) (o : RoundOutcome) : bool :=
  match last earlier with
  | None => false
  | Some previous =>
      (if Qlt_le_dec (average_critical_score o
                      - average_critical_score (outcome previous)) epsilon
       then true else false)
      && (length (pareto_front o) <=? front_size)%nat
  end.

(** Modelled from the spec: DECIDE (the engine is missing):
    "terminate when round_number reaches task.max_iterations, or when
    [converged]; otherwise continue"; a round in which every agent
    failed terminates the session. *)
Definition decide (task : Task) (earlier : list RoundRecord) (n : Z)
    (o : RoundOutcome) : Decision :=
  if n =? max_iterations task then Terminate
  else if nonempty (actor_outputs o) && negb (converged earlier o)
  then Continue else Terminate.

(** Modelled from the spec: one round (the engine is missing): run
    the phases, decide, append the record once. *)
Definition play_round (s : Session) : Session :=
  let n := Z.of_nat (length (rounds s)) + 1 in
  let o := run_phases (session_task s) (rounds s) n in
  let d := decide (session_task s) (rounds s) n o in
  {| session_task := session_task s;
     rounds := rounds s ++ [{| round_number := n; decision := d;
                               failed := negb (nonempty (actor_outputs o));
                               outcome := o |}];
     status := match d with Continue => Running | Terminate => Finished end |}.

(** Modelled from the spec: the loop (the engine is missing): rounds
    are played until one decides to terminate; [fuel] bounds the
    rounds this function is willing to play. *)
Fixpoint play (fuel : nat) (s : Session) : Session :=
  match fuel with
  | O => s
  | S fuel' =>
      match status s with
      | Finished => s
      | Running => play fuel' (play_round s)
      end
  end.

(** Modelled from the spec: [start_game_session(task, agents,
    context)] (the engine is missing), up to the selection of the
    final result. *)
Definition start_game_session (fuel : nat) (task : Task) : Session :=
  play fuel {| session_task := task; rounds := []; status := Running |}.
End Engine.

(** What the loop keeps true of a session. *)
Definition within_bound (s : Session) : Prop :=
  (status s = Running ->
   Z.of_nat (length (rounds s)) < max_iterations (session_task s))
  /\ Z.of_nat (length (rounds s)) <= max_iterations (session_task s)
  /\ Forall (fun r => 1 <= round_number r <= max_iterations (session_task s))
       (rounds s).
End RoundEngine.

(** ** What the payload selection is stated against *)

Module Selection.
Import PyStr.

(** [response] holds a fenced block with text [body]: its first
    [```json], then [body] up to the first [```] after that opener. *)
Definition fenced (response body : str) : Prop :=
  exists pre post,
    response = pre ++ utf8 "```json" ++ body ++ utf8 "```" ++ post
    /\ (forall i, (i < length pre)%nat -> ~ occurs_at (utf8 "```json") response i)
    /\ (forall i, (i < length body)%nat ->
          ~ occurs_at (utf8 "```") (body ++ utf8 "```" ++ post) i).

Definition close_brace : N := 125%N.

(** [payload] is [t] cut after its last [}], and is empty when [t] has
    no [}]. *)
Definition cut_after_last_brace (t payload : str) : Prop :=
  (exists a rest, t = payload ++ rest /\ payload = a ++ [close_brace]
                  /\ (close_brace ∉ rest))
  \/ ((close_brace ∉ t) /\ payload = []).
End Selection.

(** The role a complete candidate becomes at lines 214-221, before the
    test of line 224. *)
Definition role_of_fields (py_repr : pyval -> str)
    (v_name v_role_type v_responsibilities v_skills v_output : pyval)
    (priority : Z) : GeneratedRole :=
  {| name := PyStr.strip (py_str py_repr v_name);
     role_type := PyStr.strip (py_str py_repr v_role_type);
     responsibilities := _ensure_list py_repr v_responsibilities;
     skills := _ensure_list py_repr v_skills;
     output_requirements := PyStr.strip (py_str py_repr v_output);
     priority_level := priority |}.

(** [sorted] is [original] in descending order of [key], elements with
    equal keys in the order they have in [original]. *)
Definition stable_descending {A} (key : A -> Z) (original sorted : list A) : Prop :=
  Permutation sorted original
  /\ StronglySorted (fun a b => key b <= key a) sorted
  /\ forall p, List.filter (fun x => key x =? p) sorted
               = List.filter (fun x => key x =? p) original.

(** ** Concrete inputs *)

Module Examples.
Import PyStr.

(** [{"name": "Planner", "role_type": "lead", "responsibilities":
    ["plan"], "skills": ["planning"], "output_requirements": "a plan",
    "priority_level": 8}] *)
Definition planner_json : str :=
  utf8 "{" ++ quoted "name" ++ utf8 ": " ++ quoted "Planner" ++ utf8 ", "
  ++ quoted "role_type" ++ utf8 ": " ++ quoted "lead" ++ utf8 ", "
  ++ quoted "responsibilities" ++ utf8 ": [" ++ quoted "plan" ++ utf8 "], "
  ++ quoted "skills" ++ utf8 ": [" ++ quoted "planning" ++ utf8 "], "
  ++ quoted "output_requirements" ++ utf8 ": " ++ quoted "a plan" ++ utf8 ", "
  ++ quoted "priority_level" ++ utf8 ": 8}".

Definition planner : GeneratedRole :=
  {| name := utf8 "Planner"; role_type := utf8 "lead";
     responsibilities := [utf8 "plan"]; skills := [utf8 "planning"];
     output_requirements := utf8 "a plan"; priority_level := 8 |}.

(** The decoded [planner_json]. *)
Definition planner_value : pyval :=
  PDict (<[utf8 "name" := PStr (utf8 "Planner")]>
         (<[utf8 "role_type" := PStr (utf8 "lead")]>
         (<[utf8 "responsibilities" := PList [PStr (utf8 "plan")]]>
         (<[utf8 "skills" := PList [PStr (utf8 "planning")]]>
         (<[utf8 "output_requirements" := PStr (utf8 "a plan")]>
         (<[utf8 "priority_level" := PInt 8]> ∅)))))).

(** A complete candidate with the given name and, when there is one,
    the given [priority_level]. *)
Definition candidate (who : string) (priority : option Z) : pyval :=
  let fields : gmap str pyval :=
    <[utf8 "name" := PStr (utf8 who)]>
    (<[utf8 "role_type" := PStr (utf8 "member")]>
    (<[utf8 "responsibilities" := PList [PStr (utf8 "work")]]>
    (<[utf8 "skills" := PStr (utf8 "craft")]>
    (<[utf8 "output_requirements" := PStr (utf8 "a report")]> ∅)))) in
  PDict match priority with
        | Some p => <[utf8 "priority_level" := PInt p]> fields
        | None => fields
        end.

(** The role [candidate who priority] becomes. *)
Definition member (who : string) (priority : Z) : GeneratedRole :=
  {| name := utf8 who; role_type := utf8 "member";
     responsibilities := [utf8 "work"]; skills := [utf8 "craft"];
     output_requirements := utf8 "a report"; priority_level := priority |}.

(** [{"roles": [ ...planner... ]}] *)
Definition roles_document : str :=
  utf8 "{" ++ quoted "roles" ++ utf8 ": [" ++ planner_json ++ utf8 "]}".

(** The document inside a fenced block, with text around it. *)
Definition fenced_response : str :=
  utf8 "Here is the team." ++ newline ++ utf8 "```json" ++ newline
  ++ roles_document ++ newline ++ utf8 "```" ++ newline ++ utf8 "Done.".

(** The document after a sentence, without a fence. *)
Definition prose_response : str := utf8 "The team: " ++ roles_document.

(** [{"permissions": {"Planner": []}}] *)
Definition permissions_document : str :=
  utf8 "{" ++ quoted "permissions" ++ utf8 ": {" ++ quoted "Planner"
  ++ utf8 ": []}}".

Definition task : Task :=
  {| task_id := utf8 "t1"; description := utf8 "design a diet app";
     domain := utf8 "product"; requirements := [utf8 "advice"];
     constraints := [utf8 "two weeks"]; max_iterations := 3 |}.

(** A conversation that answers its n-th call with the n-th text. *)
Definition scripted (answers : list str) : conversation :=
  fun earlier _ =>
    match answers !! length earlier with
    | Some answer => Ok answer
    | None => Raise (OtherException "no answer left")
    end.

Definition distributor (answers : list str) : Distributor :=
  {| naga_conversation := Some (scripted answers) |}.
(** Four complete candidates, the third without a priority_level. *)
Definition four_candidates : list pyval :=
  [candidate "a" (Some 5); candidate "b" (Some 9); candidate "c" None;
   candidate "d" (Some 9)].

Definition request_for (range : Z * Z) : RoleGenerationRequest :=
  role_generation_request task range.

(** Rounds that never converge: every agent answers, the mean critical
    score grows by one each round, the front keeps two candidates. *)
Definition steady_phases (t : Task) (earlier : list RoundEngine.RoundRecord) (n : Z)
  : RoundEngine.RoundOutcome :=
  {| RoundEngine.actor_outputs := [utf8 "a1"; utf8 "a2"];
     RoundEngine.average_critical_score := inject_Z n;
     RoundEngine.average_novelty_score := 1 # 2;
     RoundEngine.average_satisfaction_score := 1 # 2;
     RoundEngine.pareto_front := [utf8 "a1"; utf8 "a2"] |}.
End Examples.

(** ** Construction of a Distributor (lines 20-45) *)

(** [ImportError] and its subclasses. *)
Definition ImportError : exn := OtherException "ImportError".

Definition is_ImportError (e : exn) : bool :=
  match e with
  | OtherException kind => String.eqb kind "ImportError"
  | _ => false
  end.

Section DistributorConstruction.

(** [from apiserver.llm_service import get_llm_service], which can raise,
    and what the call [get_llm_service()] then gives, which can raise
    too. *)
Variable import_get_llm_service : result (result conversation).

Definition _init_naga_api (self : Distributor) : result Distributor :=
  match naga_conversation self with
  | None =>
      try_except
        (get_llm_service ← import_get_llm_service;
         service ← get_llm_service;
         Ok {| naga_conversation := Some service |})
        (fun e =>
           if is_ImportError e then Ok {| naga_conversation := None |}
           else Raise e)
  | Some _ => Ok self
  end.

(** [Distributor(config, naga_conversation, auto_init_api)]; the
    configuration is stored and not read by any method. *)
Definition __init__ (naga_conversation : option conversation) (auto_init_api : bool)
  : result Distributor :=
  let self := {| naga_conversation := naga_conversation |} in
  if auto_init_api && match naga_conversation with None => true | Some _ => false end
  then _init_naga_api self
  else Ok self.

End DistributorConstruction.

(** What [_build_permission_assignment_prompt] reads of a role. *)
Definition roster_view (role : GeneratedRole) : str * str * list str * Z :=
  (name role, role_type role, take 3 (responsibilities role), priority_level role).

(** A text with something in it and no whitespace around it. *)
Definition clean_text (s : str) : Prop := s <> [] /\ PyStr.strip s = s.

(** The fields of a complete candidate whose [priority_level] is the
    given value. *)
Definition fields_with_priority (priority : pyval) : gmap str pyval :=
  <[PyStr.utf8 "priority_level" := priority]>
  (<[PyStr.utf8 "name" := PStr (PyStr.utf8 "a")]>
  (<[PyStr.utf8 "role_type" := PStr (PyStr.utf8 "member")]>
  (<[PyStr.utf8 "responsibilities" := PList [PStr (PyStr.utf8 "work")]]>
  (<[PyStr.utf8 "skills" := PStr (PyStr.utf8 "craft")]>
  (<[PyStr.utf8 "output_requirements" := PStr (PyStr.utf8 "a report")]> ∅))))).

(** ** The flow logger ([game/full_flow_logger.py]) and the gated run
       ([game/full_test_fix.py]) *)

Module FullFlow.
Import PyStr.

(** [bool(v)] *)
Definition truthy (v : pyval) : bool :=
  match v with
  | PNone => false
  | PBool b => b
  | PInt n => negb (n =? 0)
  | PFloat f => match f with S754_zero _ => false | _ => true end
  | PStr s => nonempty s
  | PList l => nonempty l
  | PDict d => nonempty (map_to_list d)
  end.

(** [a or b] *)
Definition py_or (a b : pyval) : pyval := if truthy a then a else b.

(** [data.get(key)] *)
Definition data_get (data : gmap str pyval) (key : string) : pyval :=
  default PNone (data !! utf8 key).

(** [data[key]] *)
Definition data_item (data : gmap str pyval) (key : string) : result pyval :=
  match data !! utf8 key with
  | Some v => Ok v
  | None => Raise KeyError
  end.

(** [len(v)] *)
Definition py_len (v : pyval) : result Z :=
  match v with
  | PStr s => Ok (Z.of_nat (length s))
  | PList l => Ok (Z.of_nat (length l))
  | PDict d => Ok (Z.of_nat (length (map_to_list d)))
  | PNone | PBool _ | PInt _ | PFloat _ => Raise TypeError
  end.

(** ["\n".join(lines)]: every line has to be a [str]. *)
Fixpoint all_text (lines : list pyval) : result (list str) :=
  match lines with
  | [] => Ok []
  | PStr s :: rest => rest' ← all_text rest; Ok (s :: rest')
  | _ :: _ => Raise TypeError
  end.

Definition join_lines (lines : list pyval) : result str :=
  texts ← all_text lines; Ok (PySeq.join newline texts).

Definition text (s : string) : pyval := PStr (utf8 s).

(** A record handed to the [logging.Logger]: its level, its message
    with the arguments filled in, and whether the traceback of the
    exception being handled goes with it ([exc_info=True]).  The time
    that the formatter puts before each record is left out. *)
Inductive level := DEBUG | INFO | ERROR.

Record log_record := {
  record_level : level;
  record_message : str;
  exc_info : bool
}.

Definition debug (message : str) : log_record :=
  {| record_level := DEBUG; record_message := message; exc_info := false |}.

Definition info (message : str) : log_record :=
  {| record_level := INFO; record_message := message; exc_info := false |}.


(** The objects the system hands back, by the attributes the run reads
    of them.  What the run only stores or formats is an arbitrary value;
    the collections it measures with [len] are lists. *)
Record Agent := {
  agent_name : pyval;
  agent_role : pyval;
  is_requester : pyval;
  connection_permissions : list str
}.

Record InteractionGraph := { graph_agents : list Agent }.

Record Response := { content : pyval }.

Record ActorOutput := { actor_content : pyval }.

Record GameResult := { actor_output : option ActorOutput }.

Record Round := {
  round_number : pyval;
  round_phase : pyval;
  round_decision : pyval
}.

Record GameSession := {
  session_rounds : option (list Round);
  final_result : option GameResult
}.

(** What lies outside the logger and the run. *)
Class World := {
  (** The clock: a type of instants, the successive readings of
      [datetime.now()], and the operations the logger applies to an
      instant; [total_seconds later earlier] is
      [(later - earlier).total_seconds()]. *)
  time : Type;
  now : nat -> time;
  isoformat : time -> str;
  strftime : time -> string -> str;
  total_seconds : time -> time -> spec_float;
  (** [format(v, ".2f")], which, when it returns, is also what
      ["%.2f" % v] gives; the [repr] behind [str(v)]; and
      [json.dumps(v, ensure_ascii=False, indent=2)] for a dictionary
      whose keys are in the order of the literal that the run logs.  The
      last two are taken to return: an int of more digits than CPython
      converts to text (4300 by default) is not considered. *)
  format_2f : pyval -> result str;
  py_repr : pyval -> str;
  json_dumps : pyval -> str;
  (** [str(error)] for an exception that is not a RuntimeError. *)
  exception_text : exn -> str;
  (** [str(directory / name)] *)
  joinpath : str -> str -> str;
  (** [NagaGameSystem] is opaque to the logger and to the run: its
      construction, and the four calls into it, each of which may raise
      and may change the system.  What they raise is an exception of the
      class Exception, which the [except] clause of the run catches.  A
      call is taken to leave the objects passed to it as they are. *)
  System : Type;
  make_system : result System;
  generate_agents_only :
    System -> Task -> option (Z * Z) -> result (list Agent) * System;
  _execute_interaction_graph_phase :
    System -> list Agent -> Task -> result InteractionGraph * System;
  process_user_request :
    System -> str -> InteractionGraph -> str -> result Response * System;
  start_game_session :
    System -> Task -> list Agent -> result GameSession * System;
  (** The configuration file (absent, or the outcome of reading and
      decoding it), the clock of [time.time()] and the default
      [max_iterations] of a Task. *)
  config_file : option (result pyval);
  unix_time : Z;
  default_max_iterations : Z
}.

Section Environment.
Context `{W : World}.

Definition str_of_exn (e : exn) : str :=
  match e with
  | RuntimeError msg => utf8 msg
  | _ => exception_text e
  end.

(** [f"{v}"] *)
Definition shown (v : pyval) : str := py_str py_repr v.

(** The logger object; [_naga_system] is the attribute the setup phase
    of the run attaches to it.  Its [logging.Logger] is the one that
    [_configure_logger] sets up when no logger is passed to the
    constructor: level DEBUG, a FileHandler on [log_file] at level DEBUG,
    a StreamHandler at level INFO, no propagation. *)
Record FullFlowTestLogger := {
  test_name : str;
  start_time : time;
  log_dir : str;
  log_file : str;
  report_file : str;
  test_data : gmap str pyval;
  _naga_system : option System
}.

(** What a run can change: the logger, how often the clock has been
    read, the files written with [write_text], and the log file: [log]
    holds the records that the [logging.Logger] has handed to its
    FileHandler since the logger was made, all of them, in their order.
    The handler appends each to [log_file]; a record whose text it can
    not encode is dropped there without an exception. *)
Record state := {
  logger : FullFlowTestLogger;
  clock_reads : nat;
  files : list (str * str);
  log : list log_record
}.

(** What the StreamHandler has shown: the records of level INFO and
    above. *)
Definition console (s : state) : list log_record :=
  List.filter (fun record => match record_level record with
                             | DEBUG => false
                             | INFO | ERROR => true
                             end) (log s).

Definition H (A : Type) : Type := state -> result A * state.

#[global] Instance H_ret : MRet H := fun _ a s => (Ok a, s).
#[global] Instance H_bind : MBind H := fun _ _ f m s =>
  match m s with
  | (Ok a, s') => f a s'
  | (Raise e, s') => (Raise e, s')
  end.

Definition fail {A} (e : exn) : H A := fun s => (Raise e, s).
Definition of_result {A} (r : result A) : H A := fun s => (r, s).

(** [try: body except Exception as exc: handler(exc)] *)
Definition try_catch {A} (body : H A) (handler : exn -> H A) : H A :=
  fun s =>
    match body s with
    | (Ok a, s') => (Ok a, s')
    | (Raise e, s') => handler e s'
    end.

(** [datetime.now()] *)
Definition read_clock : H time :=
  fun s => (Ok (now (clock_reads s)),
            {| logger := logger s; clock_reads := S (clock_reads s); files := files s;
               log := log s |}).

Definition the_logger : H FullFlowTestLogger := fun s => (Ok (logger s), s).

Definition the_data : H (gmap str pyval) := fun s => (Ok (test_data (logger s)), s).

Definition with_data (l : FullFlowTestLogger) (data : gmap str pyval)
  : FullFlowTestLogger :=
  {| test_name := test_name l; start_time := start_time l; log_dir := log_dir l;
     log_file := log_file l; report_file := report_file l; test_data := data;
     _naga_system := _naga_system l |}.

(** [self.test_data[key] = value] *)
Definition set_data (key : string) (value : pyval) : H unit :=
  fun s =>
    (Ok tt,
     {| logger := with_data (logger s) (<[utf8 key := value]> (test_data (logger s)));
        clock_reads := clock_reads s; files := files s; log := log s |}).

(** [path.write_text(text, encoding="utf-8")]; a failing file system is
    not modelled. *)
Definition write_text (path text : str) : H unit :=
  fun s =>
    (Ok tt, {| logger := logger s; clock_reads := clock_reads s;
               files := files s ++ [(path, text)]; log := log s |}).

(** A call of [self.logger.debug], [info] or [error]: the record goes to
    the log file and, from INFO on, to the console.  A message that can
    not be formatted is dealt with by the callers below: the handlers
    drop such a record and nothing is raised. *)
Definition emit (record : log_record) : H unit :=
  fun s =>
    (Ok tt, {| logger := logger s; clock_reads := clock_reads s; files := files s;
               log := log s ++ [record] |}).

Definition _initial_state (test_name : str) (start_time : time) : gmap str pyval :=
  <[utf8 "test_name" := PStr test_name]>
  (<[utf8 "start_time" := PStr (isoformat start_time)]>
  (<[utf8 "end_time" := PNone]>
  (<[utf8 "user_question" := PNone]>
  (<[utf8 "inferred_domain" := PNone]>
  (<[utf8 "generated_agents" := PList []]>
  (<[utf8 "interaction_graph" := PNone]>
  (<[utf8 "game_rounds" := PList []]>
  (<[utf8 "final_result" := PNone]>
  (<[utf8 "execution_time" := PNone]>
  (<[utf8 "success" := PBool false]>
  (<[utf8 "errors" := PList []]>
  (<[utf8 "pareto_front" := PList []]>
  (<[utf8 "prompt_export_file" := PNone]> ∅))))))))))))).

(** [FullFlowTestLogger(test_name, log_root)] with no logger passed, at
    a moment when the clock has been read [reads] times.  The
    FileHandler of [_configure_logger] opens [log_file] for appending,
    which creates the file, and has not yet been handed a record.
    Making the directory is not modelled. *)
Definition new_logger (test_name : str) (log_root : option str) (reads : nat) : state :=
  let start_time := now reads in
  let log_dir := default (utf8 "logs/full_flow_test") log_root in
  let timestamp := strftime start_time "%Y%m%d_%H%M%S" in
  {| logger :=
       {| test_name := test_name;
          start_time := start_time;
          log_dir := log_dir;
          log_file := joinpath log_dir (utf8 "test_" ++ timestamp ++ utf8 ".log");
          report_file := joinpath log_dir (utf8 "result_" ++ timestamp ++ utf8 ".md");
          test_data := _initial_state test_name start_time;
          _naga_system := None |};
     clock_reads := S reads;
     files := [];
     log := [] |}.

Definition log_step (step : string) (data : option pyval) : H unit :=
  emit (info (utf8 "Step: " ++ utf8 step));;
  match data with
  | Some data => emit (debug (utf8 "data=" ++ json_dumps data))
  | None => mret tt
  end.

Definition log_node_output (node_name : pyval) (node_type : str) (output : pyval)
  : H unit :=
  emit (info (utf8 "Node[" ++ node_type ++ utf8 "/" ++ shown node_name ++ utf8 "]: "
              ++ shown output)).

(** The entry that [log_error] appends. *)
Definition error_record (error : exn) (context : string) (moment : time) : pyval :=
  PDict (<[utf8 "context" :=
             PStr (if nonempty (utf8 context) then utf8 context else utf8 "general")]>
         (<[utf8 "error" := PStr (str_of_exn error)]>
         (<[utf8 "timestamp" := PStr (isoformat moment)]> ∅))).

(** The record that [log_error] hands to the [logging.Logger]. *)
Definition error_log (error : exn) (context : string) : log_record :=
  let label :=
    if nonempty (utf8 context) then utf8 " (" ++ utf8 context ++ utf8 ")" else [] in
  {| record_level := ERROR;
     record_message := utf8 "Error" ++ label ++ utf8 ": " ++ str_of_exn error;
     exc_info := true |}.

Definition log_error (error : exn) (context : string) : H unit :=
  emit (error_log error context);;
  data ← the_data;
  errors ← of_result (data_item data "errors");
  match errors with
  | PList entries =>
      moment ← read_clock;
      set_data "errors" (PList (entries ++ [error_record error context moment]))
  | _ => fail AttributeError
  end.

(** The lines of the agent overview, one for each agent. *)
Fixpoint agent_lines (agents : list pyval) : result (list pyval) :=
  match agents with
  | [] => Ok []
  | agent :: rest =>
      name ← Py.get agent (utf8 "name") PNone;
      role ← Py.get agent (utf8 "role") PNone;
      requester ← Py.get agent (utf8 "is_requester") PNone;
      let marker := if truthy requester then utf8 "需求方" else utf8 "执行者" in
      lines ← agent_lines rest;
      Ok (PStr (utf8 "- " ++ shown (py_or name (text "Unknown")) ++ utf8 " (" ++ marker
                ++ utf8 ", 角色: " ++ shown (py_or role (text "N/A")) ++ utf8 ")")
          :: lines)
  end.

(** The lines of the error section, one for each logged error. *)
Fixpoint error_lines (errors : list pyval) : result (list pyval) :=
  match errors with
  | [] => Ok []
  | err :: rest =>
      context ← Py.getitem err (utf8 "context");
      error ← Py.getitem err (utf8 "error");
      lines ← error_lines rest;
      Ok (PStr (utf8 "- **" ++ shown context ++ utf8 "**: " ++ shown error) :: lines)
  end.

(** The summary at the head of the report. *)
Definition summary_lines (data : gmap str pyval) : result (list pyval) :=
  let end_time := py_or (data_get data "end_time") (text "N/A") in
  let exec_time := py_or (data_get data "execution_time") (PFloat (S754_zero false)) in
  let result_label :=
    if truthy (data_get data "success") then utf8 "✅ 成功" else utf8 "❌ 失败" in
  v_name ← data_item data "test_name";
  v_start ← data_item data "start_time";
  seconds ← format_2f exec_time;
  Ok [ text "# NagaAgent Game 全流程测试报告";
       PStr [];
       text "## 测试概要";
       PStr (utf8 "- **测试名称**: " ++ shown v_name);
       PStr (utf8 "- **开始时间**: " ++ shown v_start);
       PStr (utf8 "- **结束时间**: " ++ shown end_time);
       PStr (utf8 "- **执行时间**: " ++ seconds ++ utf8 "秒");
       PStr (utf8 "- **测试结果**: " ++ result_label) ].

(** The sections that follow, each an [if] of the source that extends
    [lines]. *)
Definition question_section (data : gmap str pyval) (lines : list pyval)
  : result (list pyval) :=
  if truthy (data_get data "user_question")
  then question ← data_item data "user_question";
       Ok (lines ++ [PStr []; text "## 用户输入"; question])
  else Ok lines.

Definition domain_section (data : gmap str pyval) (lines : list pyval)
  : result (list pyval) :=
  if truthy (data_get data "inferred_domain")
  then v_domain ← data_item data "inferred_domain";
       Ok (lines ++ [PStr []; text "## 领域推断";
                     PStr (utf8 "- **结果**: " ++ shown v_domain)])
  else Ok lines.

Definition agents_section (data : gmap str pyval) (lines : list pyval)
  : result (list pyval) :=
  let agents := py_or (data_get data "generated_agents") (PList []) in
  if truthy agents
  then listed ← Py.iter agents;
       overview ← agent_lines listed;
       Ok (lines ++ [PStr []; text "## 智能体概览"] ++ overview)
  else Ok lines.

Definition graph_section (data : gmap str pyval) (lines : list pyval)
  : result (list pyval) :=
  if truthy (data_get data "interaction_graph")
  then graph ← data_item data "interaction_graph";
       agent_count ← Py.get graph (utf8 "agent_count") (text "N/A");
       connections ← Py.get graph (utf8 "connections") (text "N/A");
       Ok (lines ++ [PStr []; text "## 交互图摘要";
                     PStr (utf8 "- **智能体数量**: " ++ shown agent_count);
                     PStr (utf8 "- **连接数量**: " ++ shown connections)])
  else Ok lines.

Definition rounds_section (data : gmap str pyval) (lines : list pyval)
  : result (list pyval) :=
  let rounds := py_or (data_get data "game_rounds") (PList []) in
  if truthy rounds
  then count ← py_len rounds;
       Ok (lines ++ [PStr []; text "## 博弈统计";
                     PStr (utf8 "- **轮次数量**: " ++ Py.str_of_int count)])
  else Ok lines.

Definition front_section (data : gmap str pyval) (lines : list pyval)
  : result (list pyval) :=
  if truthy (data_get data "pareto_front")
  then front ← data_item data "pareto_front";
       count ← py_len front;
       Ok (lines ++ [PStr []; text "## 帕累托前沿";
                     PStr (utf8 "- **方案数量**: " ++ Py.str_of_int count)])
  else Ok lines.

Definition export_section (data : gmap str pyval) (lines : list pyval)
  : result (list pyval) :=
  if truthy (data_get data "prompt_export_file")
  then file ← data_item data "prompt_export_file";
       Ok (lines ++ [PStr []; text "## 提示词导出";
                     PStr (utf8 "- **文件**: " ++ shown file)])
  else Ok lines.

Definition final_section (data : gmap str pyval) (lines : list pyval)
  : result (list pyval) :=
  if truthy (data_get data "final_result")
  then final ← data_item data "final_result";
       Ok (lines ++ [PStr []; text "## 最终结果"; final])
  else Ok lines.

Definition errors_section (data : gmap str pyval) (lines : list pyval)
  : result (list pyval) :=
  let errors := py_or (data_get data "errors") (PList []) in
  let lines := lines ++ [PStr []; text "## 错误信息"] in
  if truthy errors
  then listed ← Py.iter errors;
       bullets ← error_lines listed;
       Ok (lines ++ bullets)
  else Ok (lines ++ [text "无"]).

(** The lines of the report before the footer. *)
Definition report_body (data : gmap str pyval) : result (list pyval) :=
  lines ← summary_lines data;
  lines ← question_section data lines;
  lines ← domain_section data lines;
  lines ← agents_section data lines;
  lines ← graph_section data lines;
  lines ← rounds_section data lines;
  lines ← front_section data lines;
  lines ← export_section data lines;
  lines ← final_section data lines;
  errors_section data lines.

Definition _build_report : H str :=
  data ← the_data;
  lines ← of_result (report_body data);
  moment ← read_clock;
  of_result
    (join_lines
       (lines ++ [PStr [];
                  PStr (utf8 "*报告生成时间: " ++ strftime moment "%Y-%m-%d %H:%M:%S"
                        ++ utf8 "*");
                  PStr []])).

Definition _write_report : H unit :=
  self ← the_logger;
  report ← _build_report;
  write_text (report_file self) report.

(** The two records that close [finalize_test].  A duration that
    ["%.2f"] can not format makes the handlers drop the first one. *)
Definition finished_log (success : bool) (seconds : str) : log_record :=
  info (utf8 "Test finished: " ++ (if success then utf8 "成功" else utf8 "失败")
        ++ utf8 " (" ++ seconds ++ utf8 " 秒)").

Definition written_log (report_file : str) : log_record :=
  info (utf8 "Report written to " ++ report_file).

Definition finalize_test (success : bool) : H unit :=
  end_time ← read_clock;
  self ← the_logger;
  set_data "end_time" (PStr (isoformat end_time));;
  set_data "execution_time" (PFloat (total_seconds end_time (start_time self)));;
  set_data "success" (PBool success);;
  _write_report;;
  data ← the_data;
  let duration := py_or (data_get data "execution_time") (PFloat (S754_zero false)) in
  match format_2f duration with
  | Ok seconds => emit (finished_log success seconds)
  | Raise _ => mret tt
  end;;
  emit (written_log (report_file self)).

(** *** The gated run ([game/full_test_fix.py]) *)


(** The [data] of a PhaseResult, by the phase that made it. *)
Inductive phase_data :=
| SetupData (config : pyval) (naga_system : System)
| TaskData (task : Task)
| AgentsData (agents : list Agent)
| GraphData (interaction_graph : InteractionGraph)
| ResponseData (response : Response)
| SessionData (session : GameSession).

Record PhaseResult := { name : str; data : phase_data }.

Definition with_system (l : FullFlowTestLogger) (system : option System)
  : FullFlowTestLogger :=
  {| test_name := test_name l; start_time := start_time l; log_dir := log_dir l;
     log_file := log_file l; report_file := report_file l;
     test_data := test_data l; _naga_system := system |}.

(** [logger._naga_system = naga_system] *)
Definition set_system (system : System) : H unit :=
  fun s =>
    (Ok tt, {| logger := with_system (logger s) (Some system);
               clock_reads := clock_reads s; files := files s; log := log s |}).

(** A call into the system: its outcome, and the system as the call
    leaves it. *)
Definition call {A} (outcome : result A * System) : H A :=
  fun s =>
    (fst outcome, {| logger := with_system (logger s) (Some (snd outcome));
                     clock_reads := clock_reads s; files := files s; log := log s |}).

Definition _require_system : H System :=
  self ← the_logger;
  match _naga_system self with
  | None => fail (RuntimeError "System not initialised; setup phase must run first")
  | Some system => mret system
  end.

Definition _summarize_rounds (rounds : option (list Round)) : list pyval :=
  List.map
    (fun rnd =>
       PDict (<[utf8 "round" := round_number rnd]>
              (<[utf8 "phase" := round_phase rnd]>
              (<[utf8 "decision" := round_decision rnd]> ∅))))
    (default [] rounds).

Definition phase_names (phases : list PhaseResult) : pyval :=
  PList (List.map (fun phase => PStr (name phase)) phases).

(** [len(agent_phase.data.get("agents", []))] *)
Definition agents_in (d : phase_data) : Z :=
  match d with
  | AgentsData agents => Z.of_nat (length agents)
  | _ => 0
  end.

(** The dictionary that [_finalize] returns. *)
Definition result_of (self : FullFlowTestLogger) (phases : list PhaseResult)
    (success : bool) (reason : string) (extra : option (gmap str pyval))
  : gmap str pyval :=
  let result : gmap str pyval :=
    <[utf8 "success" := PBool success]>
    (<[utf8 "log_file" := PStr (log_file self)]>
    (<[utf8 "report_file" := PStr (report_file self)]>
    (<[utf8 "phases" := phase_names phases]>
    (<[utf8 "termination_reason" := text reason]> ∅)))) in
  let result :=
    match List.find (fun phase => PyStr.eqb (name phase) (utf8 "agents")) phases with
    | Some agent_phase =>
        <[utf8 "agents_generated" := PInt (agents_in (data agent_phase))]> result
    | None => result
    end in
  match extra with
  | Some more => more ∪ result
  | None => result
  end.

Definition _finalize (phases : list PhaseResult) (success : bool) (reason : string)
    (extra : option (gmap str pyval)) : H (gmap str pyval) :=
  set_data "phases" (phase_names phases);;
  set_data "termination_reason" (text reason);;
  finalize_test success;;
  self ← the_logger;
  mret (result_of self phases success reason extra).

Definition _phase_setup : H PhaseResult :=
  log_step "系统初始化" None;;
  config_data ←
    match config_file with
    | Some loaded =>
        config_data ← of_result loaded;
        log_step "配置加载成功" (Some (PDict (<[utf8 "has_config" := PBool true]> ∅)));;
        mret config_data
    | None =>
        log_step "使用默认配置" None;;
        mret (PDict ∅)
    end;
  naga_system ← of_result make_system;
  log_step "NagaGameSystem创建成功" None;;
  set_data "config" (PDict (<[utf8 "loaded" := PBool (truthy config_data)]> ∅));;
  set_system naga_system;;
  mret {| name := utf8 "setup"; data := SetupData config_data naga_system |}.

Definition _phase_prepare_task (user_question : str) : H PhaseResult :=
  log_step "创建任务对象" None;;
  let task :=
    {| task_id := utf8 "test_" ++ Py.str_of_int unix_time;
       description := user_question;
       domain := [];
       requirements := [user_question];
       constraints := [];
       max_iterations := default_max_iterations |} in
  set_data "task" (PDict (<[utf8 "task_id" := PStr (task_id task)]>
                          (<[utf8 "description" := PStr (description task)]> ∅)));;
  mret {| name := utf8 "task"; data := TaskData task |}.

Definition agent_summary (agent : Agent) : pyval :=
  PDict (<[utf8 "name" := agent_name agent]>
         (<[utf8 "role" := agent_role agent]>
         (<[utf8 "is_requester" := is_requester agent]> ∅))).

(** [for item in items: body(item)] *)
Fixpoint for_each {A} (items : list A) (body : A -> H unit) : H unit :=
  match items with
  | [] => mret tt
  | item :: rest => body item;; for_each rest body
  end.

Definition _phase_generate_agents (task : Task) (expected_agent_count : option (Z * Z))
  : H PhaseResult :=
  naga_system ← _require_system;
  log_step "开始生成智能体团队" None;;
  agents ← call (generate_agents_only naga_system task expected_agent_count);
  if negb (nonempty agents) then fail (RuntimeError "未生成任何智能体")
  else
    for_each agents
      (fun agent =>
         log_node_output (agent_name agent)
           (if truthy (is_requester agent) then utf8 "需求方" else utf8 "执行者")
           (agent_role agent));;
    set_data "generated_agents" (PList (List.map agent_summary agents));;
    mret {| name := utf8 "agents"; data := AgentsData agents |}.

Definition _phase_build_graph (task : Task) (agents : list Agent) : H PhaseResult :=
  naga_system ← _require_system;
  log_step "构建交互图" None;;
  interaction_graph ← call (_execute_interaction_graph_phase naga_system agents task);
  set_data "interaction_graph"
    (PDict (<[utf8 "agent_count" :=
                PInt (Z.of_nat (length (graph_agents interaction_graph)))]>
            (<[utf8 "connections" :=
                 PInt (fold_right
                         (fun agent total =>
                            Z.of_nat (length (connection_permissions agent)) + total)
                         0 (graph_agents interaction_graph))]> ∅)));;
  mret {| name := utf8 "graph"; data := GraphData interaction_graph |}.

Definition _phase_process_request (task : Task) (interaction_graph : InteractionGraph)
    (user_question : str) : H PhaseResult :=
  naga_system ← _require_system;
  log_step "执行用户问题处理流程" None;;
  response ← call (process_user_request naga_system user_question interaction_graph
                     (utf8 "test_user"));
  log_node_output (text "系统") (utf8 "响应") (content response);;
  set_data "final_result" (content response);;
  mret {| name := utf8 "response"; data := ResponseData response |}.

(** [session.final_result.actor_output.content] when both are there. *)
Definition final_content (session : GameSession) : option pyval :=
  match final_result session with
  | Some game_result =>
      match actor_output game_result with
      | Some output => Some (actor_content output)
      | None => None
      end
  | None => None
  end.

Definition _phase_self_game (task : Task) (agents : list Agent) : H PhaseResult :=
  naga_system ← _require_system;
  log_step "启动自博弈引擎" None;;
  session ← call (start_game_session naga_system task agents);
  set_data "game_rounds" (PList (_summarize_rounds (session_rounds session)));;
  match final_content session with
  | Some final => set_data "final_result" final
  | None => mret tt
  end;;
  mret {| name := utf8 "self_game"; data := SessionData session |}.

(** [phase.data["task"]] and the like. *)
Definition data_task (d : phase_data) : result Task :=
  match d with TaskData task => Ok task | _ => Raise KeyError end.
Definition data_agents (d : phase_data) : result (list Agent) :=
  match d with AgentsData agents => Ok agents | _ => Raise KeyError end.
Definition data_graph (d : phase_data) : result InteractionGraph :=
  match d with GraphData graph => Ok graph | _ => Raise KeyError end.
Definition data_response (d : phase_data) : result Response :=
  match d with ResponseData response => Ok response | _ => Raise KeyError end.
Definition data_session (d : phase_data) : result GameSession :=
  match d with SessionData session => Ok session | _ => Raise KeyError end.

(** [max_phases is not None and len(phases) >= max_phases] *)
Definition limit_reached (max_phases : option Z) (phases : list PhaseResult) : bool :=
  match max_phases with
  | Some limit => limit <=? Z.of_nat (length phases)
  | None => false
  end.

(** The [except Exception as exc] branch, with the phases appended so
    far. *)
Definition on_exception (phases : list PhaseResult) (exc : exn) : H (gmap str pyval) :=
  log_error exc "full_flow";;
  _finalize phases false "completed"
    (Some (<[utf8 "error" := PStr (str_of_exn exc)]> ∅)).

(** A statement of the [try] block: what it raises goes to the
    [except] branch together with the phases appended before it. *)
Definition guarded {A} (phases : list PhaseResult) (statement : H A)
    (rest : A -> H (gmap str pyval)) : H (gmap str pyval) :=
  fun s =>
    match statement s with
    | (Ok a, s') => rest a s'
    | (Raise exc, s') => on_exception phases exc s'
    end.

(** [return _finalize(...)] inside the [try] block. *)
Definition returning (phases : list PhaseResult) (success : bool) (reason : string)
    (extra : option (gmap str pyval)) : H (gmap str pyval) :=
  guarded phases (_finalize phases success reason extra) mret.

(** The [try] block of [run_full_flow_test], entered with the limit
    as lines 44-45 leave it. *)
Definition try_block (user_question : str) (max_phases : option Z)
    (expected_agent_count : option (Z * Z)) : H (gmap str pyval) :=
  guarded [] _phase_setup (fun config =>
  let phases := [config] in
  if limit_reached max_phases phases
  then returning phases true "phase_limit" None
  else
  guarded phases
    (task_phase ← _phase_prepare_task user_question;
     task ← of_result (data_task (data task_phase));
     mret (task_phase, task)) (fun '(task_phase, task) =>
  let phases := phases ++ [task_phase] in
  if limit_reached max_phases phases
  then returning phases true "phase_limit" None
  else
  guarded phases
    (agents_phase ← _phase_generate_agents task expected_agent_count;
     agents ← of_result (data_agents (data agents_phase));
     mret (agents_phase, agents)) (fun '(agents_phase, agents) =>
  let phases := phases ++ [agents_phase] in
  if limit_reached max_phases phases
  then returning phases true "phase_limit" None
  else
  guarded phases
    (graph_phase ← _phase_build_graph task agents;
     interaction_graph ← of_result (data_graph (data graph_phase));
     mret (graph_phase, interaction_graph)) (fun '(graph_phase, interaction_graph) =>
  let phases := phases ++ [graph_phase] in
  if limit_reached max_phases phases
  then returning phases true "phase_limit" None
  else
  guarded phases
    (response_phase ← _phase_process_request task interaction_graph user_question;
     response ← of_result (data_response (data response_phase));
     mret (response_phase, response)) (fun '(response_phase, response) =>
  let phases := phases ++ [response_phase] in
  if limit_reached max_phases phases
  then returning phases true "phase_limit"
         (Some (<[utf8 "result" := content response]> ∅))
  else
  guarded phases
    (game_phase ← _phase_self_game task agents;
     session ← of_result (data_session (data game_phase));
     mret (game_phase, session)) (fun '(game_phase, session) =>
  let phases := phases ++ [game_phase] in
  let final_result := default (content response) (final_content session) in
  returning phases true "completed"
    (Some (<[utf8 "result" := final_result]>
           (<[utf8 "agents_generated" := PInt (Z.of_nat (length agents))]> ∅))))))))).

(** What line 41 logs with the first step. *)
Definition start_data (user_question : str) (max_phases : option Z) : pyval :=
  PDict (<[utf8 "question" := PStr user_question]>
         (<[utf8 "max_phases" := match max_phases with
                                  | Some limit => PInt limit
                                  | None => PNone
                                  end]> ∅)).

(** [run_full_flow_test(user_question, max_phases, expected_agent_count)]
    after the logger has been made. *)
Definition run_with_logger (user_question : str) (max_phases : option Z)
    (expected_agent_count : option (Z * Z)) : H (gmap str pyval) :=
  log_step "测试开始" (Some (start_data user_question max_phases));;
  set_data "user_question" (PStr user_question);;
  let max_phases :=
    match max_phases with
    | Some limit => if limit <=? 0 then None else Some limit
    | None => None
    end in
  try_block user_question max_phases expected_agent_count.

(** [run_full_flow_test]: the logger is made first, at a moment when the
    clock has been read [reads] times. *)
Definition run_full_flow_test (user_question : str) (max_phases : option Z)
    (expected_agent_count : option (Z * Z)) (reads : nat)
  : result (gmap str pyval) * state :=
  run_with_logger user_question max_phases expected_agent_count
    (new_logger (utf8 "动态全流程测试") None reads).

End Environment.
End FullFlow.

(** ** What the report builder needs of the test data *)

Module ReportReady.
Import PyStr FullFlow.

Definition is_dict (v : pyval) : Prop := exists d, v = PDict d.

Definition is_text (v : pyval) : Prop := exists s, v = PStr s.

(** An entry of the error list: a mapping with a context and an
    error. *)
Definition error_entry (v : pyval) : Prop :=
  exists d, v = PDict d /\ is_Some (d !! utf8 "context") /\ is_Some (d !! utf8 "error").

Definition none_or_text (v : pyval) : Prop := v = PNone \/ exists s, v = PStr s.

(** What the value under a key has to be for the report to be built. *)
Definition key_ok (k : str) (v : pyval) : Prop :=
  (k = utf8 "execution_time" -> v = PNone \/ exists f, v = PFloat f)
  /\ (k = utf8 "user_question" -> none_or_text v)
  /\ (k = utf8 "generated_agents" -> exists l, v = PList l /\ Forall is_dict l)
  /\ (k = utf8 "interaction_graph" -> v = PNone \/ is_dict v)
  /\ (k = utf8 "game_rounds" -> exists l, v = PList l)
  /\ (k = utf8 "pareto_front" -> exists l, v = PList l)
  /\ (k = utf8 "final_result" -> none_or_text v)
  /\ (k = utf8 "errors" -> exists l, v = PList l /\ Forall error_entry l).

(** Test data from which [_build_report] can build a report and to
    which [log_error] can add. *)
Definition ready (data : gmap str pyval) : Prop :=
  (forall k v, data !! k = Some v -> key_ok k v)
  /\ is_Some (data !! utf8 "test_name")
  /\ is_Some (data !! utf8 "start_time")
  /\ is_Some (data !! utf8 "errors").

Section Report.
Context `{W : World}.

(** The bullet of the error section for one entry. *)
Definition bullet_text (entry : pyval) : str :=
  match entry with
  | PDict d =>
      utf8 "- **" ++ shown (default PNone (d !! utf8 "context"))
      ++ utf8 "**: " ++ shown (default PNone (d !! utf8 "error"))
  | _ => []
  end.

Definition error_bullet (entry : pyval) : pyval := PStr (bullet_text entry).

(** The lines under the heading of the error section. *)
Definition error_texts (errors : list pyval) : list str :=
  match errors with
  | [] => [utf8 "无"]
  | _ :: _ => List.map bullet_text errors
  end.

(** The report that ends with the error section for [errors] and the
    footer written at [moment]; [front] are the lines before the error
    section. *)
Definition report_text (front : list str) (errors : list pyval) (moment : time) : str :=
  PySeq.join newline
    (front ++ [[]; utf8 "## 错误信息"] ++ error_texts errors
     ++ [[]; utf8 "*报告生成时间: " ++ strftime moment "%Y-%m-%d %H:%M:%S" ++ utf8 "*"; []]).

End Report.

Section States.
Context `{W : World}.

(** The state after one more reading of the clock. *)
Definition ticked (s : state) : state :=
  {| logger := logger s; clock_reads := S (clock_reads s); files := files s;
     log := log s |}.

(** The state with [records] appended to the log file. *)
Definition logged (s : state) (records : list log_record) : state :=
  {| logger := logger s; clock_reads := clock_reads s; files := files s;
     log := log s ++ records |}.

(** The state whose log file has [before] in front of what it holds. *)
Definition prepend (before : list log_record) (s : state) : state :=
  {| logger := logger s; clock_reads := clock_reads s; files := files s;
     log := before ++ log s |}.

(** A computation that does not read the log file: what is in the file
    at the start is still in front at the end, and nothing else depends
    on it. *)
Definition framed {A} (m : H A) : Prop :=
  forall before s, m (prepend before s) = (fst (m s), prepend before (snd (m s))).

(** Two states that differ in the log file at most. *)
Definition same_but_log (s s' : state) : Prop :=
  logger s = logger s' /\ clock_reads s = clock_reads s' /\ files s = files s'.

Definition ready_state (s : state) : Prop :=
  ready (test_data (logger s)).

Definition has_system (s : state) : Prop :=
  is_Some (_naga_system (logger s)).

(** [s'] comes from [s] by steps that keep the test data ready, add no
    error to them, call no [write_text], leave the logger's paths alone
    and only add to the log file. *)
Definition quiet (s s' : state) : Prop :=
  ready_state s'
  /\ log_file (logger s') = log_file (logger s)
  /\ report_file (logger s') = report_file (logger s)
  /\ files s' = files s
  /\ test_data (logger s') !! utf8 "errors" = test_data (logger s) !! utf8 "errors"
  /\ exists more, log s' = log s ++ more.

(** A phase run from [s] ends in [s'] without a [write_text]; it has
    raised, or made a PhaseResult with the name [label] whose data
    satisfy [good]. *)
Definition phase_step (phase : H PhaseResult) (label : string)
    (good : phase_data -> Prop) (s s' : state) : Prop :=
  quiet s s'
  /\ ((exists exc, phase s = (Raise exc, s'))
      \/ exists d, phase s = (Ok {| name := utf8 label; data := d |}, s') /\ good d).

End States.

Section Conditions.
Context `{W : World}.

(** [format(x, ".2f")] accepts every float. *)
Definition floats_format : Prop :=
  forall f, exists shown, format_2f (PFloat f) = Ok shown.

(** The contents that the system hands back are text, or None. *)
Definition contents_are_text : Prop :=
  (forall system question graph user response system',
     process_user_request system question graph user = (Ok response, system') ->
     none_or_text (content response))
  /\ (forall system task agents session system' final,
        start_game_session system task agents = (Ok session, system') ->
        final_content session = Some final -> none_or_text final).

(** The errors that a run logs: none when it succeeds, and otherwise
    the exception it caught, under the context "full_flow"; the text of
    that exception is the error the run returns. *)
Definition logged_by (success : bool) (extra : option (gmap str pyval))
    (logged : list pyval) : Prop :=
  if success then logged = []
  else exists exc moment,
         extra = Some (<[utf8 "error" := PStr (str_of_exn exc)]> ∅)
         /\ logged = [error_record exc "full_flow" moment].

End Conditions.

(** The logger that [run_full_flow_test] makes when the clock has been
    read [reads] times. *)
Definition fresh_logger `{W : World} (reads : nat) : FullFlowTestLogger :=
  logger (new_logger (utf8 "动态全流程测试") None reads).

(** What a phase raises when the setup phase has not run. *)
Definition not_initialised : exn :=
  RuntimeError "System not initialised; setup phase must run first".

(** The names of the six phases, in the order of the run. *)
Definition six_names : list str :=
  [utf8 "setup"; utf8 "task"; utf8 "agents"; utf8 "graph"; utf8 "response";
   utf8 "self_game"].

(** The keys that the run itself adds to the dictionary of [_finalize]
    leave its own keys alone. *)
Definition plain (extra : option (gmap str pyval)) : Prop :=
  forall more, extra = Some more ->
    more !! utf8 "phases" = None /\ more !! utf8 "success" = None
    /\ more !! utf8 "termination_reason" = None
    /\ more !! utf8 "log_file" = None /\ more !! utf8 "report_file" = None.

(** The error that the run adds, if any. *)
Definition error_of (extra : option (gmap str pyval)) : option pyval :=
  match extra with
  | Some more => more !! utf8 "error"
  | None => None
  end.

(** How a run with a limit of [max_phases] can end after [count]
    phases. *)
Definition verdict (max_phases : option Z) (count : nat) (success : bool)
    (reason : string) (error : option pyval) : Prop :=
  (success = true /\ reason = "completed"%string /\ count = 6%nat /\ error = None
   /\ forall limit, max_phases = Some limit -> limit <= 0 \/ 6 <= limit)
  \/ (success = true /\ reason = "phase_limit"%string /\ error = None
      /\ max_phases = Some (Z.of_nat count) /\ (1 <= count <= 5)%nat)
  \/ (success = false /\ reason = "completed"%string /\ (count <= 5)%nat
      /\ is_Some error
      /\ forall limit, max_phases = Some limit -> 0 < limit -> Z.of_nat count < limit).

(** What a returned dictionary says of the run. *)
Definition run_summary (d : gmap str pyval) (names : list str) (success : bool)
    (reason : string) : Prop :=
  d !! utf8 "phases" = Some (PList (List.map PStr names))
  /\ d !! utf8 "success" = Some (PBool success)
  /\ d !! utf8 "termination_reason" = Some (text reason).

End ReportReady.

(** ** A concrete world for runs of the flow *)

Module FlowExamples.
Import PyStr FullFlow.

Definition stamp (t : nat) : str := Py.str_of_int (Z.of_nat t).

Definition lead : Agent :=
  {| agent_name := text "Planner"; agent_role := text "lead";
     is_requester := PBool false; connection_permissions := [utf8 "Coder"] |}.

Definition coder : Agent :=
  {| agent_name := text "Coder"; agent_role := text "engineer";
     is_requester := PBool false; connection_permissions := [utf8 "Planner"] |}.

Definition one_round : Round :=
  {| round_number := PInt 1; round_phase := text "generation";
     round_decision := text "accept" |}.

(** [json.dumps(v, ensure_ascii=False, indent=2)] on what the run
    logs: a dictionary written as one of its two literals, with the keys
    question and max_phases, in that order, or with the key has_config,
    and with values that are None, a bool, an int or text.  Other keys
    are left out, and a float or a container as a value is shown in
    short. *)
Definition hex_digit (n : N) : N := (if n <? 10 then 48 + n else 87 + n)%N.

Definition escaped (c : N) : str :=
  if (c =? 34)%N then [92; 34]%N
  else if (c =? 92)%N then [92; 92]%N
  else if (c =? 10)%N then [92; 110]%N
  else if (c =? 13)%N then [92; 114]%N
  else if (c =? 9)%N then [92; 116]%N
  else if (c =? 8)%N then [92; 98]%N
  else if (c =? 12)%N then [92; 102]%N
  else if (c <? 32)%N then [92; 117; 48; 48; hex_digit (c / 16); hex_digit (c mod 16)]%N
  else [c].

Definition dump_scalar (v : pyval) : str :=
  match v with
  | PNone => utf8 "null"
  | PBool true => utf8 "true"
  | PBool false => utf8 "false"
  | PInt n => Py.str_of_int n
  | PFloat _ => utf8 "0.0"
  | PStr s => [dquote] ++ List.concat (List.map escaped s) ++ [dquote]
  | PList _ => utf8 "[...]"
  | PDict _ => utf8 "{...}"
  end.

Definition logged_keys : list string := ["question"; "max_phases"; "has_config"]%string.

Definition dumps (v : pyval) : str :=
  match v with
  | PDict d =>
      match omap (fun key => pair key <$> d !! utf8 key) logged_keys with
      | [] => utf8 "{}"
      | entries =>
          utf8 "{" ++ newline
          ++ PySeq.join (utf8 "," ++ newline)
               (List.map (fun entry => utf8 "  " ++ [dquote] ++ utf8 (fst entry) ++ [dquote]
                                       ++ utf8 ": " ++ dump_scalar (snd entry))
                  entries)
          ++ newline ++ utf8 "}"
      end
  | _ => dump_scalar v
  end.

(** A world whose clock shows the number of its readings and whose
    system counts the calls made into it.  The system generates the
    given agents, builds the graph of the agents it is given, answers a
    question with the given content and plays a session of one round. *)
Definition world_with (agents : list Agent) (answer : pyval) : World :=
  {| time := nat;
     now := fun reads => reads;
     isoformat := stamp;
     strftime := fun moment _ => stamp moment;
     total_seconds := fun later earlier =>
       if (later <=? earlier)%nat then S754_zero false
       else S754_finite false (Pos.of_nat (later - earlier)) 0;
     format_2f := fun v =>
       match v with
       | PFloat _ | PInt _ | PBool _ => Ok (utf8 "0.00")
       | PStr _ => Raise ValueError
       | _ => Raise TypeError
       end;
     py_repr := JsonFragment.repr;
     json_dumps := dumps;
     exception_text := fun _ => utf8 "error";
     joinpath := fun directory file => directory ++ utf8 "/" ++ file;
     System := nat;
     make_system := Ok 0%nat;
     generate_agents_only := fun system _ _ => (Ok agents, S system);
     _execute_interaction_graph_phase := fun system members _ =>
       (Ok {| graph_agents := members |}, S system);
     process_user_request := fun system _ _ _ =>
       (Ok {| content := answer |}, S system);
     start_game_session := fun system _ _ =>
       (Ok {| session_rounds := Some [one_round];
              final_result :=
                Some {| actor_output := Some {| actor_content := text "a better plan" |} |} |},
        S system);
     config_file := None;
     unix_time := 1700000000;
     default_max_iterations := 10 |}.

Definition world : World := world_with [lead; coder] (text "a plan").

(** A world whose system generates no agent. *)
Definition barren : World := world_with [] (text "a plan").

(** A world whose system answers with a number. *)
Definition numeric : World := world_with [lead; coder] (PInt 7).

Definition question : str := utf8 "build a learning platform".

(** A logger made when the clock of [world] has not been read, and the
    same logger after its test data have been emptied. *)
Definition fresh_state : state (W := world) :=
  new_logger (W := world) (utf8 "flow") None 0.

Definition emptied : state (W := world) :=
  {| logger := with_data (logger fresh_state) ∅;
     clock_reads := clock_reads fresh_state;
     files := files fresh_state;
     log := log fresh_state |}.

End FlowExamples.

(** * Properties *)

(** ** Searching and slicing *)

Module PyStrFacts.
Import PyStr.

Lemma startswith_app (s p : str) :
  startswith s p = true <-> exists post, s = p ++ post.
Proof.
  revert s. induction p as [|c p IH]; intros s; simpl.
  - split; [intros _; now exists s | reflexivity].
  - destruct s as [|d s].
    + split; [discriminate | intros [post H]; discriminate].
    + rewrite andb_true_iff, N.eqb_eq, IH. split.
      * intros [-> [post ->]]. now exists post.
      * intros [post H]. injection H as -> ->. split; [reflexivity | now exists post].
Qed.

Lemma occurs_at_drop (sub s : str) (i : nat) :
  occurs_at sub s i <-> (i <= length s)%nat /\ startswith (drop i s) sub = true.
Proof.
  unfold occurs_at. rewrite startswith_app. split.
  - intros (pre & post & -> & <-). split.
    + rewrite length_app. lia.
    + exists post. now rewrite drop_app_length.
  - intros [Hi [post Hpost]]. exists (take i s), post. split.
    + rewrite <- Hpost. symmetry. apply take_drop.
    + rewrite length_take. lia.
Qed.

Lemma occurs_at_bound (sub s : str) (i : nat) :
  occurs_at sub s i -> (i + length sub <= length s)%nat.
Proof.
  intros (pre & post & -> & <-). rewrite !length_app. lia.
Qed.

Lemma occurs_at_0 (sub s : str) :
  occurs_at sub s 0 <-> startswith s sub = true.
Proof.
  rewrite occurs_at_drop. simpl. split; [tauto | split; [lia | assumption]].
Qed.

Lemma occurs_at_S (sub : str) (c : N) (s : str) (i : nat) :
  occurs_at sub (c :: s) (S i) <-> occurs_at sub s i.
Proof.
  rewrite !occurs_at_drop. simpl. split; intros [H1 H2]; split; auto; lia.
Qed.

(** An occurrence in a suffix is an occurrence in the whole, shifted. *)
Lemma occurs_at_shift (sub a s : str) (i : nat) :
  occurs_at sub (a ++ s) (length a + i) <-> occurs_at sub s i.
Proof.
  induction a as [|c a IH]; simpl; [reflexivity|].
  now rewrite occurs_at_S.
Qed.

Lemma find_at_Some (sub s : str) (k j : nat) :
  find_at sub s k = Some j ->
  (k <= j)%nat /\ occurs_at sub s (j - k)
  /\ forall i, (i < j - k)%nat -> ~ occurs_at sub s i.
Proof.
  revert k. induction s as [|c s IH]; intros k; simpl.
  - destruct (startswith [] sub) eqn:E; [|discriminate].
    intros [= <-]. rewrite Nat.sub_diag. split; [lia|]. split.
    + now apply occurs_at_0.
    + intros i Hi. lia.
  - destruct (startswith (c :: s) sub) eqn:E.
    + intros [= <-]. rewrite Nat.sub_diag. split; [lia|]. split.
      * now apply occurs_at_0.
      * intros i Hi. lia.
    + intros H. apply IH in H as (Hk & Hocc & Hmin).
      split; [lia|]. replace (j - k)%nat with (S (j - S k)) by lia. split.
      * now apply occurs_at_S.
      * intros [|i] Hi.
        -- rewrite occurs_at_0. congruence.
        -- rewrite occurs_at_S. apply Hmin. lia.
Qed.

Lemma find_at_None (sub s : str) (k : nat) :
  find_at sub s k = None -> forall i, ~ occurs_at sub s i.
Proof.
  revert k. induction s as [|c s IH]; intros k; simpl.
  - destruct (startswith [] sub) eqn:E; [discriminate|].
    intros _ i Hocc. pose proof (occurs_at_bound _ _ _ Hocc) as Hb. simpl in Hb.
    assert (i = 0)%nat as -> by lia. apply occurs_at_0 in Hocc. congruence.
  - destruct (startswith (c :: s) sub) eqn:E; [discriminate|].
    intros H [|i].
    + rewrite occurs_at_0. congruence.
    + rewrite occurs_at_S. now apply (IH (S k)).
Qed.

(** What [find] returns when [start] is a position of the string. *)
Lemma find_spec (s sub : str) (start : nat) :
  (start <= length s)%nat ->
  (find s sub (Z.of_nat start) = -1
   /\ forall i, (start <= i)%nat -> ~ occurs_at sub s i)
  \/ (exists j, find s sub (Z.of_nat start) = Z.of_nat j /\ (start <= j)%nat
      /\ occurs_at sub s j
      /\ forall i, (start <= i < j)%nat -> ~ occurs_at sub s i).
Proof.
  intros Hstart. unfold find, len.
  destruct (Z.ltb_spec (Z.of_nat start) 0) as [?|_]; [lia|].
  destruct (Z.ltb_spec (Z.of_nat (length s)) (Z.of_nat start)) as [?|_]; [lia|].
  rewrite Nat2Z.id.
  pose proof (take_drop start s) as Hsplit.
  assert (length (take start s) = start) as Hlen by (rewrite length_take; lia).
  destruct (find_at sub (drop start s) start) as [j|] eqn:E.
  - right. exists j. apply find_at_Some in E as (Hk & Hocc & Hmin).
    split; [reflexivity|]. split; [assumption|]. split.
    + rewrite <- Hsplit. replace j with (length (take start s) + (j - start))%nat by lia.
      now apply occurs_at_shift.
    + intros i Hi Hocc'. apply (Hmin (i - start)%nat); [lia|].
      rewrite <- Hsplit in Hocc'.
      replace i with (length (take start s) + (i - start))%nat in Hocc' by lia.
      now apply occurs_at_shift in Hocc'.
  - left. split; [reflexivity|]. intros i Hi Hocc.
    apply (find_at_None _ _ _ E (i - start)%nat).
    rewrite <- Hsplit in Hocc.
    replace i with (length (take start s) + (i - start))%nat in Hocc by lia.
    now apply occurs_at_shift in Hocc.
Qed.

(** [find] returns the least occurrence at or after [start]. *)
Lemma find_least (s sub : str) (start i : nat) :
  (start <= i)%nat -> occurs_at sub s i ->
  (forall j, (start <= j < i)%nat -> ~ occurs_at sub s j) ->
  find s sub (Z.of_nat start) = Z.of_nat i.
Proof.
  intros Hle Hocc Hmin.
  pose proof (occurs_at_bound _ _ _ Hocc) as Hb.
  destruct (find_spec s sub start) as [[_ Hnone]|(j & -> & Hj & Hoccj & Hminj)]; [lia| |].
  - exfalso. now apply (Hnone i).
  - f_equal. destruct (Nat.lt_trichotomy i j) as [Hlt|[->|Hgt]]; [|reflexivity|].
    + exfalso. apply (Hminj i); [lia | assumption].
    + exfalso. apply (Hmin j); [lia | assumption].
Qed.

Lemma find_none (s sub : str) (start : nat) :
  (forall i, (start <= i)%nat -> ~ occurs_at sub s i) ->
  find s sub (Z.of_nat start) = -1.
Proof.
  intros Hnone. destruct (le_gt_dec start (length s)) as [Hle|Hgt].
  - destruct (find_spec s sub start) as [[H _]|(j & _ & Hj & Hoccj & _)];
      [assumption | assumption | exfalso; now apply (Hnone j)].
  - unfold find, len.
    destruct (Z.ltb_spec (Z.of_nat start) 0) as [?|_]; [lia|].
    destruct (Z.ltb_spec (Z.of_nat (length s)) (Z.of_nat start)) as [_|?]; [reflexivity | lia].
Qed.

Lemma rfind_at_Some (sub s : str) (k j : nat) :
  rfind_at sub s k = Some j ->
  (k <= j)%nat /\ occurs_at sub s (j - k)
  /\ forall i, (j - k < i)%nat -> ~ occurs_at sub s i.
Proof.
  revert k. induction s as [|c s IH]; intros k; simpl.
  - destruct (startswith [] sub) eqn:E; [|discriminate].
    intros [= <-]. rewrite Nat.sub_diag. split; [lia|]. split.
    + now apply occurs_at_0.
    + intros i Hi Hocc. apply occurs_at_bound in Hocc. simpl in Hocc. lia.
  - destruct (rfind_at sub s (S k)) as [j'|] eqn:E.
    + intros [= <-]. apply IH in E as (Hk & Hocc & Hmax).
      split; [lia|]. replace (j' - k)%nat with (S (j' - S k)) by lia. split.
      * now apply occurs_at_S.
      * intros [|i] Hi; [lia|]. rewrite occurs_at_S. apply Hmax. lia.
    + destruct (startswith (c :: s) sub) eqn:E'; [|discriminate].
      intros [= <-]. rewrite Nat.sub_diag. split; [lia|]. split.
      * now apply occurs_at_0.
      * intros [|i] Hi; [lia|]. rewrite occurs_at_S.
        revert E. clear. revert k i. induction s as [|d s IHs]; intros k i; simpl.
        -- destruct (startswith [] sub) eqn:E; [discriminate|].
           intros _ Hocc. pose proof (occurs_at_bound _ _ _ Hocc) as Hb. simpl in Hb.
           assert (i = 0)%nat as -> by lia. apply occurs_at_0 in Hocc. congruence.
        -- destruct (rfind_at sub s (S (S k))) eqn:E; [discriminate|].
           destruct (startswith (d :: s) sub) eqn:E'; [discriminate|].
           intros _. destruct i as [|i].
           ++ rewrite occurs_at_0. congruence.
           ++ rewrite occurs_at_S. now apply (IHs (S k)).
Qed.

Lemma rfind_at_None (sub s : str) (k : nat) :
  rfind_at sub s k = None -> forall i, ~ occurs_at sub s i.
Proof.
  revert k. induction s as [|c s IH]; intros k; simpl.
  - destruct (startswith [] sub) eqn:E; [discriminate|].
    intros _ i Hocc. pose proof (occurs_at_bound _ _ _ Hocc) as Hb. simpl in Hb.
    assert (i = 0)%nat as -> by lia. apply occurs_at_0 in Hocc. congruence.
  - destruct (rfind_at sub s (S k)) eqn:E; [discriminate|].
    destruct (startswith (c :: s) sub) eqn:E'; [discriminate|].
    intros _ [|i].
    + rewrite occurs_at_0. congruence.
    + rewrite occurs_at_S. now apply (IH (S k)).
Qed.

(** [rfind] returns the greatest occurrence. *)
Lemma rfind_greatest (s sub : str) (i : nat) :
  occurs_at sub s i -> (forall j, (i < j)%nat -> ~ occurs_at sub s j) ->
  rfind s sub = Z.of_nat i.
Proof.
  intros Hocc Hmax. unfold rfind.
  destruct (rfind_at sub s 0) as [j|] eqn:E.
  - apply rfind_at_Some in E as (_ & Hoccj & Hmaxj).
    rewrite Nat.sub_0_r in Hoccj, Hmaxj. f_equal.
    destruct (Nat.lt_trichotomy i j) as [Hlt|[->|Hgt]]; [|reflexivity|].
    + exfalso. now apply (Hmax j).
    + exfalso. now apply (Hmaxj i).
  - exfalso. now apply (rfind_at_None _ _ _ E i).
Qed.

Lemma rfind_none (s sub : str) :
  (forall i, ~ occurs_at sub s i) -> rfind s sub = -1.
Proof.
  intros Hnone. unfold rfind.
  destruct (rfind_at sub s 0) as [j|] eqn:E; [|reflexivity].
  apply rfind_at_Some in E as (_ & Hoccj & _). exfalso. now apply (Hnone _ Hoccj).
Qed.

(** A one-character pattern occurs where the string has that
    character. *)
Lemma occurs_at_char (c : N) (s : str) (i : nat) :
  occurs_at [c] s i <-> s !! i = Some c.
Proof.
  split.
  - intros (pre & post & -> & <-). apply list_lookup_middle. reflexivity.
  - intros H. exists (take i s), (drop (S i) s). split.
    + symmetry. apply take_drop_middle. assumption.
    + rewrite length_take. apply lookup_lt_Some in H. lia.
Qed.

Lemma slice_nat (s : str) (a b : nat) :
  (a <= length s)%nat ->
  slice s (Z.of_nat a) (Z.of_nat b) = take (b - a) (drop a s).
Proof.
  intros Ha. unfold slice, PySeq.slice, PySeq.clamp.
  destruct (Z.ltb_spec (Z.of_nat a) 0) as [?|_]; [lia|].
  destruct (Z.ltb_spec (Z.of_nat b) 0) as [?|_]; [lia|].
  rewrite (Z.min_l (Z.of_nat a)) by lia. rewrite Nat2Z.id.
  destruct (le_gt_dec b (length s)) as [Hb|Hb].
  - rewrite Z.min_l by lia. f_equal. lia.
  - rewrite Z.min_r by lia.
    rewrite !take_ge; try reflexivity; rewrite length_drop; lia.
Qed.

Lemma slice_to_nat (s : str) (b : nat) :
  slice_to s (Z.of_nat b) = take b s.
Proof.
  unfold slice_to, PySeq.slice_to. change (PySeq.slice s 0 (Z.of_nat b))
    with (slice s (Z.of_nat 0) (Z.of_nat b)).
  rewrite slice_nat by lia. now rewrite Nat.sub_0_r.
Qed.

(** The slice between two positions of a concatenation. *)
Lemma slice_middle (a b c : str) :
  slice (a ++ b ++ c) (Z.of_nat (length a)) (Z.of_nat (length a + length b)) = b.
Proof.
  rewrite slice_nat by (rewrite length_app; lia).
  rewrite drop_app_length. replace (length a + length b - length a)%nat
    with (length b) by lia.
  now rewrite take_app_length.
Qed.

(** Two splittings of one string, the first cut not after the second. *)
Lemma app_eq_split (a b c d : str) :
  a ++ b = c ++ d -> (length a <= length c)%nat ->
  exists m, c = a ++ m /\ b = m ++ d.
Proof.
  revert c. induction a as [|x a IH]; intros c H Hlen; simpl in *.
  - exists c. split; [reflexivity | assumption].
  - destruct c as [|y c]; simpl in *; [lia|].
    injection H as -> H. destruct (IH c H) as (m & -> & ->); [lia|].
    exists m. split; reflexivity.
Qed.

End PyStrFacts.

(** ** The payload handed to the decoder *)

Module SelectionFacts.
Import PyStr PyStrFacts Selection.

Lemma fenced_finds (response body : str) :
  fenced response body ->
  exists i : nat,
    find response (utf8 "```json") 0 = Z.of_nat i
    /\ find response (utf8 "```") (Z.of_nat i + 7) = Z.of_nat (i + 7 + length body)
    /\ slice response (Z.of_nat i + 7) (Z.of_nat (i + 7 + length body)) = body.
Proof.
  intros (pre & post & Heq & Hfirst & Hnext).
  set (FJ := utf8 "```json") in *. set (F := utf8 "```") in *.
  assert (length FJ = 7%nat) as HFJ by reflexivity.
  exists (length pre). split; [|split].
  - apply (find_least response FJ 0 (length pre)); [lia | | intros j Hj; apply Hfirst; lia].
    exists pre, (body ++ F ++ post). split; [assumption | reflexivity].
  - replace (Z.of_nat (length pre) + 7) with (Z.of_nat (length pre + 7)) by lia.
    apply find_least; [lia | |].
    + exists (pre ++ FJ ++ body), post. split.
      * rewrite Heq. now rewrite <- !app_assoc.
      * rewrite !length_app. lia.
    + intros j Hj Hocc. apply (Hnext (j - (length pre + 7))%nat); [lia|].
      rewrite Heq in Hocc. rewrite app_assoc in Hocc.
      replace j with (length (pre ++ FJ) + (j - (length pre + 7)))%nat in Hocc
        by (rewrite length_app; lia).
      now apply occurs_at_shift in Hocc.
  - rewrite Heq. rewrite app_assoc.
    replace (Z.of_nat (length pre) + 7) with (Z.of_nat (length (pre ++ FJ)))
      by (rewrite length_app; lia).
    replace (length pre + 7 + length body)%nat with (length (pre ++ FJ) + length body)%nat
      by (rewrite length_app; lia).
    apply slice_middle.
Qed.

Lemma finds_fenced (response : str) :
  find response (utf8 "```json") 0 <> -1 ->
  find response (utf8 "```") (find response (utf8 "```json") 0 + 7) <> -1 ->
  exists body, fenced response body.
Proof.
  set (FJ := utf8 "```json"). set (F := utf8 "```").
  assert (length FJ = 7%nat) as HFJ by reflexivity.
  intros Hstart Hend.
  pose proof (find_spec response FJ 0) as Hspec.
  change (Z.of_nat 0) with 0 in Hspec.
  destruct Hspec as [[H _]|(i & Hi & _ & Hocc & Hmin)]; [lia | contradiction |].
  rewrite Hi in Hend.
  pose proof (occurs_at_bound _ _ _ Hocc) as Hb.
  replace (Z.of_nat i + 7) with (Z.of_nat (i + 7)) in Hend by lia.
  destruct (find_spec response F (i + 7)) as [[H _]|(j & _ & Hj & Hoccj & Hminj)];
    [lia | contradiction |].
  destruct Hocc as (pre & rest & Heq & Hpre).
  destruct Hoccj as (pre' & post' & Heq' & Hpre').
  destruct (app_eq_split (pre ++ FJ) rest pre' (F ++ post')) as (m & Hm & Hrest).
  { rewrite <- app_assoc. congruence. }
  { rewrite length_app. lia. }
  exists m, pre, post'. split; [|split].
  - rewrite Heq. now rewrite Hrest.
  - intros k Hk. apply Hmin. lia.
  - intros k Hk Hocck. apply (Hminj (i + 7 + k)%nat).
    + rewrite <- Hpre', Hm, !length_app. lia.
    + rewrite Heq, Hrest, app_assoc.
      replace (i + 7 + k)%nat with (length (pre ++ FJ) + k)%nat
        by (rewrite length_app; lia).
      now apply occurs_at_shift.
Qed.

Lemma cut_at_rfind (t : str) :
  cut_after_last_brace t (slice_to t (rfind t (utf8 "}") + 1)).
Proof.
  change (utf8 "}") with [close_brace]. unfold rfind.
  destruct (rfind_at [close_brace] t 0) as [j|] eqn:E.
  - left. apply rfind_at_Some in E as (_ & Hocc & Hmax).
    rewrite Nat.sub_0_r in Hocc, Hmax.
    replace (Z.of_nat j + 1) with (Z.of_nat (S j)) by lia. rewrite slice_to_nat.
    apply occurs_at_char in Hocc.
    exists (take j t), (drop (S j) t). split; [|split].
    + symmetry. apply take_drop.
    + now apply take_S_r.
    + intros Hin. apply list_elem_of_lookup in Hin as [k Hk].
      rewrite lookup_drop in Hk. apply (Hmax (S j + k)%nat); [lia|].
      now apply occurs_at_char.
  - right. split.
    + intros Hin. apply list_elem_of_lookup in Hin as [k Hk].
      apply (rfind_at_None _ _ _ E k). now apply occurs_at_char.
    + change (-1 + 1) with (Z.of_nat 0). now rewrite slice_to_nat.
Qed.

End SelectionFacts.

(** ** The two parsers *)

Section ParserFacts.
Import PyStr PyStrFacts Selection SelectionFacts.

Variable json_loads : str -> result pyval.

Lemma roles_json_str_fenced (response body : str) :
  fenced response body -> roles_json_str response = strip body.
Proof.
  intros Hf. destruct (fenced_finds _ _ Hf) as (i & Hstart & Hend & Hslice).
  unfold roles_json_str. rewrite Hstart, Hend.
  destruct (Z.eqb_spec (Z.of_nat i) (-1)) as [?|_]; [lia|].
  destruct (Z.eqb_spec (Z.of_nat (i + 7 + length body)) (-1)) as [?|_]; [lia|].
  simpl. now rewrite Hslice.
Qed.

Lemma roles_json_str_unfenced (response : str) :
  ~ (exists body, fenced response body) ->
  roles_json_str response =
    if startswith (strip response) (utf8 "{")
    then slice_to (strip response) (rfind (strip response) (utf8 "}") + 1)
    else strip response.
Proof.
  intros Hno. unfold roles_json_str.
  destruct (Z.eqb_spec (find response (utf8 "```json") 0) (-1)) as [_|Hstart];
    [reflexivity|].
  destruct (Z.eqb_spec (find response (utf8 "```")
                          (find response (utf8 "```json") 0 + 7)) (-1)) as [_|Hend];
    [reflexivity|].
  exfalso. apply Hno. now apply finds_fenced.
Qed.

Lemma parse_roles_of_dict (response : str) (d : gmap str pyval) :
  json_loads (roles_json_str response) = Ok (PDict d) ->
  _parse_roles_from_response json_loads response
  = Ok (default (PList []) (d !! utf8 "roles")).
Proof.
  intros H. unfold _parse_roles_from_response. rewrite H. simpl.
  destruct (d !! utf8 "roles") as [v|]; reflexivity.
Qed.

Lemma parse_roles_undecodable (response : str) :
  json_loads (roles_json_str response) = Raise JSONDecodeError ->
  _parse_roles_from_response json_loads response
  = Raise (RuntimeError "角色解析失败: 无法解析JSON").
Proof.
  intros H. unfold _parse_roles_from_response. now rewrite H.
Qed.

Lemma parse_permissions_of_dict (response : str) (roles : list GeneratedRole)
    (d : gmap str pyval) :
  json_loads (permissions_json_str response) = Ok (PDict d) ->
  _parse_permissions_from_response json_loads response roles
  = match d !! utf8 "permissions" with
    | Some v => Ok v
    | None => Raise (RuntimeError "权限解析失败: 缺少permissions字段")
    end.
Proof.
  intros H. unfold _parse_permissions_from_response. rewrite H. simpl.
  destruct (d !! utf8 "permissions") as [v|]; reflexivity.
Qed.

Lemma parse_permissions_undecodable (response : str) (roles : list GeneratedRole) :
  json_loads (permissions_json_str response) = Raise JSONDecodeError ->
  _parse_permissions_from_response json_loads response roles
  = Raise (RuntimeError "权限解析失败: 无法解析JSON").
Proof.
  intros H. unfold _parse_permissions_from_response. now rewrite H.
Qed.

(** C2 (amended): the role parser decodes the stripped text between the
    first [```json] opener and the next [```] fence; when the response
    has no such block it decodes the whole stripped response, cut after
    its last closing brace only when the stripped response begins with
    an opening brace (text before a first brace is not skipped); a
    payload that does not decode is reported as a RuntimeError, and from
    a decoded object the [roles] entry is returned, the empty list when
    there is none. *)
Theorem roles_parser_selects_fence_or_whole_response (response : str) :
  (forall body, fenced response body -> roles_json_str response = strip body)
  /\ (~ (exists body, fenced response body) ->
      (startswith (strip response) (utf8 "{") = true ->
       cut_after_last_brace (strip response) (roles_json_str response))
      /\ (startswith (strip response) (utf8 "{") = false ->
          roles_json_str response = strip response))
  /\ (json_loads (roles_json_str response) = Raise JSONDecodeError ->
      _parse_roles_from_response json_loads response
      = Raise (RuntimeError "角色解析失败: 无法解析JSON"))
  /\ (forall d, json_loads (roles_json_str response) = Ok (PDict d) ->
      _parse_roles_from_response json_loads response
      = Ok (default (PList []) (d !! utf8 "roles"))).
Proof.
  split; [|split; [|split]].
  - intros body. apply roles_json_str_fenced.
  - intros Hno. rewrite (roles_json_str_unfenced _ Hno). split; intros ->.
    + apply cut_at_rfind.
    + reflexivity.
  - apply parse_roles_undecodable.
  - intros d. apply parse_roles_of_dict.
Qed.

(** C7 (amended): for every response the permission parser and the role
    parser hand the same text to the decoder: the same fenced-block
    rule, the same fallback.  On what the decoder makes of that text
    they differ in the key they read and in two things more.  An
    undecodable payload is reported by each with a RuntimeError of its
    own message.  A decoded value in which the key is not found makes
    the role parser return the empty list and the permission parser
    raise a RuntimeError.  Any other exception of the decoder leaves
    both parsers as it is, a value found under the key is returned by
    both, and whenever the permission parser returns a value, the role
    parser reading "permissions" returns the same. *)
Theorem parsers_share_the_payload_and_differ_beyond_the_key (response : str)
    (roles : list GeneratedRole) :
  permissions_json_str response = roles_json_str response
  /\ _parse_roles_from_response json_loads response
     = DescribedByKey.parse_key json_loads "roles" response
  /\ (json_loads (roles_json_str response) = Raise JSONDecodeError ->
      _parse_roles_from_response json_loads response
      = Raise (RuntimeError "角色解析失败: 无法解析JSON")
      /\ _parse_permissions_from_response json_loads response roles
         = Raise (RuntimeError "权限解析失败: 无法解析JSON"))
  /\ (forall e, json_loads (roles_json_str response) = Raise e ->
      e <> JSONDecodeError ->
      _parse_roles_from_response json_loads response = Raise e
      /\ _parse_permissions_from_response json_loads response roles = Raise e)
  /\ (forall data, json_loads (roles_json_str response) = Ok data ->
      _parse_roles_from_response json_loads response
      = (found ← Py.contains (utf8 "roles") data;
         if found : bool then Py.getitem data (utf8 "roles")
         else Ok (PList []))
      /\ _parse_permissions_from_response json_loads response roles
         = (found ← Py.contains (utf8 "permissions") data;
            if found : bool then Py.getitem data (utf8 "permissions")
            else Raise (RuntimeError "权限解析失败: 缺少permissions字段")))
  /\ (forall d, json_loads (roles_json_str response) = Ok (PDict d) ->
      _parse_roles_from_response json_loads response
      = Ok (default (PList []) (d !! utf8 "roles"))
      /\ _parse_permissions_from_response json_loads response roles
         = match d !! utf8 "permissions" with
           | Some v => Ok v
           | None => Raise (RuntimeError "权限解析失败: 缺少permissions字段")
           end)
  /\ (forall v, _parse_permissions_from_response json_loads response roles = Ok v ->
      DescribedByKey.parse_key json_loads "permissions" response = Ok v).
Proof.
  assert (permissions_json_str response = roles_json_str response) as Hsame
    by reflexivity.
  split; [exact Hsame|]. split; [reflexivity|].
  split; [|split; [|split; [|split]]].
  - intros H. rewrite parse_roles_undecodable by assumption.
    rewrite parse_permissions_undecodable by (now rewrite Hsame). now split.
  - intros e H He.
    unfold _parse_roles_from_response, _parse_permissions_from_response.
    rewrite Hsame, H. simpl. now destruct e.
  - intros data H.
    unfold _parse_roles_from_response, _parse_permissions_from_response.
    rewrite Hsame, H. simpl.
    destruct data as [| | | | |l|d]; simpl; try (now split).
    + split.
      * now destruct (PyStr.contains _ _).
      * now destruct (PyStr.contains _ _).
    + split.
      * now destruct (existsb _ l).
      * now destruct (existsb _ l).
    + split.
      * destruct (d !! utf8 "roles"); reflexivity.
      * destruct (d !! utf8 "permissions"); reflexivity.
  - intros d H. rewrite (parse_roles_of_dict _ _ H).
    rewrite (parse_permissions_of_dict _ roles d) by (now rewrite Hsame).
    now split.
  - unfold _parse_permissions_from_response, DescribedByKey.parse_key.
    rewrite Hsame. intros v.
    destruct (json_loads (roles_json_str response)) as [data|e]; simpl.
    + destruct data as [| | | | |l|d]; simpl; try discriminate.
      * now destruct (PyStr.contains _ _).
      * now destruct (existsb _ l).
      * destruct (d !! utf8 "permissions"); simpl; [tauto|discriminate].
    + now destruct e.
Qed.

End ParserFacts.

(** ** Runs on concrete responses *)

Lemma prose_response_unfenced :
  ~ (exists body, Selection.fenced Examples.prose_response body).
Proof.
  intros [body Hf].
  destruct (SelectionFacts.fenced_finds _ _ Hf) as (i & Hstart & _).
  vm_compute in Hstart. destruct i; discriminate.
Qed.

(** C2, as stated, fails on a response that puts a sentence before the
    JSON object: it has no fenced block, its first top-level brace span is
    the roles document, yet the text handed to the decoder is the whole
    response, so the parser raises where decoding the span yields the
    role. *)
Lemma prose_before_object_is_not_skipped :
  ~ (exists body, Selection.fenced Examples.prose_response body)
  /\ Described.first_brace_span Examples.prose_response
     = Some Examples.roles_document
  /\ roles_json_str Examples.prose_response = Examples.prose_response
  /\ _parse_roles_from_response JsonFragment.loads Examples.prose_response
     = Raise (RuntimeError "角色解析失败: 无法解析JSON")
  /\ Described.parse_roles JsonFragment.loads Examples.prose_response
     = Ok (PList [Examples.planner_value]).
Proof.
  split; [exact prose_response_unfenced|].
  repeat split; vm_compute; reflexivity.
Qed.

Lemma roles_parser_selects_fence_or_whole_response_witness :
  roles_json_str Examples.prose_response = PyStr.strip Examples.prose_response
  /\ _parse_roles_from_response JsonFragment.loads Examples.prose_response
     = Raise (RuntimeError "角色解析失败: 无法解析JSON").
Proof.
  pose proof (roles_parser_selects_fence_or_whole_response JsonFragment.loads
                Examples.prose_response) as (_ & Hfallback & Hbad & _).
  split.
  - apply (Hfallback prose_response_unfenced). vm_compute. reflexivity.
  - apply Hbad. vm_compute. reflexivity.
Defined.

(** C7, as stated, fails on the response [{}]: both parsers decode the
    same text, an object without keys; the role parser, and with it the
    role parser reading "permissions", returns the empty list, and the
    permission parser raises. *)
Lemma missing_key_separates_the_parsers :
  permissions_json_str (PyStr.utf8 "{}") = roles_json_str (PyStr.utf8 "{}")
  /\ JsonFragment.loads (roles_json_str (PyStr.utf8 "{}")) = Ok (PDict ∅)
  /\ _parse_roles_from_response JsonFragment.loads (PyStr.utf8 "{}") = Ok (PList [])
  /\ DescribedByKey.parse_key JsonFragment.loads "permissions" (PyStr.utf8 "{}")
     = Ok (PList [])
  /\ _parse_permissions_from_response JsonFragment.loads (PyStr.utf8 "{}") []
     = Raise (RuntimeError "权限解析失败: 缺少permissions字段").
Proof. repeat split; vm_compute; reflexivity. Qed.

Lemma parsers_share_the_payload_and_differ_beyond_the_key_witness :
  _parse_roles_from_response JsonFragment.loads Examples.roles_document
  = Ok (PList [Examples.planner_value])
  /\ _parse_permissions_from_response JsonFragment.loads Examples.roles_document []
     = Raise (RuntimeError "权限解析失败: 缺少permissions字段").
Proof.
  pose proof (parsers_share_the_payload_and_differ_beyond_the_key JsonFragment.loads
                Examples.roles_document []) as (_ & _ & _ & _ & _ & Hdict & _).
  destruct (Hdict (<[PyStr.utf8 "roles" := PList [Examples.planner_value]]>
                     (∅ : gmap str pyval))) as [Hroles Hpermissions].
  - vm_compute. reflexivity.
  - split.
    + rewrite Hroles. vm_compute. reflexivity.
    + rewrite Hpermissions. vm_compute. reflexivity.
Defined.

(** ** Sorting by priority *)

Section SortFacts.
Context {A : Type} (key : A -> Z).

Lemma insert_desc_perm (x : A) (l : list A) :
  Permutation (PySeq.insert_desc key x l) (x :: l).
Proof.
  induction l as [|y l IH]; simpl; [reflexivity|].
  destruct (key y <=? key x); [reflexivity|].
  rewrite IH. apply perm_swap.
Qed.

Lemma sorted_reverse_perm (l : list A) :
  Permutation (PySeq.sorted_reverse key l) l.
Proof.
  induction l as [|x l IH]; simpl; [reflexivity|].
  rewrite insert_desc_perm. now rewrite IH.
Qed.

Lemma insert_desc_sorted (x : A) (l : list A) :
  StronglySorted (fun a b => key b <= key a) l ->
  StronglySorted (fun a b => key b <= key a) (PySeq.insert_desc key x l).
Proof.
  induction l as [|y l IH]; simpl; intros Hs.
  - constructor; [constructor | constructor].
  - inversion Hs as [|? ? Hs' Hy]; subst.
    destruct (Z.leb_spec (key y) (key x)) as [Hle|Hgt].
    + constructor; [assumption|]. constructor; [assumption|].
      eapply Forall_impl; [exact Hy|]. simpl. intros z Hz. lia.
    + constructor; [now apply IH|].
      rewrite (insert_desc_perm x l). constructor; [lia | assumption].
Qed.

Lemma sorted_reverse_sorted (l : list A) :
  StronglySorted (fun a b => key b <= key a) (PySeq.sorted_reverse key l).
Proof.
  induction l as [|x l IH]; simpl; [constructor|].
  now apply insert_desc_sorted.
Qed.

Lemma insert_desc_filter (p : Z) (x : A) (l : list A) :
  List.filter (fun z => key z =? p) (PySeq.insert_desc key x l)
  = List.filter (fun z => key z =? p) (x :: l).
Proof.
  induction l as [|y l IH]; [reflexivity|].
  cbn [PySeq.insert_desc]. destruct (Z.leb_spec (key y) (key x)) as [Hle|Hgt];
    [reflexivity|].
  cbn [List.filter] in *. rewrite IH.
  destruct (Z.eqb_spec (key y) p), (Z.eqb_spec (key x) p); try reflexivity. lia.
Qed.

Lemma sorted_reverse_filter (p : Z) (l : list A) :
  List.filter (fun z => key z =? p) (PySeq.sorted_reverse key l)
  = List.filter (fun z => key z =? p) l.
Proof.
  induction l as [|x l IH]; [reflexivity|].
  cbn [PySeq.sorted_reverse]. rewrite insert_desc_filter.
  cbn [List.filter]. now rewrite IH.
Qed.

Lemma sorted_reverse_stable (l : list A) :
  stable_descending key l (PySeq.sorted_reverse key l).
Proof.
  split; [apply sorted_reverse_perm|]. split; [apply sorted_reverse_sorted|].
  intros p. apply sorted_reverse_filter.
Qed.

Lemma slice_to_take (l : list A) (n : Z) :
  0 <= n -> PySeq.slice_to l n = take (Z.to_nat n) l.
Proof.
  intros Hn. unfold PySeq.slice_to, PySeq.slice, PySeq.clamp.
  change (0 <? 0) with false. cbv iota.
  destruct (Z.ltb_spec n 0) as [?|_]; [lia|].
  rewrite (Z.min_l 0) by lia. rewrite Z.sub_0_r. change (Z.to_nat 0) with 0%nat.
  rewrite drop_0.
  destruct (Z.le_ge_cases n (Z.of_nat (length l))) as [H|H].
  - now rewrite Z.min_l by lia.
  - rewrite Z.min_r by lia. rewrite Nat2Z.id.
    rewrite !take_ge; [reflexivity | lia | lia].
Qed.

Lemma slice_to_sublist (l : list A) (n : Z) (x : A) :
  In x (PySeq.slice_to l n) -> In x l.
Proof.
  unfold PySeq.slice_to, PySeq.slice. intros H.
  apply list_elem_of_In in H. apply list_elem_of_In.
  apply elem_of_take in H as (i & Hi & _).
  rewrite lookup_drop in Hi. eapply list_elem_of_lookup_2. exact Hi.
Qed.

End SortFacts.

(** ** Validation of candidate roles *)

Section ValidationFacts.
Import PyStr.

Variable py_repr : pyval -> str.
Variable int_of_str : str -> result Z.

Abbreviation ensure_list := (_ensure_list py_repr).
Abbreviation validate_one := (validate_role py_repr int_of_str).
Abbreviation validate_all := (validate_loop py_repr int_of_str).
Abbreviation validate := (_validate_generated_roles py_repr int_of_str).
Abbreviation role_of := (role_of_fields py_repr).

Lemma validate_role_dict (d : gmap str pyval) :
  validate_one (PDict d) =
    match d !! utf8 "name", d !! utf8 "role_type", d !! utf8 "responsibilities",
          d !! utf8 "skills", d !! utf8 "output_requirements" with
    | Some v_name, Some v_role_type, Some v_responsibilities, Some v_skills,
      Some v_output =>
        match py_int int_of_str (default (PInt 5) (d !! utf8 "priority_level")) with
        | Ok priority =>
            let role := role_of v_name v_role_type v_responsibilities
                          v_skills v_output priority in
            if nonempty (name role) && nonempty (role_type role)
               && nonempty (responsibilities role) && nonempty (skills role)
            then Ok (Some role) else Ok None
        | Raise e => Raise e
        end
    | _, _, _, _, _ => Ok None
    end.
Proof.
  unfold validate_role, required_fields, all_fields_in, Py.contains,
    Py.getitem, Py.get.
  destruct (d !! utf8 "name"); [|reflexivity].
  destruct (d !! utf8 "role_type"); [|reflexivity].
  destruct (d !! utf8 "responsibilities"); [|reflexivity].
  destruct (d !! utf8 "skills"); [|reflexivity].
  destruct (d !! utf8 "output_requirements"); [|reflexivity].
  cbn [mbind result_bind bool_decide decide_rel negb].
  destruct (py_int int_of_str (default (PInt 5) (d !! utf8 "priority_level")));
    reflexivity.
Qed.

Lemma nonempty_true {A} (l : list A) : nonempty l = true <-> l <> [].
Proof. destruct l; simpl; split; congruence. Qed.

Lemma nonempty_false {A} (l : list A) : nonempty l = false <-> l = [].
Proof. destruct l; simpl; split; congruence. Qed.

Lemma ensure_list_str (s : str) :
  ensure_list (PStr s) = match strip s with [] => [] | _ :: _ => [strip s] end.
Proof.
  unfold _ensure_list, PyStr.eqb. destruct (strip s); reflexivity.
Qed.

Lemma ensure_list_other (v : pyval) :
  (forall l, v <> PList l) -> (forall s, v <> PStr s) -> ensure_list v = [].
Proof.
  intros Hl Hs. destruct v; try reflexivity.
  - now destruct (Hs s).
  - now destruct (Hl l).
Qed.

(** Only a mapping can become a role: on any other candidate the field
    test or the first field access raises, or a field is not there. *)
Lemma validate_role_not_dict (v : pyval) (role : GeneratedRole) :
  (forall d, v <> PDict d) -> validate_one v <> Ok (Some role).
Proof.
  intros Hd. unfold validate_role.
  destruct (all_fields_in required_fields v) as [[|]|e] eqn:E;
    cbn [mbind result_bind negb]; try discriminate.
  destruct v; cbn [Py.getitem mbind result_bind]; try discriminate.
  now destruct (Hd d).
Qed.

(** What a candidate that becomes a role looks like. *)
Lemma validate_role_some (v : pyval) (role : GeneratedRole) :
  validate_one v = Ok (Some role) ->
  exists d v_name v_role_type v_responsibilities v_skills v_output priority,
    v = PDict d
    /\ d !! utf8 "name" = Some v_name
    /\ d !! utf8 "role_type" = Some v_role_type
    /\ d !! utf8 "responsibilities" = Some v_responsibilities
    /\ d !! utf8 "skills" = Some v_skills
    /\ d !! utf8 "output_requirements" = Some v_output
    /\ py_int int_of_str (default (PInt 5) (d !! utf8 "priority_level")) = Ok priority
    /\ role = role_of v_name v_role_type v_responsibilities v_skills v_output priority
    /\ name role <> [] /\ role_type role <> []
    /\ responsibilities role <> [] /\ skills role <> [].
Proof.
  intros H.
  assert (exists d, v = PDict d) as [d ->].
  { destruct v; try (exfalso; revert H; apply validate_role_not_dict; discriminate).
    now exists d. }
  rewrite validate_role_dict in H.
  destruct (d !! utf8 "name") as [v_name|] eqn:E1; [|discriminate].
  destruct (d !! utf8 "role_type") as [v_role_type|] eqn:E2; [|discriminate].
  destruct (d !! utf8 "responsibilities") as [v_responsibilities|] eqn:E3;
    [|discriminate].
  destruct (d !! utf8 "skills") as [v_skills|] eqn:E4; [|discriminate].
  destruct (d !! utf8 "output_requirements") as [v_output|] eqn:E5; [|discriminate].
  destruct (py_int int_of_str _) as [priority|e] eqn:Hp; [|discriminate].
  cbv zeta in H.
  destruct (nonempty (name _) && nonempty (role_type _)
            && nonempty (responsibilities _) && nonempty (skills _)) eqn:Hne;
    [|discriminate].
  injection H as <-.
  apply andb_true_iff in Hne as [Hne Hsk].
  apply andb_true_iff in Hne as [Hne Hre].
  apply andb_true_iff in Hne as [Hna Hty].
  exists d, v_name, v_role_type, v_responsibilities, v_skills, v_output, priority.
  repeat split; try reflexivity; try assumption; now apply nonempty_true.
Qed.

Lemma validate_role_missing_field (d : gmap str pyval) (field : str) :
  In field required_fields -> d !! field = None ->
  validate_one (PDict d) = Ok None.
Proof.
  intros Hin Hnone. rewrite validate_role_dict.
  unfold required_fields in Hin. simpl in Hin.
  destruct Hin as [<-|[<-|[<-|[<-|[<-|[]]]]]]; rewrite Hnone;
    repeat (match goal with |- context [match ?o with Some _ => _ | None => _ end] =>
                              destruct o end); reflexivity.
Qed.

Lemma validate_loop_Forall (P : GeneratedRole -> Prop) (raw : list pyval)
    (acc : list GeneratedRole) :
  (forall v role, validate_one v = Ok (Some role) -> P role) ->
  Forall P acc -> Forall P (validate_all raw acc).
Proof.
  intros HP. revert acc. induction raw as [|v raw IH]; intros acc Hacc; simpl.
  - assumption.
  - destruct (validate_one v) as [[role|]|e] eqn:E; apply IH; try assumption.
    apply Forall_app. split; [assumption|]. constructor; [|constructor].
    now apply (HP v).
Qed.

(** A list of candidates always validates; what comes back is the loop's
    survivors, cut to the best [max_count] when there are more. *)
Lemma validate_list (candidates : list pyval) (request : RoleGenerationRequest) :
  validate (PList candidates) request =
    Ok (if snd (expected_count_range request) <? Z.of_nat (length (validate_all candidates []))
        then PySeq.slice_to (PySeq.sorted_reverse priority_level (validate_all candidates []))
               (snd (expected_count_range request))
        else validate_all candidates []).
Proof.
  unfold _validate_generated_roles. destruct (expected_count_range request) as [lo hi].
  cbn [Py.iter mbind result_bind snd]. now destruct (hi <? _).
Qed.

Lemma validate_Forall (P : GeneratedRole -> Prop) (raw : pyval)
    (request : RoleGenerationRequest) (roles : list GeneratedRole) :
  (forall v role, validate_one v = Ok (Some role) -> P role) ->
  validate raw request = Ok roles -> Forall P roles.
Proof.
  intros HP. unfold _validate_generated_roles.
  destruct (expected_count_range request) as [lo hi].
  destruct (Py.iter raw) as [candidates|e]; cbn [mbind result_bind]; [|discriminate].
  pose proof (validate_loop_Forall P candidates [] HP (List.Forall_nil P)) as Hall.
  destruct (hi <? _); intros [= <-]; [|assumption].
  apply Forall_forall. intros r Hr. apply list_elem_of_In in Hr.
  apply slice_to_sublist in Hr.
  apply (Permutation_in _ (sorted_reverse_perm priority_level _)) in Hr.
  rewrite Forall_forall in Hall. apply Hall. now apply list_elem_of_In.
Qed.

(** The count range's lower bound is read and never used. *)
Lemma validate_ignores_min (raw : pyval) (request : RoleGenerationRequest) (lo : Z) :
  validate raw {| task_description := task_description request;
                  request_domain := request_domain request;
                  expected_count_range := (lo, snd (expected_count_range request));
                  request_constraints := request_constraints request |}
  = validate raw request.
Proof.
  unfold _validate_generated_roles. cbn [expected_count_range snd].
  now destruct (expected_count_range request).
Qed.

End ValidationFacts.

(** ** The two operations *)

Section OperationFacts.
Import PyStr.

Variable json_loads : str -> result pyval.
Variable py_repr : pyval -> str.
Variable int_of_str : str -> result Z.

Abbreviation parse_roles := (_parse_roles_from_response json_loads).
Abbreviation parse_permissions := (_parse_permissions_from_response json_loads).
Abbreviation validated_by := (_validate_generated_roles py_repr int_of_str).
Abbreviation generate := (generate_roles json_loads py_repr int_of_str).
Abbreviation assign := (assign_collaboration_permissions json_loads).
Abbreviation role_prompt task range :=
  (_build_role_generation_prompt (role_generation_request task range)).

Lemma call_llm_api_run (self : Distributor) (prompt : str) (w : call_log) :
  _call_llm_api self prompt w =
    match naga_conversation self with
    | None => (Raise (RuntimeError "NagaAgent API未初始化"), w)
    | Some conv =>
        (conv w {| call_prompt := prompt; call_temperature := temperature_0_7 |},
         w ++ [{| call_prompt := prompt; call_temperature := temperature_0_7 |}])
    end.
Proof. reflexivity. Qed.

Lemma call_llm_api_ok (self : Distributor) (prompt response : str) (w w' : call_log) :
  _call_llm_api self prompt w = (Ok response, w') ->
  w' = w ++ [{| call_prompt := prompt; call_temperature := temperature_0_7 |}].
Proof.
  rewrite call_llm_api_run. destruct (naga_conversation self); intros [= _ <-];
    reflexivity.
Qed.

Lemma call_llm_api_log (self : Distributor) (prompt : str) (w w' : call_log)
    (r : result str) :
  _call_llm_api self prompt w = (r, w') -> (length w' <= length w + 1)%nat.
Proof.
  rewrite call_llm_api_run. destruct (naga_conversation self); intros [= _ <-];
    rewrite ?length_app; simpl; lia.
Qed.

(** [generate_roles], step by step. *)
Lemma generate_roles_run (self : Distributor) (task : Task) (range : Z * Z)
    (w : call_log) :
  generate self task range w =
    match _call_llm_api self (role_prompt task range) w with
    | (Ok response, w') =>
        match parse_roles response with
        | Ok roles =>
            match validated_by roles (role_generation_request task range) with
            | Ok validated_roles =>
                if nonempty validated_roles then (Ok validated_roles, w')
                else (Raise (RuntimeError "角色生成失败: 大模型返回空结果"), w')
            | Raise e => (Raise e, w')
            end
        | Raise e => (Raise e, w')
        end
    | (Raise e, w') => (Raise e, w')
    end.
Proof.
  unfold generate_roles, reraising, mbind, M_bind, lift, raise, mret, M_ret.
  destruct (_call_llm_api _ _ w) as [[response|e] w']; [|reflexivity].
  destruct (parse_roles response) as [roles|e]; [|reflexivity].
  destruct (validated_by roles _) as [validated_roles|e]; [|reflexivity].
  now destruct (nonempty validated_roles).
Qed.

(** [assign_collaboration_permissions], step by step. *)
Lemma assign_run (self : Distributor) (roles : list GeneratedRole) (w : call_log) :
  assign self roles w =
    match _call_llm_api self (_build_permission_assignment_prompt roles) w with
    | (Ok response, w') =>
        match parse_permissions response roles with
        | Ok permissions => (Ok permissions, w')
        | Raise e => (Raise e, w')
        end
    | (Raise e, w') => (Raise e, w')
    end.
Proof.
  unfold assign_collaboration_permissions, reraising, mbind, M_bind, lift, mret, M_ret.
  destruct (_call_llm_api _ _ w) as [[response|e] w']; [|reflexivity].
  now destruct (parse_permissions response roles).
Qed.

Lemma generate_roles_ok (self : Distributor) (task : Task) (range : Z * Z)
    (w w' : call_log) (roles : list GeneratedRole) :
  generate self task range w = (Ok roles, w') ->
  exists response raw,
    _call_llm_api self (role_prompt task range) w = (Ok response, w')
    /\ parse_roles response = Ok raw
    /\ validated_by raw (role_generation_request task range) = Ok roles
    /\ roles <> [].
Proof.
  rewrite generate_roles_run.
  destruct (_call_llm_api _ _ w) as [[response|e] w1] eqn:Hcall; [|discriminate].
  destruct (parse_roles response) as [raw|e] eqn:Hparse; [|discriminate].
  destruct (validated_by raw _) as [validated_roles|e] eqn:Hvalid; [|discriminate].
  destruct (nonempty validated_roles) eqn:Hne; [|discriminate].
  intros [= <- <-]. exists response, raw. repeat split; try assumption.
  now apply nonempty_true.
Qed.

(** C1: for every task and count range, when no candidate survives
    validation [generate_roles] raises its RuntimeError "角色生成失败"
    (the specification's RoleGenerationError) instead of returning, and
    every list it returns has at least one role. *)
Theorem generate_roles_never_returns_empty (self : Distributor) (task : Task)
    (range : Z * Z) (w : call_log) :
  (forall response w' raw,
     _call_llm_api self (role_prompt task range) w = (Ok response, w') ->
     parse_roles response = Ok raw ->
     validated_by raw (role_generation_request task range) = Ok [] ->
     generate self task range w
     = (Raise (RuntimeError "角色生成失败: 大模型返回空结果"), w'))
  /\ (forall roles w',
        generate self task range w = (Ok roles, w') ->
        roles <> [] /\ (1 <= length roles)%nat).
Proof.
  split.
  - intros response w' raw Hcall Hparse Hvalid.
    rewrite generate_roles_run, Hcall, Hparse, Hvalid. reflexivity.
  - intros roles w' H. apply generate_roles_ok in H as (_ & _ & _ & _ & _ & Hne).
    split; [assumption|]. destruct roles; [congruence | simpl; lia].
Qed.

(** C3 (amended): a candidate mapping that lacks one of name, role_type,
    responsibilities, skills, output_requirements is skipped and the loop
    goes on (validating a list never fails); a [str] given for
    responsibilities or skills becomes the singleton list of its stripped
    text when that text is not blank, and the empty list when it is blank;
    any other non-list value becomes the empty list; a candidate whose
    responsibilities or skills are empty after coercion is rejected; so
    every role validation or [generate_roles] returns has non-empty
    responsibilities and non-empty skills. *)
Theorem candidates_are_coerced_and_filtered :
  (forall d field rest validated_roles,
     In field required_fields -> d !! field = None ->
     validate_role py_repr int_of_str (PDict d) = Ok None
     /\ validate_loop py_repr int_of_str (PDict d :: rest) validated_roles
        = validate_loop py_repr int_of_str rest validated_roles)
  /\ (forall candidates request, is_ok (validated_by (PList candidates) request) = true)
  /\ (forall s, _ensure_list py_repr (PStr s)
                = match strip s with [] => [] | _ :: _ => [strip s] end)
  /\ (forall v, (forall l, v <> PList l) -> (forall s, v <> PStr s) ->
                _ensure_list py_repr v = [])
  /\ (forall d v_responsibilities v_skills role,
        d !! utf8 "responsibilities" = Some v_responsibilities ->
        d !! utf8 "skills" = Some v_skills ->
        _ensure_list py_repr v_responsibilities = []
        \/ _ensure_list py_repr v_skills = [] ->
        validate_role py_repr int_of_str (PDict d) <> Ok (Some role))
  /\ (forall raw request roles,
        validated_by raw request = Ok roles ->
        Forall (fun role => responsibilities role <> [] /\ skills role <> []) roles)
  /\ (forall self task range w roles w',
        generate self task range w = (Ok roles, w') ->
        Forall (fun role => responsibilities role <> [] /\ skills role <> []) roles).
Proof.
  assert (forall v role, validate_role py_repr int_of_str v = Ok (Some role) ->
                         responsibilities role <> [] /\ skills role <> []) as Hsound.
  { intros v role H.
    apply validate_role_some in H as (? & ? & ? & ? & ? & ? & ? & H).
    tauto. }
  repeat split.
  - now apply (validate_role_missing_field _ _ d field).
  - cbn [validate_loop].
    now rewrite (validate_role_missing_field _ _ d field).
  - intros candidates request. now rewrite validate_list.
  - apply ensure_list_str.
  - apply ensure_list_other.
  - intros d v_responsibilities v_skills role Hr Hs Hempty H.
    apply validate_role_some in H
      as (d' & vn & vt & vr & vs & vo & p & [= <-] & _ & _ & Hr' & Hs' & _ & _ & -> & _
          & _ & Hre & Hsk).
    rewrite Hr in Hr'. rewrite Hs in Hs'. injection Hr' as <-. injection Hs' as <-.
    simpl in Hre, Hsk. tauto.
  - intros raw request roles. now apply validate_Forall.
  - intros self task range w roles w' H.
    apply generate_roles_ok in H as (_ & raw & _ & _ & Hv & _).
    revert Hv. now apply validate_Forall.
Qed.


Lemma slice_to_nil {A} (n : Z) : PySeq.slice_to (@nil A) n = [].
Proof.
  unfold PySeq.slice_to, PySeq.slice. now rewrite drop_nil, take_nil.
Qed.

Lemma validate_loop_no_dict (raw : list pyval) (validated_roles : list GeneratedRole) :
  Forall (fun v => forall d, v <> PDict d) raw ->
  validate_loop py_repr int_of_str raw validated_roles = validated_roles.
Proof.
  revert validated_roles. induction raw as [|v raw IH]; intros acc Hall; [reflexivity|].
  inversion Hall as [|? ? Hv Hraw]; subst. cbn [validate_loop].
  destruct (validate_role py_repr int_of_str v) as [[role|]|e] eqn:E;
    try now apply IH.
  exfalso. revert E. now apply validate_role_not_dict.
Qed.

(** An empty list of candidates validates to the empty list. *)
Lemma validate_no_candidates (request : RoleGenerationRequest) :
  validated_by (PList []) request = Ok [].
Proof.
  rewrite validate_list.
  change (validate_loop py_repr int_of_str [] []) with (@nil GeneratedRole).
  change (PySeq.sorted_reverse priority_level (@nil GeneratedRole))
    with (@nil GeneratedRole).
  destruct (_ <? _); [now rewrite slice_to_nil | reflexivity].
Qed.

(** A [roles] value that is not a list: iterating it raises, or yields
    candidates none of which is a mapping. *)
Lemma validate_not_list (v : pyval) (request : RoleGenerationRequest) :
  (forall l, v <> PList l) ->
  validated_by v request = Raise TypeError \/ validated_by v request = Ok [].
Proof.
  intros Hl. unfold _validate_generated_roles.
  destruct (expected_count_range request) as [lo hi].
  destruct v; cbn [Py.iter mbind result_bind]; try (now left); right.
  - rewrite validate_loop_no_dict.
    + change (PySeq.sorted_reverse priority_level (@nil GeneratedRole))
        with (@nil GeneratedRole).
      destruct (_ <? _); [now rewrite slice_to_nil | reflexivity].
    + apply Forall_forall. intros x Hx. apply list_elem_of_In in Hx.
      apply in_map_iff in Hx as (c & <- & _). discriminate.
  - now destruct (Hl l).
  - rewrite validate_loop_no_dict.
    + change (PySeq.sorted_reverse priority_level (@nil GeneratedRole))
        with (@nil GeneratedRole).
      destruct (_ <? _); [now rewrite slice_to_nil | reflexivity].
    + apply Forall_forall. intros x Hx. apply list_elem_of_In in Hx.
      apply in_map_iff in Hx as (c & <- & _). discriminate.
Qed.

Lemma parse_roles_not_dict (response : str) (v : pyval) :
  json_loads (roles_json_str response) = Ok v -> (forall d, v <> PDict d) ->
  parse_roles response = Raise TypeError \/ parse_roles response = Ok (PList []).
Proof.
  intros H Hd. unfold _parse_roles_from_response. rewrite H.
  destruct v; cbn [Py.contains mbind result_bind try_except]; try (now left).
  - destruct (PyStr.contains s (utf8 "roles")); [now left | now right].
  - destruct (existsb _ l); [now left | now right].
  - now destruct (Hd d).
Qed.

Lemma parse_permissions_not_dict (response : str) (roles : list GeneratedRole)
    (v : pyval) :
  json_loads (permissions_json_str response) = Ok v -> (forall d, v <> PDict d) ->
  parse_permissions response roles = Raise TypeError
  \/ parse_permissions response roles
     = Raise (RuntimeError "权限解析失败: 缺少permissions字段").
Proof.
  intros H Hd. unfold _parse_permissions_from_response. rewrite H.
  destruct v; cbn [Py.contains mbind result_bind try_except]; try (now left).
  - destruct (PyStr.contains s (utf8 "permissions")); [now left | now right].
  - destruct (existsb _ l); [now left | now right].
  - now destruct (Hd d).
Qed.

Lemma parse_permissions_ok (response : str) (roles : list GeneratedRole) (v : pyval) :
  parse_permissions response roles = Ok v ->
  exists d, json_loads (permissions_json_str response) = Ok (PDict d)
            /\ d !! utf8 "permissions" = Some v.
Proof.
  unfold _parse_permissions_from_response.
  destruct (json_loads (permissions_json_str response)) as [data|e] eqn:E.
  - destruct data; cbn [Py.contains mbind result_bind try_except]; try discriminate.
    + destruct (PyStr.contains s (utf8 "permissions")); discriminate.
    + destruct (existsb _ l); discriminate.
    + unfold Py.getitem. destruct (d !! utf8 "permissions") as [v'|] eqn:Ed.
      * intros H. assert (Ok v' = Ok v) as [= <-] by exact H. now exists d.
      * discriminate.
  - destruct e; discriminate.
Qed.

(** C5 (amended): when the capability's response carries a payload that
    does not decode, or decodes to a mapping without the key, the
    operation raises its own RuntimeError; when it decodes to a mapping
    whose [roles] is not a list, or to a value that is not a mapping, the
    operation raises either that RuntimeError or a TypeError that
    propagates from the membership test, the key access or the iteration.
    In none of these cases does [generate_roles] or
    [assign_collaboration_permissions] return a result. *)
Theorem undecodable_or_misshapen_payload_fails (self : Distributor) (task : Task)
    (range : Z * Z) (roles : list GeneratedRole) (w : call_log) :
  (forall response w',
     _call_llm_api self (role_prompt task range) w = (Ok response, w') ->
     (json_loads (roles_json_str response) = Raise JSONDecodeError ->
      generate self task range w
      = (Raise (RuntimeError "角色解析失败: 无法解析JSON"), w'))
     /\ (forall d,
           json_loads (roles_json_str response) = Ok (PDict d) ->
           d !! utf8 "roles" = None ->
           generate self task range w
           = (Raise (RuntimeError "角色生成失败: 大模型返回空结果"), w'))
     /\ (forall d v,
           json_loads (roles_json_str response) = Ok (PDict d) ->
           d !! utf8 "roles" = Some v -> (forall l, v <> PList l) ->
           generate self task range w = (Raise TypeError, w')
           \/ generate self task range w
              = (Raise (RuntimeError "角色生成失败: 大模型返回空结果"), w'))
     /\ (forall v,
           json_loads (roles_json_str response) = Ok v -> (forall d, v <> PDict d) ->
           generate self task range w = (Raise TypeError, w')
           \/ generate self task range w
              = (Raise (RuntimeError "角色生成失败: 大模型返回空结果"), w')))
  /\ (forall response w',
        _call_llm_api self (_build_permission_assignment_prompt roles) w
        = (Ok response, w') ->
        (json_loads (permissions_json_str response) = Raise JSONDecodeError ->
         assign self roles w
         = (Raise (RuntimeError "权限解析失败: 无法解析JSON"), w'))
        /\ (forall d,
              json_loads (permissions_json_str response) = Ok (PDict d) ->
              d !! utf8 "permissions" = None ->
              assign self roles w
              = (Raise (RuntimeError "权限解析失败: 缺少permissions字段"), w'))
        /\ (forall v,
              json_loads (permissions_json_str response) = Ok v ->
              (forall d, v <> PDict d) ->
              assign self roles w = (Raise TypeError, w')
              \/ assign self roles w
                 = (Raise (RuntimeError "权限解析失败: 缺少permissions字段"), w'))).
Proof.
  split.
  - intros response w' Hcall. rewrite generate_roles_run, Hcall.
    split; [|split; [|split]].
    + intros H. now rewrite (parse_roles_undecodable json_loads response H).
    + intros d H Hnone. rewrite (parse_roles_of_dict json_loads response d H), Hnone.
      change (default (PList []) None) with (PList []).
      now rewrite validate_no_candidates.
    + intros d v H Hsome Hl.
      rewrite (parse_roles_of_dict json_loads response d H), Hsome.
      change (default (PList []) (Some v)) with v.
      destruct (validate_not_list v (role_generation_request task range) Hl) as [->| ->];
        [now left | now right].
    + intros v H Hd.
      destruct (parse_roles_not_dict response v H Hd) as [->| ->]; [now left|].
      rewrite validate_no_candidates. now right.
  - intros response w' Hcall. rewrite assign_run, Hcall. split; [|split].
    + intros H. now rewrite (parse_permissions_undecodable json_loads response roles H).
    + intros d H Hnone.
      now rewrite (parse_permissions_of_dict json_loads response roles d H), Hnone.
    + intros v H Hd.
      destruct (parse_permissions_not_dict response roles v H Hd) as [->| ->];
        [now left | now right].
Qed.

(** C6: once the capability has answered,
    [assign_collaboration_permissions] raises its RuntimeError "权限解析失败"
    (the specification's PermissionAssignmentError) when the payload does
    not decode and when the decoded object has no [permissions] key, and
    whatever it returns is the value the decoded object holds under
    [permissions]: nothing is put in its place. *)
Theorem permissions_are_decoded_or_refused (self : Distributor)
    (roles : list GeneratedRole) (w w' : call_log) (response : str) :
  _call_llm_api self (_build_permission_assignment_prompt roles) w = (Ok response, w') ->
  (json_loads (permissions_json_str response) = Raise JSONDecodeError ->
   assign self roles w = (Raise (RuntimeError "权限解析失败: 无法解析JSON"), w'))
  /\ (forall d,
        json_loads (permissions_json_str response) = Ok (PDict d) ->
        d !! utf8 "permissions" = None ->
        assign self roles w
        = (Raise (RuntimeError "权限解析失败: 缺少permissions字段"), w'))
  /\ (forall permissions w'',
        assign self roles w = (Ok permissions, w'') ->
        exists d, json_loads (permissions_json_str response) = Ok (PDict d)
                  /\ d !! utf8 "permissions" = Some permissions).
Proof.
  intros Hcall. rewrite assign_run, Hcall. split; [|split].
  - intros H. now rewrite (parse_permissions_undecodable json_loads response roles H).
  - intros d H Hnone.
    now rewrite (parse_permissions_of_dict json_loads response roles d H), Hnone.
  - intros permissions w''.
    destruct (parse_permissions response roles) as [v|e] eqn:E; [|discriminate].
    intros [= <- _]. now apply parse_permissions_ok in E.
Qed.

(** C8: a successful [generate_roles] has made exactly one call of the
    capability, with the role prompt; a successful
    [assign_collaboration_permissions] run after it has made exactly one
    more, with the permission prompt; and no run of either, successful or
    not, makes more than one call. *)
Theorem each_operation_calls_the_capability_once (self : Distributor) (task : Task)
    (range : Z * Z) (w : call_log) :
  (forall roles w1,
     generate self task range w = (Ok roles, w1) ->
     w1 = w ++ [{| call_prompt := role_prompt task range;
                   call_temperature := temperature_0_7 |}]
     /\ forall permissions w2,
          assign self roles w1 = (Ok permissions, w2) ->
          w2 = w1 ++ [{| call_prompt := _build_permission_assignment_prompt roles;
                         call_temperature := temperature_0_7 |}]
          /\ length w2 = (length w + 2)%nat)
  /\ (forall outcome w1,
        generate self task range w = (outcome, w1) ->
        (length w1 <= length w + 1)%nat)
  /\ (forall roles outcome w1,
        assign self roles w = (outcome, w1) ->
        (length w1 <= length w + 1)%nat).
Proof.
  split; [|split].
  - intros roles w1 H. apply generate_roles_ok in H as (response & _ & Hcall & _).
    apply call_llm_api_ok in Hcall. split; [assumption|].
    intros permissions w2. rewrite assign_run.
    destruct (_call_llm_api self _ w1) as [[answer|e] w1'] eqn:Hcall2; [|discriminate].
    apply call_llm_api_ok in Hcall2.
    destruct (parse_permissions answer roles); [|discriminate].
    intros [= _ <-]. split; [assumption|].
    rewrite Hcall2, Hcall, !length_app. simpl. lia.
  - intros outcome w1. rewrite generate_roles_run.
    destruct (_call_llm_api self _ w) as [[response|e] w'] eqn:Hcall;
      apply call_llm_api_log in Hcall.
    + destruct (parse_roles response) as [raw|e].
      * destruct (validated_by raw _) as [validated_roles|e].
        -- destruct (nonempty validated_roles); intros [= _ <-]; assumption.
        -- intros [= _ <-]; assumption.
      * intros [= _ <-]; assumption.
    + intros [= _ <-]; assumption.
  - intros roles outcome w1. rewrite assign_run.
    destruct (_call_llm_api self _ w) as [[response|e] w'] eqn:Hcall;
      apply call_llm_api_log in Hcall.
    + destruct (parse_permissions response roles); intros [= _ <-]; assumption.
    + intros [= _ <-]; assumption.
Qed.

(** C10: the lower bound of the count range is never enforced: with a
    lower bound above 1, once the capability has answered and at least one
    candidate has survived validation, [generate_roles] returns the
    survivors, however few they are; validation yields the same survivors
    for every lower bound, so the bound reaches nothing but the prompt. *)
Theorem count_range_minimum_is_not_enforced (self : Distributor) (task : Task)
    (min_count max_count : Z) (w w' : call_log) (response : str) (raw : pyval)
    (survivors : list GeneratedRole) :
  1 < min_count ->
  _call_llm_api self (role_prompt task (min_count, max_count)) w = (Ok response, w') ->
  parse_roles response = Ok raw ->
  validated_by raw (role_generation_request task (min_count, max_count)) = Ok survivors ->
  (1 <= length survivors)%nat ->
  generate self task (min_count, max_count) w = (Ok survivors, w')
  /\ forall lo,
       validated_by raw (role_generation_request task (lo, max_count)) = Ok survivors.
Proof.
  intros _ Hcall Hparse Hvalid Hsome. split.
  - rewrite generate_roles_run, Hcall, Hparse, Hvalid.
    destruct survivors; [simpl in Hsome; lia | reflexivity].
  - intros lo. rewrite <- Hvalid.
    apply (validate_ignores_min py_repr int_of_str raw
             (role_generation_request task (min_count, max_count)) lo).
Qed.

End OperationFacts.

(** ** The round loop *)

Section EngineFacts.
Import RoundEngine.

Variable epsilon : Q.
Variable front_size : nat.
Variable run_phases : Task -> list RoundRecord -> Z -> RoundOutcome.

Abbreviation round := (play_round epsilon front_size run_phases).
Abbreviation playing := (play epsilon front_size run_phases).

Lemma play_round_task (s : Session) : session_task (round s) = session_task s.
Proof. reflexivity. Qed.

Lemma play_round_within_bound (s : Session) :
  status s = Running -> within_bound s -> within_bound (round s).
Proof.
  intros Hrun (Hlt & _ & Hall). specialize (Hlt Hrun).
  unfold within_bound, play_round.
  cbn [rounds status session_task]. rewrite length_app. cbn [length].
  set (n := Z.of_nat (length (rounds s)) + 1).
  set (d := decide _ _ _ _ _ _).
  assert (d = Terminate \/ n <> max_iterations (session_task s)) as Hd.
  { subst d. unfold decide. destruct (Z.eqb_spec n (max_iterations (session_task s)));
      [now left | now right]. }
  split; [|split].
  - destruct d; [|discriminate]. intros _. destruct Hd as [?|?]; [discriminate | lia].
  - lia.
  - apply Forall_app. split; [assumption|]. constructor; [|constructor].
    cbn [round_number]. lia.
Qed.

Lemma play_within_bound (fuel : nat) (s : Session) :
  within_bound s ->
  within_bound (playing fuel s) /\ session_task (playing fuel s) = session_task s.
Proof.
  revert s. induction fuel as [|fuel IH]; intros s Hs; cbn [play]; [now split|].
  destruct (status s) eqn:Hst; [|now split].
  destruct (IH (round s)) as [H1 H2]; [now apply play_round_within_bound|].
  split; [assumption|]. now rewrite H2.
Qed.

Lemma play_finishes (fuel : nat) (s : Session) :
  within_bound s ->
  max_iterations (session_task s) - Z.of_nat (length (rounds s)) <= Z.of_nat fuel ->
  status (playing fuel s) = Finished.
Proof.
  revert s. induction fuel as [|fuel IH]; intros s Hs Hfuel; cbn [play].
  - destruct (status s) eqn:Hst; [|reflexivity].
    destruct Hs as (Hlt & _). specialize (Hlt Hst). lia.
  - destruct (status s) eqn:Hst; [|assumption].
    apply IH; [now apply play_round_within_bound|].
    rewrite play_round_task. unfold play_round. cbn [rounds].
    rewrite length_app. cbn [length]. lia.
Qed.

(** C9: for a task with a positive max_iterations, whatever the phases
    of the rounds deliver and however long the loop is allowed to run, the
    session holds at most max_iterations round records, none numbered
    above max_iterations; and allowed max_iterations rounds the loop has
    ended by its own decision. *)
Theorem session_has_at_most_max_iterations_rounds (fuel : nat) (task : Task) :
  0 < max_iterations task ->
  Z.of_nat (length (rounds (start_game_session epsilon front_size run_phases fuel task)))
  <= max_iterations task
  /\ Forall (fun r => round_number r <= max_iterations task)
       (rounds (start_game_session epsilon front_size run_phases fuel task))
  /\ (max_iterations task <= Z.of_nat fuel ->
      status (start_game_session epsilon front_size run_phases fuel task) = Finished).
Proof.
  intros Hpos. unfold start_game_session.
  set (s0 := {| session_task := task; rounds := []; status := Running |}).
  assert (within_bound s0) as H0.
  { unfold within_bound. cbn. split; [intros _; lia|]. split; [lia | constructor]. }
  destruct (play_within_bound fuel s0 H0) as [(_ & Hle & Hall) Htask].
  rewrite Htask in Hle, Hall. cbn [session_task s0] in Hle, Hall.
  split; [assumption|]. split.
  - eapply Forall_impl; [exact Hall|]. cbn. intros r Hr. lia.
  - intros Hfuel. apply play_finishes; [assumption|]. cbn. lia.
Qed.

End EngineFacts.

(** ** Runs of the operations on concrete inputs *)

Section Runs.
Import PyStr Examples.

Abbreviation run_generate :=
  (generate_roles JsonFragment.loads JsonFragment.repr JsonFragment.int_of_str).
Abbreviation run_assign := (assign_collaboration_permissions JsonFragment.loads).
Abbreviation run_validate :=
  (_validate_generated_roles JsonFragment.repr JsonFragment.int_of_str).
Abbreviation sent prompt :=
  {| call_prompt := prompt; call_temperature := temperature_0_7 |}.

Lemma generate_roles_never_returns_empty_witness :
  run_generate (distributor [utf8 "{}"]) task (3, 4) []
  = (Raise (RuntimeError "角色生成失败: 大模型返回空结果"),
     [sent (_build_role_generation_prompt (request_for (3, 4)))]).
Proof.
  apply (proj1 (generate_roles_never_returns_empty JsonFragment.loads
                  JsonFragment.repr JsonFragment.int_of_str
                  (distributor [utf8 "{}"]) task (3, 4) []))
    with (response := utf8 "{}") (raw := PList []);
    vm_compute; reflexivity.
Defined.

(** C3, as stated, fails on text that is not empty but blank: a single
    space given for skills is scalar text of length one, and it is coerced
    to the empty list, not to a singleton, so the otherwise complete
    candidate is rejected. *)
Lemma blank_text_is_coerced_to_no_list :
  length (utf8 " ") = 1%nat
  /\ _ensure_list JsonFragment.repr (PStr (utf8 " ")) = []
  /\ run_validate
       (PList [PDict (<[utf8 "skills" := PStr (utf8 " ")]>
                        (<[utf8 "name" := PStr (utf8 "a")]>
                        (<[utf8 "role_type" := PStr (utf8 "member")]>
                        (<[utf8 "responsibilities" := PStr (utf8 "work")]>
                        (<[utf8 "output_requirements" := PStr (utf8 "a report")]>
                           ∅)))))])
       (request_for (1, 4))
     = Ok [].
Proof. repeat split; vm_compute; reflexivity. Qed.

Lemma candidates_are_coerced_and_filtered_witness :
  validate_role JsonFragment.repr JsonFragment.int_of_str
    (PDict (<[utf8 "name" := PStr (utf8 "a")]> ∅)) = Ok None.
Proof.
  apply (proj1 (candidates_are_coerced_and_filtered JsonFragment.loads
                  JsonFragment.repr JsonFragment.int_of_str)
           (<[utf8 "name" := PStr (utf8 "a")]> ∅) (utf8 "skills") [] []).
  - vm_compute. tauto.
  - vm_compute. reflexivity.
Defined.


(** The cut of [four_candidates] to two: the two roles of priority 9, in
    their original order; the candidate without a priority got 5. *)
Example four_candidates_cut_to_two :
  run_validate (PList four_candidates) (request_for (3, 2))
  = Ok [member "b" 9; member "d" 9]
  /\ run_validate (PList four_candidates) (request_for (3, 4))
     = Ok [member "a" 5; member "b" 9; member "c" 5; member "d" 9].
Proof. split; vm_compute; reflexivity. Qed.

(** C5, as stated, fails on a payload that decodes to a number: the
    decoded value is not a mapping, and both operations fail with the
    TypeError of the membership test, which is not the RuntimeError they
    raise themselves. *)
Lemma number_payload_raises_TypeError :
  JsonFragment.loads (roles_json_str (utf8 "5")) = Ok (PInt 5)
  /\ fst (run_generate (distributor [utf8 "5"]) task (3, 4) []) = Raise TypeError
  /\ fst (run_assign (distributor [utf8 "5"]) [planner] []) = Raise TypeError
  /\ forall msg, @Raise (list GeneratedRole) TypeError <> Raise (RuntimeError msg).
Proof.
  repeat split; try (vm_compute; reflexivity). intros msg. discriminate.
Qed.

Lemma undecodable_or_misshapen_payload_fails_witness :
  run_generate (distributor [prose_response]) task (3, 4) []
  = (Raise (RuntimeError "角色解析失败: 无法解析JSON"),
     [sent (_build_role_generation_prompt (request_for (3, 4)))]).
Proof.
  destruct (undecodable_or_misshapen_payload_fails JsonFragment.loads
              JsonFragment.repr JsonFragment.int_of_str
              (distributor [prose_response]) task (3, 4) [] []) as [Hroles _].
  apply (Hroles prose_response); vm_compute; reflexivity.
Defined.

(** A negative upper bound is not a count: the slice then drops from the
    end, here one role of three by priority. *)
Example negative_upper_bound_drops_from_the_end :
  run_validate (PList [candidate "a" (Some 5); candidate "b" (Some 9);
                       candidate "c" None]) (request_for (1, -1))
  = Ok [member "b" 9; member "a" 5].
Proof. vm_compute. reflexivity. Qed.

(** The fenced block of [fenced_response] is the document itself. *)
Example fenced_response_payload :
  roles_json_str fenced_response = roles_document
  /\ fst (run_generate (distributor [fenced_response]) task (3, 4) []) = Ok [planner].
Proof. split; vm_compute; reflexivity. Qed.

Lemma permissions_are_decoded_or_refused_witness :
  run_assign (distributor [utf8 "{}"]) [planner] []
  = (Raise (RuntimeError "权限解析失败: 缺少permissions字段"),
     [sent (_build_permission_assignment_prompt [planner])]).
Proof.
  apply (proj1 (proj2 (permissions_are_decoded_or_refused JsonFragment.loads
                         (distributor [utf8 "{}"]) [planner] []
                         [sent (_build_permission_assignment_prompt [planner])]
                         (utf8 "{}") eq_refl)) ∅);
    vm_compute; reflexivity.
Defined.

(** The permissions of [permissions_document] come back as decoded. *)
Example permissions_document_is_returned :
  fst (run_assign (distributor [permissions_document]) [planner] [])
  = Ok (PDict (<[utf8 "Planner" := PList []]> ∅)).
Proof. vm_compute. reflexivity. Qed.

Lemma each_operation_calls_the_capability_once_witness :
  length (snd (run_assign (distributor [fenced_response; permissions_document])
                 [planner]
                 (snd (run_generate (distributor [fenced_response; permissions_document])
                         task (3, 4) []))))
  = 2%nat.
Proof.
  set (self := distributor [fenced_response; permissions_document]).
  set (w1 := snd (run_generate self task (3, 4) [])).
  set (w2 := snd (run_assign self [planner] w1)).
  assert (run_generate self task (3, 4) [] = (Ok [planner], w1)) as Hgen
    by (vm_compute; reflexivity).
  assert (run_assign self [planner] w1
          = (Ok (PDict (<[utf8 "Planner" := PList []]> ∅)), w2)) as Hassign
    by (vm_compute; reflexivity).
  destruct (each_operation_calls_the_capability_once JsonFragment.loads
              JsonFragment.repr JsonFragment.int_of_str self task (3, 4) [])
    as [Hok _].
  destruct (Hok [planner] w1 Hgen) as [_ Hnext].
  destruct (Hnext _ w2 Hassign) as [_ Hlen].
  exact Hlen.
Defined.

(** Both operations in a row on the scripted conversation: one role, its
    permissions, two calls. *)
Example generate_then_assign :
  exists w1 w2,
    run_generate (distributor [fenced_response; permissions_document]) task (3, 4) []
    = (Ok [planner], w1)
    /\ run_assign (distributor [fenced_response; permissions_document]) [planner] w1
       = (Ok (PDict (<[utf8 "Planner" := PList []]> ∅)), w2)
    /\ length w1 = 1%nat /\ length w2 = 2%nat.
Proof.
  eexists. eexists. repeat split; vm_compute; reflexivity.
Qed.

Lemma count_range_minimum_is_not_enforced_witness :
  run_generate (distributor [fenced_response]) task (3, 4) []
  = (Ok [planner], [sent (_build_role_generation_prompt (request_for (3, 4)))])
  /\ (length [planner] < 3)%nat.
Proof.
  split; [|simpl; lia].
  apply (proj1 (count_range_minimum_is_not_enforced JsonFragment.loads
                  JsonFragment.repr JsonFragment.int_of_str
                  (distributor [fenced_response]) task 3 4 []
                  [sent (_build_role_generation_prompt (request_for (3, 4)))]
                  fenced_response (PList [planner_value]) [planner]
                  ltac:(lia) ltac:(vm_compute; reflexivity)
                  ltac:(vm_compute; reflexivity) ltac:(vm_compute; reflexivity)
                  ltac:(simpl; lia))).
Defined.

Lemma session_has_at_most_max_iterations_rounds_witness :
  Z.of_nat (length (RoundEngine.rounds
                      (RoundEngine.start_game_session (1 # 100) 1 steady_phases 10 task)))
  <= 3
  /\ RoundEngine.status
       (RoundEngine.start_game_session (1 # 100) 1 steady_phases 10 task)
     = RoundEngine.Finished.
Proof.
  destruct (session_has_at_most_max_iterations_rounds (1 # 100) 1 steady_phases 10 task)
    as (Hlen & _ & Hdone).
  - vm_compute. reflexivity.
  - split; [exact Hlen|]. apply Hdone. vm_compute. discriminate.
Defined.

(** The same rounds for a task whose max_iterations is 0: the round
    number never equals it, and the loop plays as long as it is allowed. *)
Example zero_max_iterations_is_never_reached :
  length (RoundEngine.rounds
            (RoundEngine.start_game_session (1 # 100) 1 steady_phases 10
               {| task_id := utf8 "t0"; description := utf8 "d"; domain := utf8 "x";
                  requirements := []; constraints := []; max_iterations := 0 |}))
  = 10%nat.
Proof. vm_compute. reflexivity. Qed.

End Runs.

(** * Further properties of the Distributor *)

(** ** Stripping *)

Module StripFacts.
Import PyStr.

Lemma lstrip_idem (s : str) : lstrip (lstrip s) = lstrip s.
Proof.
  induction s as [|c s IH]; [reflexivity|]. simpl.
  destruct (isspace c) eqn:E; [assumption|]. simpl. now rewrite E.
Qed.

Lemma lstrip_app_solid (a b : str) (c : N) :
  isspace c = false -> lstrip (a ++ c :: b) = lstrip a ++ c :: b.
Proof.
  intros Hc. induction a as [|x a IH]; simpl.
  - now rewrite Hc.
  - destruct (isspace x); [assumption | reflexivity].
Qed.

Lemma rstrip_cons_solid (c : N) (s : str) :
  isspace c = false -> rstrip (c :: s) = c :: rstrip s.
Proof.
  intros Hc. unfold rstrip. simpl rev.
  rewrite lstrip_app_solid by assumption. rewrite rev_app_distr. reflexivity.
Qed.

Lemma rstrip_idem (s : str) : rstrip (rstrip s) = rstrip s.
Proof.
  unfold rstrip. rewrite rev_involutive. now rewrite lstrip_idem.
Qed.

Lemma rstrip_nil : rstrip [] = [].
Proof. reflexivity. Qed.

(** What [lstrip] leaves begins with a character that is no space. *)
Lemma lstrip_head (s : str) (c : N) (rest : str) :
  lstrip s = c :: rest -> isspace c = false.
Proof.
  induction s as [|x s IH]; simpl; [discriminate|].
  destruct (isspace x) eqn:E; [assumption|]. now intros [= <- _].
Qed.

Lemma lstrip_solid (c : N) (s : str) :
  isspace c = false -> lstrip (c :: s) = c :: s.
Proof. intros Hc. simpl. now rewrite Hc. Qed.

Lemma strip_idem (s : str) : strip (strip s) = strip s.
Proof.
  unfold strip. destruct (lstrip s) as [|c u] eqn:E.
  - reflexivity.
  - pose proof (lstrip_head _ _ _ E) as Hc.
    rewrite (rstrip_cons_solid c u Hc).
    rewrite (lstrip_solid c _ Hc).
    rewrite <- (rstrip_cons_solid c u Hc). apply rstrip_idem.
Qed.

(** A text that begins and ends with characters that are no spaces is
    its own [strip]. *)
Lemma strip_solid_ends (c d : N) (middle : str) :
  isspace c = false -> isspace d = false ->
  strip (c :: middle ++ [d]) = c :: middle ++ [d].
Proof.
  intros Hc Hd. unfold strip. rewrite (lstrip_solid c _ Hc). unfold rstrip.
  assert (rev (c :: middle ++ [d]) = d :: rev (c :: middle)) as ->.
  { change (c :: middle ++ [d]) with ((c :: middle) ++ [d]). now rewrite rev_app_distr. }
  rewrite (lstrip_solid d _ Hd).
  change (rev (d :: rev (c :: middle))) with (rev (rev (c :: middle)) ++ [d]).
  now rewrite rev_involutive.
Qed.

(** [lstrip s], [rstrip s] and [strip s] are pieces of [s]. *)
Lemma lstrip_suffix (s : str) : exists spaces, s = spaces ++ lstrip s.
Proof.
  induction s as [|c s [spaces IH]]; [now exists []|]. simpl.
  destruct (isspace c).
  - exists (c :: spaces). simpl. now rewrite <- IH.
  - now exists [].
Qed.

Lemma rstrip_prefix (s : str) : exists spaces, s = rstrip s ++ spaces.
Proof.
  unfold rstrip. destruct (lstrip_suffix (rev s)) as [spaces H].
  exists (rev spaces). rewrite <- rev_app_distr, <- H. symmetry. apply rev_involutive.
Qed.

Lemma strip_infix (s : str) : exists before after, s = before ++ strip s ++ after.
Proof.
  unfold strip. destruct (lstrip_suffix s) as [before Hb].
  destruct (rstrip_prefix (lstrip s)) as [after Ha].
  exists before, after. now rewrite <- Ha.
Qed.

End StripFacts.

(** ** Errors of the capability and bounds of the result *)

Section OperationEdges.
Import PyStr StripFacts.

Variable json_loads : str -> result pyval.
Variable py_repr : pyval -> str.
Variable int_of_str : str -> result Z.

Abbreviation generating := (generate_roles json_loads py_repr int_of_str).
Abbreviation assigning := (assign_collaboration_permissions json_loads).
Abbreviation validating := (_validate_generated_roles py_repr int_of_str).
Abbreviation asked prompt :=
  {| call_prompt := prompt; call_temperature := temperature_0_7 |}.

(** X1: a Distributor that has no conversation raises
    RuntimeError("NagaAgent API未初始化") from both operations, and makes
    no call: the call log is left as it was. *)
Theorem no_conversation_no_call (self : Distributor) (task : Task) (range : Z * Z)
    (roles : list GeneratedRole) (w : call_log) :
  naga_conversation self = None ->
  generating self task range w = (Raise (RuntimeError "NagaAgent API未初始化"), w)
  /\ assigning self roles w = (Raise (RuntimeError "NagaAgent API未初始化"), w).
Proof.
  intros Hnone. split.
  - rewrite generate_roles_run, call_llm_api_run, Hnone. reflexivity.
  - rewrite assign_run, call_llm_api_run, Hnone. reflexivity.
Qed.

(** X2: an exception raised by the capability leaves each operation as
    it is, neither wrapped nor retried: the operation raises that same
    exception after its one call. *)
Theorem capability_failure_propagates (self : Distributor) (conv : conversation)
    (task : Task) (range : Z * Z) (roles : list GeneratedRole) (w : call_log) :
  naga_conversation self = Some conv ->
  (forall e,
     conv w (asked (_build_role_generation_prompt (role_generation_request task range)))
     = Raise e ->
     generating self task range w
     = (Raise e,
        w ++ [asked (_build_role_generation_prompt (role_generation_request task range))]))
  /\ (forall e,
        conv w (asked (_build_permission_assignment_prompt roles)) = Raise e ->
        assigning self roles w
        = (Raise e, w ++ [asked (_build_permission_assignment_prompt roles)])).
Proof.
  intros Hconv. split; intros e He.
  - rewrite generate_roles_run, call_llm_api_run, Hconv, He. reflexivity.
  - rewrite assign_run, call_llm_api_run, Hconv, He. reflexivity.
Qed.

Lemma validate_length (raw : pyval) (request : RoleGenerationRequest)
    (roles : list GeneratedRole) :
  validating raw request = Ok roles ->
  0 <= snd (expected_count_range request) ->
  Z.of_nat (length roles) <= snd (expected_count_range request).
Proof.
  unfold _validate_generated_roles. destruct (expected_count_range request) as [lo hi].
  cbn [snd]. destruct (Py.iter raw) as [candidates|e]; cbn [mbind result_bind];
    [|discriminate].
  destruct (Z.ltb_spec hi (Z.of_nat (length (validate_loop py_repr int_of_str candidates []))));
    intros [= <-] Hhi; [|assumption].
  rewrite slice_to_take by assumption. rewrite length_take. lia.
Qed.

(** X3: with a count range whose upper bound is not negative,
    [generate_roles] never returns more roles than the upper bound; and
    with the upper bound 0 it never returns at all. *)
Theorem generate_roles_respects_upper_bound (self : Distributor) (task : Task)
    (min_count max_count : Z) (w : call_log) :
  0 <= max_count ->
  (forall roles w',
     generating self task (min_count, max_count) w = (Ok roles, w') ->
     (1 <= Z.of_nat (length roles) <= max_count))
  /\ (max_count = 0 ->
      forall roles w', generating self task (min_count, max_count) w <> (Ok roles, w')).
Proof.
  intros Hmax.
  assert (forall roles w',
            generating self task (min_count, max_count) w = (Ok roles, w') ->
            1 <= Z.of_nat (length roles) <= max_count) as Hbound.
  { intros roles w' H. apply generate_roles_ok in H as (_ & raw & _ & _ & Hv & Hne).
    apply validate_length in Hv; [|assumption]. cbn in Hv.
    destruct roles; [congruence|]. cbn [length] in *. lia. }
  split; [exact Hbound|].
  intros -> roles w' H. apply Hbound in H. lia.
Qed.

End OperationEdges.

(** ** What validation lets through *)

Section ValidationEdges.
Import PyStr StripFacts.

Variable json_loads : str -> result pyval.
Variable py_repr : pyval -> str.
Variable int_of_str : str -> result Z.

Abbreviation coerce := (_ensure_list py_repr).
Abbreviation judge := (validate_role py_repr int_of_str).
Abbreviation judge_all := (validate_loop py_repr int_of_str).
Abbreviation validating' := (_validate_generated_roles py_repr int_of_str).

Lemma strip_clean (s : str) : strip s <> [] -> clean_text (strip s).
Proof. intros H. split; [assumption | apply strip_idem]. Qed.

Lemma ensure_list_clean (v : pyval) : Forall clean_text (coerce v).
Proof.
  destruct v; try (apply List.Forall_nil).
  - cbn [_ensure_list]. unfold PyStr.eqb. destruct (strip s) as [|c t] eqn:E.
    + apply List.Forall_nil.
    + cbn. constructor; [|constructor]. rewrite <- E. apply strip_clean. congruence.
  - cbn [_ensure_list]. induction l as [|x l IH]; [apply List.Forall_nil|].
    cbn [List.filter]. unfold PyStr.eqb at 1.
    destruct (decide (strip (py_str py_repr x) = [])) as [He|Hne].
    + rewrite bool_decide_eq_true_2 by assumption. exact IH.
    + rewrite bool_decide_eq_false_2 by assumption. cbn [negb List.map].
      constructor; [now apply strip_clean | exact IH].
Qed.

Lemma ensure_list_of_clean (l : list str) :
  Forall clean_text l -> coerce (PList (List.map PStr l)) = l.
Proof.
  intros Hl. cbn [_ensure_list]. induction Hl as [|s l [Hne Hs] _ IH]; [reflexivity|].
  cbn [List.map List.filter py_str]. rewrite Hs. unfold PyStr.eqb at 1.
  rewrite bool_decide_eq_false_2 by assumption. cbn [negb List.map py_str].
  rewrite Hs. f_equal. exact IH.
Qed.

(** X4: every text of a role that validation returns is stripped: name
    and role_type are non-empty and have no whitespace around them,
    output_requirements has no whitespace around it, and every entry of
    responsibilities and of skills is non-empty with no whitespace around
    it. *)
Theorem validated_roles_hold_clean_text (raw : pyval) (request : RoleGenerationRequest)
    (roles : list GeneratedRole) :
  validating' raw request = Ok roles ->
  Forall (fun role =>
            clean_text (name role) /\ clean_text (role_type role)
            /\ strip (output_requirements role) = output_requirements role
            /\ Forall clean_text (responsibilities role)
            /\ Forall clean_text (skills role)) roles.
Proof.
  apply validate_Forall. intros v role H.
  apply validate_role_some in H
    as (d & vn & vt & vr & vs & vo & p & _ & _ & _ & _ & _ & _ & _ & -> & Hn & Ht & _).
  cbn [name role_type output_requirements responsibilities skills role_of_fields] in *.
  repeat split; try assumption; try apply strip_idem; apply ensure_list_clean.
Qed.

(** X5: [_ensure_list] is idempotent: given the list it has produced, it
    returns that list unchanged. *)
Theorem ensure_list_idempotent (value : pyval) :
  coerce (PList (List.map PStr (coerce value))) = coerce value.
Proof. apply ensure_list_of_clean, ensure_list_clean. Qed.

Lemma validate_loop_acc (raw : list pyval) (acc : list GeneratedRole) :
  judge_all raw acc = acc ++ judge_all raw [].
Proof.
  revert acc. induction raw as [|v raw IH]; intros acc; cbn [validate_loop].
  - now rewrite app_nil_r.
  - destruct (judge v) as [[role|]|e]; try apply IH.
    rewrite (IH (acc ++ [role])), (IH ([] ++ [role])). now rewrite <- app_assoc.
Qed.

Lemma validate_loop_app (l1 l2 : list pyval) (acc : list GeneratedRole) :
  judge_all (l1 ++ l2) acc = judge_all l2 (judge_all l1 acc).
Proof.
  revert acc. induction l1 as [|v l1 IH]; intros acc; [reflexivity|].
  cbn [app validate_loop]. destruct (judge v) as [[role|]|e]; apply IH.
Qed.

(** X6: candidates are judged one by one and kept in their order: the
    roles validated from two lists put end to end are those of the first
    followed by those of the second, and a candidate that is not accepted
    can be taken out of the list without changing what validation
    returns. *)
Theorem candidates_are_judged_independently (before after : list pyval) :
  judge_all (before ++ after) [] = judge_all before [] ++ judge_all after []
  /\ forall v request,
       (forall role, judge v <> Ok (Some role)) ->
       validating' (PList (before ++ v :: after)) request
       = validating' (PList (before ++ after)) request.
Proof.
  split.
  - rewrite validate_loop_app. apply validate_loop_acc.
  - intros v request Hv. rewrite !validate_list.
    assert (judge_all (before ++ v :: after) [] = judge_all (before ++ after) []) as ->;
      [|reflexivity].
    rewrite !validate_loop_app. cbn [validate_loop].
    destruct (judge v) as [[role|]|e]; try reflexivity. now destruct (Hv role).
Qed.

(** X7: the priority of a candidate is taken as [int] gives it and is
    neither clamped to a range nor replaced by the default: when the
    field is there, an accepted role has exactly the integer value of the
    field, and a candidate whose field has no integer value is passed
    over. *)
Theorem priority_is_neither_clamped_nor_defaulted (d : gmap str pyval) (v : pyval) :
  d !! utf8 "priority_level" = Some v ->
  (forall role, judge (PDict d) = Ok (Some role) ->
                py_int int_of_str v = Ok (priority_level role))
  /\ (forall e rest validated_roles,
        py_int int_of_str v = Raise e ->
        judge_all (PDict d :: rest) validated_roles = judge_all rest validated_roles).
Proof.
  intros Hv. split.
  - intros role H.
    apply validate_role_some in H
      as (d' & vn & vt & vr & vs & vo & p & [= <-] & _ & _ & _ & _ & _ & Hp & -> & _).
    rewrite Hv in Hp. exact Hp.
  - intros e rest acc He. cbn [validate_loop].
    destruct (judge (PDict d)) as [[role|]|e'] eqn:E; try reflexivity.
    apply validate_role_some in E
      as (d' & vn & vt & vr & vs & vo & p & [= <-] & _ & _ & _ & _ & _ & Hp & _).
    rewrite Hv in Hp. change (default (PInt 5) (Some v)) with v in Hp. congruence.
Qed.

End ValidationEdges.

(** ** The payload, the prompts and the constructor *)

Section PromptEdges.
Import PyStr PyStrFacts StripFacts Selection SelectionFacts.

Variable json_loads : str -> result pyval.
Variable py_repr : pyval -> str.
Variable int_of_str : str -> result Z.

Lemma slice_infix (s : str) (lo hi : Z) :
  exists before after, s = before ++ slice s lo hi ++ after.
Proof.
  unfold slice, PySeq.slice.
  set (m := Z.to_nat (PySeq.clamp s lo)). set (n := Z.to_nat _).
  exists (take m s), (drop n (drop m s)). now rewrite !take_drop.
Qed.

Lemma infix_trans (x y z : str) :
  (exists a b, y = a ++ x ++ b) -> (exists c d, z = c ++ y ++ d) ->
  exists e f, z = e ++ x ++ f.
Proof.
  intros (a & b & ->) (c & d & ->). exists (c ++ a), (b ++ d).
  now rewrite <- !app_assoc.
Qed.

Lemma cut_is_stripped (t payload : str) :
  startswith t (utf8 "{") = true -> cut_after_last_brace t payload ->
  strip payload = payload.
Proof.
  intros Hstart [(a & rest & Ht & Hp & _)|[_ ->]]; [|reflexivity].
  apply startswith_app in Hstart as [tail Htail]. subst payload.
  destruct a as [|c a].
  - rewrite Htail in Ht. discriminate.
  - rewrite Htail in Ht. injection Ht as <- _.
    apply strip_solid_ends; reflexivity.
Qed.

(** X8: the text either parser hands to the decoder is a piece of the
    response, copied without change, and has no whitespace around it. *)
Theorem payload_is_a_stripped_piece_of_the_response (response : str) :
  strip (roles_json_str response) = roles_json_str response
  /\ (exists before after, response = before ++ roles_json_str response ++ after)
  /\ strip (permissions_json_str response) = permissions_json_str response
  /\ (exists before after, response = before ++ permissions_json_str response ++ after).
Proof.
  assert (strip (roles_json_str response) = roles_json_str response
          /\ exists before after, response = before ++ roles_json_str response ++ after)
    as H; [|destruct H; repeat split; assumption].
  unfold roles_json_str.
  destruct (negb _ && negb _).
  - split; [apply strip_idem|].
    eapply infix_trans; [apply strip_infix | apply slice_infix].
  - destruct (startswith (strip response) (utf8 "{")) eqn:Hstart.
    + split.
      * eapply cut_is_stripped; [exact Hstart | apply cut_at_rfind].
      * eapply infix_trans; [|apply strip_infix]. apply slice_infix.
    + split; [apply strip_idem | apply strip_infix].
Qed.

Lemma roles_info_view (i : nat) (roles1 roles2 : list GeneratedRole) :
  List.map roster_view roles1 = List.map roster_view roles2 ->
  roles_info i roles1 = roles_info i roles2.
Proof.
  revert i roles2. induction roles1 as [|r1 roles1 IH]; intros i [|r2 roles2] H;
    try discriminate; [reflexivity|].
  cbn [List.map] in H. injection H as Hn Ht Hr Hp Hrest.
  cbn [roles_info]. rewrite (IH (S i) roles2 Hrest). f_equal.
  unfold roster_lines. rewrite !slice_to_take by lia.
  change (Z.to_nat 3) with 3%nat. now rewrite Hn, Ht, Hr, Hp.
Qed.

(** X9: the permission prompt shows of each role its name, its type, its
    first three responsibilities and its priority, and nothing else:
    two role lists that agree on these give the same prompt and the same
    run of [assign_collaboration_permissions]; skills, output
    requirements and further responsibilities never reach the
    capability. *)
Theorem permission_prompt_reads_the_roster_only (roles1 roles2 : list GeneratedRole) :
  List.map roster_view roles1 = List.map roster_view roles2 ->
  _build_permission_assignment_prompt roles1 = _build_permission_assignment_prompt roles2
  /\ forall self w,
       assign_collaboration_permissions json_loads self roles1 w
       = assign_collaboration_permissions json_loads self roles2 w.
Proof.
  intros Hview.
  assert (_build_permission_assignment_prompt roles1
          = _build_permission_assignment_prompt roles2) as Hprompt.
  { unfold _build_permission_assignment_prompt. now rewrite (roles_info_view 0 _ _ Hview). }
  split; [exact Hprompt|]. intros self w.
  rewrite !assign_run, Hprompt. reflexivity.
Qed.

(** X10: [generate_roles] reads of the task its description, its domain
    and its constraints only: tasks that agree on these three run alike,
    whatever their identifier, requirements and max_iterations. *)
Theorem generate_roles_reads_three_task_fields (task1 task2 : Task) :
  description task1 = description task2 ->
  domain task1 = domain task2 ->
  constraints task1 = constraints task2 ->
  forall self range w,
    generate_roles json_loads py_repr int_of_str self task1 range w
    = generate_roles json_loads py_repr int_of_str self task2 range w.
Proof.
  intros Hd Hm Hc self range w.
  assert (role_generation_request task1 range = role_generation_request task2 range) as Hreq
    by (unfold role_generation_request; now rewrite Hd, Hm, Hc).
  rewrite !generate_roles_run, Hreq. reflexivity.
Qed.

Lemma join_lines_holds (f : str -> str) (cs : list str) (c : str) :
  In c cs ->
  exists pre post,
    newline ++ PySeq.join newline (List.map f cs) ++ newline
    = pre ++ newline ++ f c ++ newline ++ post.
Proof.
  induction cs as [|c0 cs IH]; intros Hin; [destruct Hin|].
  destruct cs as [|c1 cs].
  - destruct Hin as [->|[]]. exists [], []. now rewrite app_nil_r.
  - change (PySeq.join newline (List.map f (c0 :: c1 :: cs)))
      with (f c0 ++ newline ++ PySeq.join newline (List.map f (c1 :: cs))).
    destruct Hin as [->|Hin].
    + exists [], (PySeq.join newline (List.map f (c1 :: cs)) ++ newline).
      cbn [app]. now rewrite <- !app_assoc.
    + destruct (IH Hin) as (pre & post & H).
      exists (newline ++ f c0 ++ pre), post.
      rewrite <- !app_assoc. do 2 f_equal. exact H.
Qed.

(** X11: every constraint of the request reaches the capability: it
    stands in the role prompt on a line of its own, after a dash. *)
Theorem every_constraint_is_a_prompt_line (request : RoleGenerationRequest) (c : str) :
  In c (request_constraints request) ->
  exists pre post,
    _build_role_generation_prompt request
    = pre ++ newline ++ utf8 "- " ++ c ++ newline ++ post.
Proof.
  intros Hin. unfold _build_role_generation_prompt.
  destruct (expected_count_range request) as [min_count max_count].
  destruct (request_constraints request) as [|c0 cs] eqn:E; [destruct Hin|].
  cbv iota beta.
  destruct (join_lines_holds (fun c => utf8 "- " ++ c) (c0 :: cs) c Hin)
    as (pre & post & H).
  assert (exists rest, Prompts.role_prompt_5 = newline ++ rest) as [rest Hrest]
    by (eexists; vm_compute; reflexivity).
  rewrite Hrest.
  set (J := PySeq.join newline (List.map (fun c => utf8 "- " ++ c) (c0 :: cs))) in *.
  assert (forall tail, newline ++ J ++ newline ++ tail
                       = pre ++ newline ++ utf8 "- " ++ c ++ newline ++ post ++ tail)
    as Hline.
  { intros tail. rewrite (app_assoc J), (app_assoc newline), H.
    now repeat rewrite <- app_assoc. }
  exists (Prompts.role_prompt_0 ++ task_description request
          ++ Prompts.role_prompt_1 ++ request_domain request
          ++ Prompts.role_prompt_2 ++ Py.str_of_int min_count
          ++ Prompts.role_prompt_3 ++ Py.str_of_int max_count
          ++ Prompts.role_prompt_4 ++ newline ++ utf8 "约束条件:" ++ pre),
         (post ++ rest ++ request_domain request ++ Prompts.role_prompt_6).
  repeat rewrite <- app_assoc. rewrite Hline. reflexivity.
Qed.

End PromptEdges.

Section ConstructionEdges.

Variable import_get_llm_service : result (result conversation).

Abbreviation construct := (__init__ import_get_llm_service).

(** X12: the constructor keeps a conversation it is given and imports
    one only when it is given none and auto_init_api is set; an
    ImportError from the import or from the service call leaves the new
    Distributor without a conversation, and construction fails exactly
    when that import or call raises anything else. *)
Theorem constructor_keeps_imports_or_goes_without (given : option conversation)
    (auto_init_api : bool) :
  (forall self,
     construct given auto_init_api = Ok self ->
     naga_conversation self
     = match given with
       | Some conv => Some conv
       | None =>
           if auto_init_api
           then match import_get_llm_service with
                | Ok (Ok service) => Some service
                | _ => None
                end
           else None
       end)
  /\ (forall e,
        construct given auto_init_api = Raise e
        <-> auto_init_api = true /\ given = None /\ is_ImportError e = false
            /\ (import_get_llm_service = Raise e
                \/ import_get_llm_service = Ok (Raise e))).
Proof.
  unfold __init__, _init_naga_api.
  destruct given as [conv|], auto_init_api; cbn [andb naga_conversation].
  - split; [now intros self [= <-]|]. intros e. split; [discriminate|].
    intros (_ & H & _). discriminate.
  - split; [now intros self [= <-]|]. intros e. split; [discriminate|].
    intros (H & _). discriminate.
  - destruct import_get_llm_service as [[service|e1]|e0];
      cbn [mbind result_bind try_except].
    + split; [now intros self [= <-]|]. intros e. split; [discriminate|].
      intros (_ & _ & _ & [H|H]); discriminate.
    + destruct (is_ImportError e1) eqn:E1.
      * split; [now intros self [= <-]|]. intros e. split; [discriminate|].
        intros (_ & _ & He & [H|H]); [discriminate|]. injection H as <-. congruence.
      * split; [discriminate|]. intros e. split.
        -- intros [= <-]. repeat split; try assumption. now right.
        -- intros (_ & _ & _ & [H|H]); [discriminate|]. now injection H as <-.
    + destruct (is_ImportError e0) eqn:E0.
      * split; [now intros self [= <-]|]. intros e. split; [discriminate|].
        intros (_ & _ & He & [H|H]); [|discriminate]. injection H as <-. congruence.
      * split; [discriminate|]. intros e. split.
        -- intros [= <-]. repeat split; try assumption. now left.
        -- intros (_ & _ & _ & [H|H]); [|discriminate]. now injection H as <-.
  - split; [now intros self [= <-]|]. intros e. split; [discriminate|].
    intros (H & _). discriminate.
Qed.

End ConstructionEdges.

(** ** Runs of the further properties *)

Section FurtherRuns.
Import PyStr Examples.

Abbreviation run_generate' :=
  (generate_roles JsonFragment.loads JsonFragment.repr JsonFragment.int_of_str).
Abbreviation run_assign' := (assign_collaboration_permissions JsonFragment.loads).
Abbreviation run_validate' :=
  (_validate_generated_roles JsonFragment.repr JsonFragment.int_of_str).
Abbreviation sent' prompt :=
  {| call_prompt := prompt; call_temperature := temperature_0_7 |}.

Lemma no_conversation_no_call_witness :
  run_generate' {| naga_conversation := None |} task (3, 4) []
  = (Raise (RuntimeError "NagaAgent API未初始化"), [])
  /\ run_assign' {| naga_conversation := None |} [planner] []
     = (Raise (RuntimeError "NagaAgent API未初始化"), []).
Proof.
  apply (no_conversation_no_call JsonFragment.loads JsonFragment.repr
           JsonFragment.int_of_str {| naga_conversation := None |} task (3, 4)
           [planner] []).
  reflexivity.
Defined.

Lemma capability_failure_propagates_witness :
  run_generate' {| naga_conversation := Some (fun _ _ => Raise (OtherException "timeout")) |}
    task (3, 4) []
  = (Raise (OtherException "timeout"),
     [sent' (_build_role_generation_prompt (request_for (3, 4)))]).
Proof.
  apply (proj1 (capability_failure_propagates JsonFragment.loads JsonFragment.repr
                  JsonFragment.int_of_str
                  {| naga_conversation := Some (fun _ _ => Raise (OtherException "timeout")) |}
                  (fun _ _ => Raise (OtherException "timeout")) task (3, 4) [planner] []
                  eq_refl)).
  reflexivity.
Defined.

Lemma generate_roles_respects_upper_bound_witness :
  1 <= Z.of_nat (length [planner]) <= 4.
Proof.
  apply (proj1 (generate_roles_respects_upper_bound JsonFragment.loads JsonFragment.repr
                  JsonFragment.int_of_str (distributor [fenced_response]) task 3 4 []
                  ltac:(lia))
           [planner] [sent' (_build_role_generation_prompt (request_for (3, 4)))]).
  vm_compute. reflexivity.
Defined.

(** With the upper bound 0 the same answer is refused. *)
Example upper_bound_zero_refuses :
  fst (run_generate' (distributor [fenced_response]) task (0, 0) [])
  = Raise (RuntimeError "角色生成失败: 大模型返回空结果").
Proof. vm_compute. reflexivity. Qed.

Lemma validated_roles_hold_clean_text_witness :
  Forall (fun role =>
            clean_text (name role) /\ clean_text (role_type role)
            /\ strip (output_requirements role) = output_requirements role
            /\ Forall clean_text (responsibilities role)
            /\ Forall clean_text (skills role))
    [member "b" 9; member "d" 9].
Proof.
  apply (validated_roles_hold_clean_text JsonFragment.repr JsonFragment.int_of_str
           (PList four_candidates) (request_for (3, 2))).
  vm_compute. reflexivity.
Defined.

Lemma priority_is_neither_clamped_nor_defaulted_witness :
  py_int JsonFragment.int_of_str (PInt 42) = Ok (priority_level (member "a" 42)).
Proof.
  apply (proj1 (priority_is_neither_clamped_nor_defaulted JsonFragment.repr
                  JsonFragment.int_of_str (fields_with_priority (PInt 42)) (PInt 42)
                  ltac:(vm_compute; reflexivity))
           (member "a" 42)).
  vm_compute. reflexivity.
Defined.

(** A priority outside 1-10 is accepted as it is, and a priority that is
    null makes the candidate disappear. *)
Example priority_42_is_kept_and_null_is_dropped :
  run_validate' (PList [candidate "a" (Some 42); candidate "b" (Some (-3))])
    (request_for (1, 4))
  = Ok [member "a" 42; member "b" (-3)]
  /\ run_validate' (PList [PDict (fields_with_priority PNone)]) (request_for (1, 4))
     = Ok [].
Proof. split; vm_compute; reflexivity. Qed.

Lemma permission_prompt_reads_the_roster_only_witness :
  _build_permission_assignment_prompt [planner]
  = _build_permission_assignment_prompt
      [{| name := utf8 "Planner"; role_type := utf8 "lead";
          responsibilities := [utf8 "plan"]; skills := [utf8 "other"; utf8 "skills"];
          output_requirements := utf8 "something else"; priority_level := 8 |}].
Proof.
  apply (permission_prompt_reads_the_roster_only JsonFragment.loads [planner]
           [{| name := utf8 "Planner"; role_type := utf8 "lead";
               responsibilities := [utf8 "plan"];
               skills := [utf8 "other"; utf8 "skills"];
               output_requirements := utf8 "something else"; priority_level := 8 |}]).
  reflexivity.
Defined.

Lemma generate_roles_reads_three_task_fields_witness :
  run_generate' (distributor [fenced_response]) task (3, 4) []
  = run_generate' (distributor [fenced_response])
      {| task_id := utf8 "t2"; description := utf8 "design a diet app";
         domain := utf8 "product"; requirements := [];
         constraints := [utf8 "two weeks"]; max_iterations := 7 |} (3, 4) [].
Proof.
  apply (generate_roles_reads_three_task_fields JsonFragment.loads JsonFragment.repr
           JsonFragment.int_of_str task
           {| task_id := utf8 "t2"; description := utf8 "design a diet app";
              domain := utf8 "product"; requirements := [];
              constraints := [utf8 "two weeks"]; max_iterations := 7 |});
    reflexivity.
Defined.

Lemma every_constraint_is_a_prompt_line_witness :
  exists pre post,
    _build_role_generation_prompt (request_for (3, 4))
    = pre ++ newline ++ utf8 "- " ++ utf8 "two weeks" ++ newline ++ post.
Proof.
  apply (every_constraint_is_a_prompt_line (request_for (3, 4)) (utf8 "two weeks")).
  vm_compute. now left.
Defined.

End FurtherRuns.

(** * The flow logger and the gated run *)

Module ReadyFacts.
Import PyStr FullFlow ReportReady.

(** A key differs from the keys that [key_ok] constrains. *)
Ltac other_key :=
  let Hk := fresh "Hk" in
  intros Hk; exfalso; vm_compute in Hk; discriminate.

Ltac key_ok_free := unfold key_ok; repeat split; other_key.

(** A lookup under a key that the insertions before it do not
    mention. *)
Ltac other_keys :=
  repeat (rewrite lookup_insert_ne
            by (let Hk := fresh in intros Hk; vm_compute in Hk; discriminate));
  try apply lookup_empty.

Lemma ready_insert (data : gmap str pyval) (k : str) (v : pyval) :
  ready data -> key_ok k v -> ready (<[k := v]> data).
Proof.
  intros (Hall & Hn & Hs & He) Hk. split; [|repeat split].
  - intros k' v' H. destruct (decide (k = k')) as [<-|Hne].
    + rewrite lookup_insert_eq in H. now injection H as <-.
    + rewrite lookup_insert_ne in H by assumption. now apply Hall.
  - apply lookup_insert_is_Some'. now right.
  - apply lookup_insert_is_Some'. now right.
  - apply lookup_insert_is_Some'. now right.
Qed.

Lemma ready_get (data : gmap str pyval) (k : string) :
  ready data -> data_get data k = PNone \/ key_ok (utf8 k) (data_get data k).
Proof.
  intros (Hall & _). unfold data_get.
  destruct (data !! utf8 k) as [v|] eqn:E; [right; now apply Hall | now left].
Qed.

End ReadyFacts.

(** ** The report *)

Section ReportFacts.
Import PyStr FullFlow ReportReady ReadyFacts.

Context `{W : World}.

Hypothesis format_2f_float : floats_format.

Lemma all_text_Forall (lines : list pyval) :
  Forall is_text lines -> exists texts, all_text lines = Ok texts.
Proof.
  induction 1 as [|v lines [s ->] _ [texts IH]]; [now exists []|].
  exists (s :: texts). cbn [all_text]. now rewrite IH.
Qed.

Lemma Forall_text_app (a b : list pyval) :
  Forall is_text a -> Forall is_text b -> Forall is_text (a ++ b).
Proof. intros Ha Hb. apply Forall_app. now split. Qed.

Lemma text_is_text (s : string) : is_text (text s).
Proof. now exists (utf8 s). Qed.

Lemma PStr_is_text (s : str) : is_text (PStr s).
Proof. now exists s. Qed.

Create HintDb report.
#[local] Hint Resolve text_is_text PStr_is_text Forall_text_app : report.

Lemma truthy_get_item (data : gmap str pyval) (k : string) :
  truthy (data_get data k) = true -> data_item data k = Ok (data_get data k).
Proof.
  unfold data_get, data_item. destruct (data !! utf8 k); [reflexivity | discriminate].
Qed.

Lemma ready_key (data : gmap str pyval) (k : string) :
  ready data -> truthy (data_get data k) = true -> key_ok (utf8 k) (data_get data k).
Proof.
  intros Hr Ht. destruct (ready_get data k Hr) as [H|H]; [|exact H].
  rewrite H in Ht. discriminate.
Qed.

Lemma summary_lines_ready (data : gmap str pyval) :
  ready data ->
  exists lines, summary_lines data = Ok lines /\ Forall is_text lines.
Proof.
  intros Hr. pose proof Hr as (Hall & [vn Hn] & [vs Hs] & _).
  unfold summary_lines, data_item. rewrite Hn, Hs. cbn [mbind result_bind].
  assert (exists f, py_or (data_get data "execution_time") (PFloat (S754_zero false))
                    = PFloat f) as [f ->].
  { unfold py_or. destruct (truthy (data_get data "execution_time")) eqn:Ht; [|eauto].
    destruct (ready_key data "execution_time" Hr Ht) as (H & _).
    destruct (H eq_refl) as [H'|[f H']]; rewrite H' in *; [discriminate | eauto]. }
  destruct (format_2f_float f) as [seconds ->]. cbn [mbind result_bind].
  eexists. split; [reflexivity|]. repeat constructor; eauto with report.
Qed.

Lemma question_section_ready (data : gmap str pyval) (lines : list pyval) :
  ready data -> Forall is_text lines ->
  exists lines', question_section data lines = Ok lines' /\ Forall is_text lines'.
Proof.
  intros Hr Hl. unfold question_section.
  destruct (truthy (data_get data "user_question")) eqn:Ht; [|eauto].
  rewrite (truthy_get_item _ _ Ht). cbn [mbind result_bind].
  destruct (ready_key data "user_question" Hr Ht) as (_ & H & _).
  destruct (H eq_refl) as [H'|[s H']]; rewrite H' in *; [discriminate|].
  eexists. split; [reflexivity|]. apply Forall_text_app; [assumption|].
  repeat constructor; eauto with report.
Qed.

Lemma domain_section_ready (data : gmap str pyval) (lines : list pyval) :
  Forall is_text lines ->
  exists lines', domain_section data lines = Ok lines' /\ Forall is_text lines'.
Proof.
  intros Hl. unfold domain_section.
  destruct (truthy (data_get data "inferred_domain")) eqn:Ht; [|eauto].
  rewrite (truthy_get_item _ _ Ht). cbn [mbind result_bind].
  eexists. split; [reflexivity|]. apply Forall_text_app; [assumption|].
  repeat constructor; eauto with report.
Qed.

Lemma agent_lines_ready (agents : list pyval) :
  Forall is_dict agents ->
  exists lines, agent_lines agents = Ok lines /\ Forall is_text lines
                /\ length lines = length agents.
Proof.
  induction 1 as [|agent agents [d ->] _ (lines & IH & Ht & Hlen)].
  - exists []. repeat split; constructor.
  - cbn [agent_lines Py.get mbind result_bind]. rewrite IH. cbn [mbind result_bind].
    eexists. split; [reflexivity|]. split.
    + constructor; eauto with report.
    + cbn [length]. now rewrite Hlen.
Qed.

Lemma agents_section_ready (data : gmap str pyval) (lines : list pyval) :
  ready data -> Forall is_text lines ->
  exists lines', agents_section data lines = Ok lines' /\ Forall is_text lines'.
Proof.
  intros Hr Hl. unfold agents_section.
  assert (exists l, py_or (data_get data "generated_agents") (PList []) = PList l
                    /\ Forall is_dict l) as (l & -> & Hd).
  { unfold py_or. destruct (truthy (data_get data "generated_agents")) eqn:Ht.
    - destruct (ready_key data "generated_agents" Hr Ht) as (_ & _ & H & _).
      destruct (H eq_refl) as (l & -> & Hd). eauto.
    - exists []. split; [reflexivity | constructor]. }
  destruct (truthy (PList l)); [|eauto].
  destruct (agent_lines_ready l Hd) as (overview & Ho & Ht & _).
  cbn [Py.iter mbind result_bind]. rewrite Ho. cbn [mbind result_bind].
  eexists. split; [reflexivity|]. apply Forall_text_app; [assumption|].
  apply Forall_text_app; [|assumption]. repeat constructor; eauto with report.
Qed.

Lemma graph_section_ready (data : gmap str pyval) (lines : list pyval) :
  ready data -> Forall is_text lines ->
  exists lines', graph_section data lines = Ok lines' /\ Forall is_text lines'.
Proof.
  intros Hr Hl. unfold graph_section.
  destruct (truthy (data_get data "interaction_graph")) eqn:Ht; [|eauto].
  rewrite (truthy_get_item _ _ Ht). cbn [mbind result_bind].
  destruct (ready_key data "interaction_graph" Hr Ht) as (_ & _ & _ & H & _).
  destruct (H eq_refl) as [H'|[d H']]; rewrite H' in *; [discriminate|].
  cbn [Py.get mbind result_bind].
  eexists. split; [reflexivity|]. apply Forall_text_app; [assumption|].
  repeat constructor; eauto with report.
Qed.

Lemma rounds_section_ready (data : gmap str pyval) (lines : list pyval) :
  ready data -> Forall is_text lines ->
  exists lines', rounds_section data lines = Ok lines' /\ Forall is_text lines'.
Proof.
  intros Hr Hl. unfold rounds_section.
  assert (exists l, py_or (data_get data "game_rounds") (PList []) = PList l) as (l & ->).
  { unfold py_or. destruct (truthy (data_get data "game_rounds")) eqn:Ht; [|eauto].
    destruct (ready_key data "game_rounds" Hr Ht) as (_ & _ & _ & _ & H & _).
    destruct (H eq_refl) as (l & ->). eauto. }
  destruct (truthy (PList l)); [|eauto]. cbn [py_len mbind result_bind].
  eexists. split; [reflexivity|]. apply Forall_text_app; [assumption|].
  repeat constructor; eauto with report.
Qed.

Lemma front_section_ready (data : gmap str pyval) (lines : list pyval) :
  ready data -> Forall is_text lines ->
  exists lines', front_section data lines = Ok lines' /\ Forall is_text lines'.
Proof.
  intros Hr Hl. unfold front_section.
  destruct (truthy (data_get data "pareto_front")) eqn:Ht; [|eauto].
  rewrite (truthy_get_item _ _ Ht). cbn [mbind result_bind].
  destruct (ready_key data "pareto_front" Hr Ht) as (_ & _ & _ & _ & _ & H & _).
  destruct (H eq_refl) as (l & ->). cbn [py_len mbind result_bind].
  eexists. split; [reflexivity|]. apply Forall_text_app; [assumption|].
  repeat constructor; eauto with report.
Qed.

Lemma export_section_ready (data : gmap str pyval) (lines : list pyval) :
  Forall is_text lines ->
  exists lines', export_section data lines = Ok lines' /\ Forall is_text lines'.
Proof.
  intros Hl. unfold export_section.
  destruct (truthy (data_get data "prompt_export_file")) eqn:Ht; [|eauto].
  rewrite (truthy_get_item _ _ Ht). cbn [mbind result_bind].
  eexists. split; [reflexivity|]. apply Forall_text_app; [assumption|].
  repeat constructor; eauto with report.
Qed.

Lemma final_section_ready (data : gmap str pyval) (lines : list pyval) :
  ready data -> Forall is_text lines ->
  exists lines', final_section data lines = Ok lines' /\ Forall is_text lines'.
Proof.
  intros Hr Hl. unfold final_section.
  destruct (truthy (data_get data "final_result")) eqn:Ht; [|eauto].
  rewrite (truthy_get_item _ _ Ht). cbn [mbind result_bind].
  destruct (ready_key data "final_result" Hr Ht) as (_ & _ & _ & _ & _ & _ & H & _).
  destruct (H eq_refl) as [H'|[s H']]; rewrite H' in *; [discriminate|].
  eexists. split; [reflexivity|]. apply Forall_text_app; [assumption|].
  repeat constructor; eauto with report.
Qed.

Lemma error_lines_ready (errors : list pyval) :
  Forall error_entry errors ->
  error_lines errors = Ok (List.map (error_bullet) errors).
Proof.
  induction 1 as [|err errors (d & -> & [c Hc] & [e He]) _ IH]; [reflexivity|].
  cbn [error_lines Py.getitem]. rewrite Hc, He. cbn [mbind result_bind].
  rewrite IH. cbn [mbind result_bind List.map].
  change (error_bullet (PDict d)) with (PStr (bullet_text (PDict d))).
  cbn [bullet_text]. rewrite Hc, He. reflexivity.
Qed.

Lemma error_bullets_text (errors : list pyval) :
  Forall error_entry errors -> Forall is_text (List.map (error_bullet) errors).
Proof.
  induction 1 as [|err errors (d & -> & _) _ IH]; [constructor|].
  cbn [List.map]. constructor; eauto with report.
Qed.

(** The logged errors, as the report builder reads them. *)
Lemma ready_errors (data : gmap str pyval) :
  ready data ->
  exists errors, data !! utf8 "errors" = Some (PList errors) /\ Forall error_entry errors.
Proof.
  intros (Hall & _ & _ & [v Hv]).
  destruct (Hall _ _ Hv) as (_ & _ & _ & _ & _ & _ & _ & H).
  destruct (H eq_refl) as (l & -> & Hl). eauto.
Qed.

Lemma errors_section_ready (data : gmap str pyval) (lines : list pyval) (errors : list pyval) :
  data !! utf8 "errors" = Some (PList errors) -> Forall error_entry errors ->
  errors_section data lines
  = Ok (lines ++ [PStr []; text "## 错误信息"]
        ++ match errors with
           | [] => [text "无"]
           | _ :: _ => List.map (error_bullet) errors
           end).
Proof.
  intros He Hl. unfold errors_section, data_get. rewrite He.
  change (default PNone (Some (PList errors))) with (PList errors).
  destruct errors as [|err errors].
  - unfold py_or. cbn [truthy nonempty]. now rewrite <- app_assoc.
  - unfold py_or. cbn [truthy nonempty Py.iter mbind result_bind].
    rewrite (error_lines_ready _ Hl). cbn [mbind result_bind]. now rewrite <- app_assoc.
Qed.

End ReportFacts.

(** ** The logger's methods on a state *)

Section LoggerFacts.
Import PyStr FullFlow ReportReady ReadyFacts.

Context `{W : World}.

Hypothesis format_2f_float : floats_format.

Lemma report_body_ready (data : gmap str pyval) :
  ready data ->
  exists front errors,
    data !! utf8 "errors" = Some (PList errors)
    /\ report_body data
       = Ok (front ++ [PStr []; text "## 错误信息"]
             ++ match errors with
                | [] => [text "无"]
                | _ :: _ => List.map (error_bullet) errors
                end)
    /\ Forall is_text front /\ Forall error_entry errors.
Proof.
  intros Hr. unfold report_body.
  destruct (summary_lines_ready format_2f_float data Hr) as (l0 & -> & H0).
  cbn [mbind result_bind].
  destruct (question_section_ready data l0 Hr H0) as (l1 & -> & H1). cbn [mbind result_bind].
  destruct (domain_section_ready data l1 H1) as (l2 & -> & H2). cbn [mbind result_bind].
  destruct (agents_section_ready data l2 Hr H2) as (l3 & -> & H3).
  cbn [mbind result_bind].
  destruct (graph_section_ready data l3 Hr H3) as (l4 & -> & H4).
  cbn [mbind result_bind].
  destruct (rounds_section_ready data l4 Hr H4) as (l5 & -> & H5). cbn [mbind result_bind].
  destruct (front_section_ready data l5 Hr H5) as (l6 & -> & H6). cbn [mbind result_bind].
  destruct (export_section_ready data l6 H6) as (l7 & -> & H7). cbn [mbind result_bind].
  destruct (final_section_ready data l7 Hr H7) as (l8 & -> & H8). cbn [mbind result_bind].
  destruct (ready_errors data Hr) as (errors & He & Hl).
  exists l8, errors. split; [exact He|]. split; [|now split].
  now apply errors_section_ready.
Qed.

Lemma texts_of (lines : list pyval) :
  Forall is_text lines -> exists texts, lines = List.map PStr texts.
Proof.
  induction 1 as [|v lines [s ->] _ [texts ->]]; [now exists []|].
  now exists (s :: texts).
Qed.

Lemma all_text_map (texts : list str) : all_text (List.map PStr texts) = Ok texts.
Proof.
  induction texts as [|s texts IH]; [reflexivity|].
  cbn [List.map all_text]. now rewrite IH.
Qed.

Lemma error_section_map (errors : list pyval) :
  match errors with
  | [] => [text "无"]
  | _ :: _ => List.map error_bullet errors
  end = List.map PStr (error_texts errors).
Proof.
  destruct errors as [|err errors]; [reflexivity|].
  unfold error_texts, error_bullet. now rewrite List.map_map.
Qed.

Lemma build_report_text (s : state) :
  ready_state s ->
  exists front errors,
    test_data (logger s) !! utf8 "errors" = Some (PList errors)
    /\ _build_report s = (Ok (report_text front errors (now (clock_reads s))), ticked s).
Proof.
  intros Hr. destruct (report_body_ready _ Hr) as (front0 & errors & He & Hbody & Hf & _).
  destruct (texts_of front0 Hf) as [front ->].
  exists front, errors. split; [exact He|].
  unfold _build_report, mbind, H_bind, the_data, of_result, read_clock. rewrite Hbody.
  unfold join_lines, report_text. rewrite error_section_map.
  change [PStr []; text "## 错误信息"] with (List.map PStr [[]; utf8 "## 错误信息"]).
  match goal with |- context [[PStr []; PStr ?footer; PStr []]] =>
    change [PStr []; PStr footer; PStr []] with (List.map PStr [[]; footer; []])
  end.
  rewrite <- !List.map_app, all_text_map. cbn [mbind result_bind].
  rewrite <- !app_assoc. reflexivity.
Qed.

(** The test data as [finalize_test] leaves them, the report it writes
    and the two records it logs after that. *)
Lemma finalize_test_text (s : state) (success : bool) :
  ready_state s ->
  exists front errors seconds,
    test_data (logger s) !! utf8 "errors" = Some (PList errors)
    /\ finalize_test success s
       = (Ok tt,
          {| logger :=
               with_data (logger s)
                 (<[utf8 "success" := PBool success]>
                  (<[utf8 "execution_time" :=
                       PFloat (total_seconds (now (clock_reads s)) (start_time (logger s)))]>
                  (<[utf8 "end_time" := PStr (isoformat (now (clock_reads s)))]>
                     (test_data (logger s)))));
             clock_reads := S (S (clock_reads s));
             files := files s
                      ++ [(report_file (logger s),
                           report_text front errors (now (S (clock_reads s))))];
             log := log s ++ [finished_log success seconds;
                              written_log (report_file (logger s))] |})
    /\ ready (<[utf8 "success" := PBool success]>
              (<[utf8 "execution_time" :=
                   PFloat (total_seconds (now (clock_reads s)) (start_time (logger s)))]>
              (<[utf8 "end_time" := PStr (isoformat (now (clock_reads s)))]>
                 (test_data (logger s)))))
    /\ format_2f (py_or (PFloat (total_seconds (now (clock_reads s))
                                   (start_time (logger s))))
                     (PFloat (S754_zero false))) = Ok seconds.
Proof.
  intros Hr.
  unfold finalize_test, _write_report, mbind, H_bind, read_clock, the_logger, set_data,
    write_text, the_data, emit.
  cbv beta iota zeta.
  match goal with |- context [_build_report ?st] =>
    assert (ready_state st) as Hr';
      [|destruct (build_report_text st Hr') as (front & errors & He & ->)]
  end.
  { unfold ready_state. cbn [logger test_data with_data].
    repeat apply ready_insert; try assumption.
    - key_ok_free.
    - unfold key_ok. repeat split; try other_key. intros _. right. eauto.
    - key_ok_free. }
  unfold ticked. cbn [logger test_data with_data clock_reads files log].
  assert (data_get
            (<[utf8 "success" := PBool success]>
             (<[utf8 "execution_time" :=
                  PFloat (total_seconds (now (clock_reads s)) (start_time (logger s)))]>
             (<[utf8 "end_time" := PStr (isoformat (now (clock_reads s)))]>
                (test_data (logger s))))) "execution_time"
          = PFloat (total_seconds (now (clock_reads s)) (start_time (logger s)))) as ->.
  { unfold data_get. rewrite lookup_insert_ne by other_key. now rewrite lookup_insert_eq. }
  assert (exists f,
            py_or (PFloat (total_seconds (now (clock_reads s)) (start_time (logger s))))
              (PFloat (S754_zero false)) = PFloat f) as [f Ef].
  { unfold py_or. destruct (truthy _); eauto. }
  rewrite Ef. destruct (format_2f_float f) as [seconds Es]. rewrite Es.
  exists front, errors, seconds. split; [|split; [|split; [exact Hr'|reflexivity]]].
  2: { cbn [logger test_data with_data clock_reads files log].
       rewrite <- app_assoc. reflexivity. }
  cbn [logger test_data with_data] in He.
  rewrite !lookup_insert_ne in He
    by (let Hk := fresh in intros Hk; vm_compute in Hk; discriminate).
  exact He.
Qed.

End LoggerFacts.

(** ** A final result that is not text *)

Section TextFacts.
Import PyStr FullFlow ReportReady ReadyFacts.

Context `{W : World}.

Hypothesis format_2f_float : floats_format.

Lemma data_get_other (data : gmap str pyval) (k : str) (v : pyval) (key : string) :
  utf8 key <> k -> data_get (<[k := v]> data) key = data_get data key.
Proof. intros Hne. unfold data_get. now rewrite lookup_insert_ne. Qed.

Lemma data_item_other (data : gmap str pyval) (k : str) (v : pyval) (key : string) :
  utf8 key <> k -> data_item (<[k := v]> data) key = data_item data key.
Proof. intros Hne. unfold data_item. now rewrite lookup_insert_ne. Qed.

(** A section that does not read the final result. *)
Ltac reads_other_keys :=
  rewrite ?data_get_other, ?data_item_other
    by (let Hk := fresh in intros Hk; vm_compute in Hk; discriminate);
  reflexivity.

Lemma summary_lines_other (data : gmap str pyval) (v : pyval) :
  summary_lines (<[utf8 "final_result" := v]> data) = summary_lines data.
Proof. unfold summary_lines. reads_other_keys. Qed.

Lemma question_section_other (data : gmap str pyval) (v : pyval) (lines : list pyval) :
  question_section (<[utf8 "final_result" := v]> data) lines = question_section data lines.
Proof. unfold question_section. reads_other_keys. Qed.

Lemma domain_section_other (data : gmap str pyval) (v : pyval) (lines : list pyval) :
  domain_section (<[utf8 "final_result" := v]> data) lines = domain_section data lines.
Proof. unfold domain_section. reads_other_keys. Qed.

Lemma agents_section_other (data : gmap str pyval) (v : pyval) (lines : list pyval) :
  agents_section (<[utf8 "final_result" := v]> data) lines = agents_section data lines.
Proof. unfold agents_section. reads_other_keys. Qed.

Lemma graph_section_other (data : gmap str pyval) (v : pyval) (lines : list pyval) :
  graph_section (<[utf8 "final_result" := v]> data) lines = graph_section data lines.
Proof. unfold graph_section. reads_other_keys. Qed.

Lemma rounds_section_other (data : gmap str pyval) (v : pyval) (lines : list pyval) :
  rounds_section (<[utf8 "final_result" := v]> data) lines = rounds_section data lines.
Proof. unfold rounds_section. reads_other_keys. Qed.

Lemma front_section_other (data : gmap str pyval) (v : pyval) (lines : list pyval) :
  front_section (<[utf8 "final_result" := v]> data) lines = front_section data lines.
Proof. unfold front_section. reads_other_keys. Qed.

Lemma export_section_other (data : gmap str pyval) (v : pyval) (lines : list pyval) :
  export_section (<[utf8 "final_result" := v]> data) lines = export_section data lines.
Proof. unfold export_section. reads_other_keys. Qed.

Lemma errors_section_other (data : gmap str pyval) (v : pyval) (lines : list pyval) :
  errors_section (<[utf8 "final_result" := v]> data) lines = errors_section data lines.
Proof. unfold errors_section. reads_other_keys. Qed.

Lemma all_text_fails (before after : list pyval) (v : pyval) :
  Forall is_text before -> ~ is_text v ->
  all_text (before ++ v :: after) = Raise TypeError.
Proof.
  intros Hb Hv. induction Hb as [|line before [s ->] _ IH].
  - destruct v; try reflexivity. destruct Hv. now eexists.
  - cbn [app all_text]. now rewrite IH.
Qed.

(** The lines of the report hold the final result as it is. *)
Lemma report_body_final (data : gmap str pyval) (v : pyval) :
  ready data -> truthy v = true ->
  exists before after,
    report_body (<[utf8 "final_result" := v]> data) = Ok (before ++ v :: after)
    /\ Forall is_text before.
Proof.
  intros Hr Hv. unfold report_body.
  rewrite summary_lines_other.
  destruct (summary_lines_ready format_2f_float data Hr) as (l0 & -> & H0).
  cbn [mbind result_bind]. rewrite question_section_other.
  destruct (question_section_ready data l0 Hr H0) as (l1 & -> & H1).
  cbn [mbind result_bind]. rewrite domain_section_other.
  destruct (domain_section_ready data l1 H1) as (l2 & -> & H2).
  cbn [mbind result_bind]. rewrite agents_section_other.
  destruct (agents_section_ready data l2 Hr H2) as (l3 & -> & H3).
  cbn [mbind result_bind]. rewrite graph_section_other.
  destruct (graph_section_ready data l3 Hr H3) as (l4 & -> & H4).
  cbn [mbind result_bind]. rewrite rounds_section_other.
  destruct (rounds_section_ready data l4 Hr H4) as (l5 & -> & H5).
  cbn [mbind result_bind]. rewrite front_section_other.
  destruct (front_section_ready data l5 Hr H5) as (l6 & -> & H6).
  cbn [mbind result_bind]. rewrite export_section_other.
  destruct (export_section_ready data l6 H6) as (l7 & -> & H7).
  cbn [mbind result_bind].
  assert (final_section (<[utf8 "final_result" := v]> data) l7
          = Ok (l7 ++ [PStr []; text "## 最终结果"; v])) as ->.
  { unfold final_section, data_get, data_item. rewrite lookup_insert_eq.
    change (default PNone (Some v)) with v. now rewrite Hv. }
  cbn [mbind result_bind]. rewrite errors_section_other.
  destruct (ready_errors data Hr) as (errors & He & Hl).
  rewrite (errors_section_ready data _ errors He Hl).
  exists (l7 ++ [PStr []; text "## 最终结果"]). eexists. split.
  - f_equal. rewrite <- !app_assoc. cbn [app]. reflexivity.
  - apply Forall_app. split; [assumption|].
    constructor; [now exists []|]. constructor; [apply text_is_text|constructor].
Qed.

Lemma build_report_final (s : state) (data : gmap str pyval) (v : pyval) :
  test_data (logger s) = <[utf8 "final_result" := v]> data ->
  ready data -> truthy v = true -> ~ is_text v ->
  _build_report s = (Raise TypeError, ticked s).
Proof.
  intros Hd Hr Hv Hn.
  destruct (report_body_final _ v Hr Hv) as (before & after & Hbody & Hb).
  unfold _build_report, mbind, H_bind, the_data, of_result, read_clock.
  rewrite Hd, Hbody. unfold join_lines.
  rewrite <- app_assoc. cbn [app]. rewrite (all_text_fails before _ v Hb Hn).
  reflexivity.
Qed.

(** Once a truthy value that is not text is the final result,
    [finalize_test] raises and writes nothing. *)
Lemma finalize_test_final (s : state) (success : bool) (v : pyval) :
  ready_state s -> truthy v = true -> ~ is_text v ->
  exists s',
    (set_data "final_result" v;; finalize_test success) s = (Raise TypeError, s')
    /\ files s' = files s.
Proof.
  intros Hr Hv Hn.
  unfold finalize_test, _write_report, mbind, H_bind, read_clock, the_logger, set_data,
    write_text.
  cbv beta iota zeta.
  match goal with
  | |- context [_build_report ?st] =>
      rewrite (build_report_final st
                 (<[utf8 "success" := PBool success]>
                  (<[utf8 "execution_time" :=
                       PFloat (total_seconds (now (clock_reads s)) (start_time (logger s)))]>
                  (<[utf8 "end_time" := PStr (isoformat (now (clock_reads s)))]>
                     (test_data (logger s))))) v)
  end.
  - eexists. split; reflexivity.
  - cbn [logger test_data with_data start_time].
    rewrite (insert_insert_ne _ (utf8 "end_time") (utf8 "final_result"))
      by (let Hk := fresh in intros Hk; vm_compute in Hk; discriminate).
    rewrite (insert_insert_ne _ (utf8 "execution_time") (utf8 "final_result"))
      by (let Hk := fresh in intros Hk; vm_compute in Hk; discriminate).
    rewrite (insert_insert_ne _ (utf8 "success") (utf8 "final_result"))
      by (let Hk := fresh in intros Hk; vm_compute in Hk; discriminate).
    reflexivity.
  - unfold ready_state in Hr. repeat apply ready_insert; try assumption.
    + key_ok_free.
    + unfold key_ok. repeat split; try other_key. intros _. right. eauto.
    + key_ok_free.
  - exact Hv.
  - exact Hn.
Qed.

End TextFacts.

(** ** The gated run *)

Section RunFacts.
Import PyStr FullFlow ReportReady ReadyFacts.

Context `{W : World}.

Hypothesis format_2f_float : floats_format.

Lemma bind_ok {A B} (m : H A) (k : A -> H B) (s s' : state) (a : A) :
  m s = (Ok a, s') -> (m ≫= k) s = k a s'.
Proof. intros E. unfold mbind, H_bind. now rewrite E. Qed.

Lemma bind_raise {A B} (m : H A) (k : A -> H B) (s s' : state) (exc : exn) :
  m s = (Raise exc, s') -> (m ≫= k) s = (Raise exc, s').
Proof. intros E. unfold mbind, H_bind. now rewrite E. Qed.

(** *** What the logging calls do *)

Lemma emit_run (record : log_record) (s : state) :
  emit record s = (Ok tt, logged s [record]).
Proof. reflexivity. Qed.

Lemma logged_logged (s : state) (a b : list log_record) :
  logged (logged s a) b = logged s (a ++ b).
Proof. unfold logged. cbn [logger clock_reads files log]. now rewrite app_assoc. Qed.

Lemma logged_nil (s : state) : logged s [] = s.
Proof. destruct s. unfold logged. cbn [logger clock_reads files log]. now rewrite app_nil_r. Qed.

(** The records of a [log_step]. *)
Lemma log_step_run (step : string) (data : option pyval) (s : state) :
  log_step step data s
  = (Ok tt,
     logged s (info (utf8 "Step: " ++ utf8 step)
               :: match data with
                  | Some data => [debug (utf8 "data=" ++ json_dumps data)]
                  | None => []
                  end)).
Proof.
  unfold log_step. rewrite (bind_ok _ _ _ _ _ (emit_run _ s)).
  destruct data as [data|]; [|reflexivity].
  rewrite emit_run. now rewrite logged_logged.
Qed.

Lemma log_node_output_run (node_name : pyval) (node_type : str) (output : pyval)
    (s : state) :
  log_node_output node_name node_type output s
  = (Ok tt,
     logged s [info (utf8 "Node[" ++ node_type ++ utf8 "/" ++ shown node_name
                     ++ utf8 "]: " ++ shown output)]).
Proof. reflexivity. Qed.

(** *** Steps that keep a run quiet *)

Lemma quiet_refl (s : state) : ready_state s -> quiet s s.
Proof.
  intros Hr. split; [exact Hr|]. repeat split. exists []. now rewrite app_nil_r.
Qed.

Lemma quiet_trans (s1 s2 s3 : state) : quiet s1 s2 -> quiet s2 s3 -> quiet s1 s3.
Proof.
  intros (_ & Hl & Hp & Hf & He & [m Hm]) (Hr & Hl' & Hp' & Hf' & He' & [m' Hm']).
  split; [exact Hr|]. split; [congruence|]. split; [congruence|]. split; [congruence|].
  split; [congruence|]. exists (m ++ m'). rewrite Hm', Hm. now rewrite app_assoc.
Qed.

Lemma quiet_ready (s s' : state) : quiet s s' -> ready_state s'.
Proof. now intros (Hr & _). Qed.

Lemma logged_quiet (s : state) (records : list log_record) :
  ready_state s -> quiet s (logged s records).
Proof. intros Hr. split; [exact Hr|]. repeat split. now exists records. Qed.

(** Storing a value under a key other than "errors" keeps the run
    quiet. *)
Lemma set_data_quiet (s : state) (k : string) (v : pyval) :
  ready_state s -> key_ok (utf8 k) v -> utf8 k <> utf8 "errors" ->
  quiet s {| logger := with_data (logger s) (<[utf8 k := v]> (test_data (logger s)));
             clock_reads := clock_reads s; files := files s; log := log s |}.
Proof.
  intros Hr Hk Hne. split; [|split; [|split; [|split; [|split]]]]; try reflexivity.
  - unfold ready_state. cbn [logger test_data with_data]. now apply ready_insert.
  - cbn [logger test_data with_data]. now rewrite lookup_insert_ne.
  - exists []. cbn [log]. now rewrite app_nil_r.
Qed.

(** Replacing the system keeps the run quiet. *)
Lemma with_system_quiet (s : state) (system : option System) :
  ready_state s ->
  quiet s {| logger := with_system (logger s) system;
             clock_reads := clock_reads s; files := files s; log := log s |}.
Proof.
  intros Hr. split; [exact Hr|]. repeat split. exists []. cbn [log]. now rewrite app_nil_r.
Qed.

Lemma log_step_step (s : state) (step : string) (data : option pyval) :
  ready_state s -> exists s', log_step step data s = (Ok tt, s') /\ quiet s s'.
Proof.
  intros Hr. eexists. split; [apply log_step_run|]. now apply logged_quiet.
Qed.

Lemma log_node_output_step (s : state) (node_name : pyval) (node_type : str)
    (output : pyval) :
  ready_state s ->
  exists s', log_node_output node_name node_type output s = (Ok tt, s') /\ quiet s s'.
Proof.
  intros Hr. eexists. split; [apply log_node_output_run|]. now apply logged_quiet.
Qed.

Lemma for_each_step {A} (items : list A) (body : A -> H unit) :
  (forall item s, ready_state s -> exists s', body item s = (Ok tt, s') /\ quiet s s') ->
  forall s, ready_state s ->
  exists s', for_each items body s = (Ok tt, s') /\ quiet s s'.
Proof.
  intros Hbody. induction items as [|item items IH]; intros s Hr.
  - exists s. split; [reflexivity|now apply quiet_refl].
  - destruct (Hbody item s Hr) as (s1 & E1 & Hq1).
    destruct (IH s1 (quiet_ready _ _ Hq1)) as (s' & E & Hq).
    exists s'. split; [|now apply (quiet_trans s s1 s')].
    cbn [for_each]. now rewrite (bind_ok _ _ _ _ _ E1).
Qed.

Lemma set_data_step (s : state) (k : string) (v : pyval) :
  ready_state s -> key_ok (utf8 k) v -> utf8 k <> utf8 "errors" ->
  exists s', set_data k v s = (Ok tt, s') /\ quiet s s'.
Proof.
  intros Hr Hk Hne. eexists. split; [reflexivity|]. now apply set_data_quiet.
Qed.

Lemma call_step {A} (outcome : result A * System) (s : state) :
  ready_state s -> exists s', call outcome s = (fst outcome, s') /\ quiet s s'.
Proof.
  intros Hr. eexists. split; [reflexivity|]. now apply with_system_quiet.
Qed.

Lemma require_system_cases (s : state) :
  (exists exc, _require_system s = (Raise exc, s))
  \/ exists system, _require_system s = (Ok system, s).
Proof.
  unfold _require_system, mbind, H_bind, the_logger.
  destruct (_naga_system (logger s)); [right|left]; eexists; reflexivity.
Qed.

(** *** The logger's methods *)

Lemma log_error_ready (s : state) (error : exn) (context : string) :
  ready_state s ->
  exists entries,
    test_data (logger s) !! utf8 "errors" = Some (PList entries)
    /\ log_error error context s
       = (Ok tt,
          {| logger :=
               with_data (logger s)
                 (<[utf8 "errors" :=
                      PList (entries
                             ++ [error_record error context (now (clock_reads s))])]>
                    (test_data (logger s)));
             clock_reads := S (clock_reads s);
             files := files s;
             log := log s ++ [error_log error context] |})
    /\ Forall error_entry entries.
Proof.
  intros Hr. destruct (ready_errors _ Hr) as (entries & He & Hl).
  exists entries. split; [exact He|]. split; [|exact Hl].
  unfold log_error. rewrite (bind_ok _ _ _ _ _ (emit_run _ s)).
  unfold mbind, H_bind, the_data, of_result, data_item, logged.
  cbn [logger test_data]. rewrite He. reflexivity.
Qed.

Lemma error_record_entry (error : exn) (context : string) (moment : time) :
  error_entry (error_record error context moment).
Proof.
  unfold error_record. eexists. split; [reflexivity|]. split.
  - rewrite lookup_insert_eq. eauto.
  - rewrite lookup_insert_ne by (intros Hk; vm_compute in Hk; discriminate).
    rewrite lookup_insert_eq. eauto.
Qed.

Lemma log_error_step (s : state) (error : exn) (context : string) :
  ready_state s ->
  exists entries s',
    test_data (logger s) !! utf8 "errors" = Some (PList entries)
    /\ log_error error context s = (Ok tt, s')
    /\ ready_state s'
    /\ log_file (logger s') = log_file (logger s)
    /\ report_file (logger s') = report_file (logger s)
    /\ files s' = files s
    /\ test_data (logger s') !! utf8 "errors"
       = Some (PList (entries ++ [error_record error context (now (clock_reads s))]))
    /\ log s' = log s ++ [error_log error context].
Proof.
  intros Hr. destruct (log_error_ready s error context Hr) as (entries & He & -> & Hl).
  exists entries. eexists. split; [exact He|]. split; [reflexivity|].
  split; [|repeat split; cbn [logger test_data with_data]; now rewrite lookup_insert_eq].
  unfold ready_state. cbn [logger test_data with_data].
  apply ready_insert; [exact Hr|].
  unfold key_ok. repeat split; try other_key. intros _. eexists. split; [reflexivity|].
  apply Forall_app. split; [exact Hl|]. constructor; [|constructor].
  apply error_record_entry.
Qed.

Lemma result_of_paths (l l' : FullFlowTestLogger) (phases : list PhaseResult)
    (success : bool) (reason : string) (extra : option (gmap str pyval)) :
  log_file l' = log_file l -> report_file l' = report_file l ->
  result_of l' phases success reason extra = result_of l phases success reason extra.
Proof. intros Hl Hf. unfold result_of. now rewrite Hl, Hf. Qed.

Lemma finalize_ready (s : state) (phases : list PhaseResult) (success : bool)
    (reason : string) (extra : option (gmap str pyval)) :
  ready_state s ->
  exists front errors moment seconds s',
    test_data (logger s) !! utf8 "errors" = Some (PList errors)
    /\ _finalize phases success reason extra s
       = (Ok (result_of (logger s) phases success reason extra), s')
    /\ ready_state s'
    /\ files s' = files s ++ [(report_file (logger s), report_text front errors moment)]
    /\ test_data (logger s') !! utf8 "success" = Some (PBool success)
    /\ log s' = log s ++ [finished_log success seconds;
                          written_log (report_file (logger s))].
Proof.
  intros Hr. unfold _finalize.
  unfold mbind at 1 2. unfold H_bind at 1 2. unfold set_data at 1 2.
  match goal with |- context [(finalize_test success ≫= ?k) ?st] =>
    assert (ready_state st) as Hr';
      [|destruct (finalize_test_text format_2f_float st success Hr')
          as (front & errors & seconds & He & Hf & Hr2 & _)]
  end.
  { unfold ready_state. cbn [logger test_data with_data].
    repeat apply ready_insert; try assumption; key_ok_free. }
  unfold mbind, H_bind. rewrite Hf. unfold the_logger, mret, H_ret.
  exists front, errors. do 3 eexists.
  split; [|split; [reflexivity|split; [exact Hr2|split; [reflexivity|split; [|reflexivity]]]]].
  - cbn [logger test_data with_data] in He.
    rewrite !lookup_insert_ne in He
      by (let Hk := fresh in intros Hk; vm_compute in Hk; discriminate).
    exact He.
  - cbn [logger test_data with_data]. now rewrite lookup_insert_eq.
Qed.

Lemma on_exception_ready (s : state) (phases : list PhaseResult) (exc : exn) :
  ready_state s ->
  exists front errors moment seconds s',
    test_data (logger s) !! utf8 "errors" = Some (PList errors)
    /\ on_exception phases exc s
       = (Ok (result_of (logger s) phases false "completed"
                (Some (<[utf8 "error" := PStr (str_of_exn exc)]> ∅))), s')
    /\ ready_state s'
    /\ files s'
       = files s
         ++ [(report_file (logger s),
              report_text front
                (errors ++ [error_record exc "full_flow" (now (clock_reads s))]) moment)]
    /\ test_data (logger s') !! utf8 "success" = Some (PBool false)
    /\ log s' = log s ++ [error_log exc "full_flow"; finished_log false seconds;
                          written_log (report_file (logger s))].
Proof.
  intros Hr. unfold on_exception, mbind, H_bind.
  destruct (log_error_step s exc "full_flow" Hr)
    as (errors & s1 & He & -> & Hr1 & Hl & Hp & Hf & He1 & Hlog1).
  destruct (finalize_ready s1 phases false "completed"
              (Some (<[utf8 "error" := PStr (str_of_exn exc)]> ∅)) Hr1)
    as (front & errors' & moment & seconds & s' & He' & -> & Hr' & Hw & Hs & Hlog).
  rewrite He1 in He'. injection He' as <-.
  exists front, errors, moment, seconds, s'. split; [exact He|].
  split; [|split; [exact Hr'|split; [|split; [exact Hs|]]]].
  - f_equal. f_equal. apply result_of_paths; assumption.
  - now rewrite Hw, Hf, Hp.
  - rewrite Hlog, Hlog1, Hp, <- app_assoc. reflexivity.
Qed.

(** *** The phases *)

Lemma setup_step (s : state) :
  ready_state s ->
  exists s', phase_step _phase_setup "setup" (fun d => True) s s'.
Proof.
  intros Hr. unfold phase_step, _phase_setup.
  destruct (log_step_step s "系统初始化" None Hr) as (s1 & E1 & Hq1).
  rewrite (bind_ok _ _ _ _ _ E1).
  assert (exists s2,
            quiet s s2
            /\ ((exists exc, forall B (k : pyval -> H B),
                   ((match config_file with
                     | Some loaded =>
                         config_data ← of_result loaded;
                         log_step "配置加载成功"
                           (Some (PDict (<[utf8 "has_config" := PBool true]> ∅)));;
                         mret config_data
                     | None => log_step "使用默认配置" None;; mret (PDict ∅)
                     end) ≫= k) s1 = (Raise exc, s2))
                \/ exists config, forall B (k : pyval -> H B),
                     ((match config_file with
                       | Some loaded =>
                           config_data ← of_result loaded;
                           log_step "配置加载成功"
                             (Some (PDict (<[utf8 "has_config" := PBool true]> ∅)));;
                           mret config_data
                       | None => log_step "使用默认配置" None;; mret (PDict ∅)
                       end) ≫= k) s1 = k config s2))
    as (s2 & Hq2 & Hconfig).
  { destruct config_file as [[config|exc]|].
    - destruct (log_step_step s1 "配置加载成功"
                  (Some (PDict (<[utf8 "has_config" := PBool true]> ∅)))
                  (quiet_ready _ _ Hq1)) as (s2 & E2 & Hq2).
      exists s2. split; [now apply (quiet_trans s s1 s2)|right]. exists config.
      intros B k. apply bind_ok. unfold of_result.
      unfold mbind at 1. unfold H_bind at 1. now rewrite (bind_ok _ _ _ _ _ E2).
    - exists s1. split; [exact Hq1|left]. exists exc. intros B k. now apply bind_raise.
    - destruct (log_step_step s1 "使用默认配置" None (quiet_ready _ _ Hq1))
        as (s2 & E2 & Hq2).
      exists s2. split; [now apply (quiet_trans s s1 s2)|right]. exists (PDict ∅).
      intros B k. apply bind_ok. now rewrite (bind_ok _ _ _ _ _ E2). }
  destruct Hconfig as [[exc Hc]|[config Hc]]; rewrite Hc.
  { exists s2. split; [exact Hq2|left]. now exists exc. }
  destruct make_system as [system|exc].
  - rewrite (bind_ok (of_result (Ok system)) _ s2 s2 system eq_refl).
    destruct (log_step_step s2 "NagaGameSystem创建成功" None (quiet_ready _ _ Hq2))
      as (s3 & E3 & Hq3).
    rewrite (bind_ok _ _ _ _ _ E3).
    match goal with |- context [set_data ?k ?v] =>
      destruct (set_data_step s3 k v (quiet_ready _ _ Hq3)) as (s4 & E4 & Hq4);
        [key_ok_free|other_key|] end.
    rewrite (bind_ok _ _ _ _ _ E4).
    exists {| logger := with_system (logger s4) (Some system);
              clock_reads := clock_reads s4; files := files s4; log := log s4 |}.
    split; [|right; eexists; split; [reflexivity|exact I]].
    apply (quiet_trans s s2); [exact Hq2|]. apply (quiet_trans s2 s3); [exact Hq3|].
    apply (quiet_trans s3 s4); [exact Hq4|].
    apply with_system_quiet. exact (quiet_ready _ _ Hq4).
  - exists s2. split; [exact Hq2|left]. exists exc. reflexivity.
Qed.

Lemma prepare_task_step (s : state) (question : str) :
  ready_state s ->
  exists s' task,
    quiet s s'
    /\ _phase_prepare_task question s
       = (Ok {| name := utf8 "task"; data := TaskData task |}, s').
Proof.
  intros Hr. unfold _phase_prepare_task.
  destruct (log_step_step s "创建任务对象" None Hr) as (s1 & E1 & Hq1).
  rewrite (bind_ok _ _ _ _ _ E1).
  match goal with |- context [set_data ?k ?v] =>
    destruct (set_data_step s1 k v (quiet_ready _ _ Hq1)) as (s' & E & Hq);
      [key_ok_free|other_key|] end.
  exists s'. eexists. split; [now apply (quiet_trans s s1 s')|].
  rewrite (bind_ok _ _ _ _ _ E). reflexivity.
Qed.

Lemma generate_agents_step (s : state) (task : Task) (expected : option (Z * Z)) :
  ready_state s ->
  exists s',
    phase_step (_phase_generate_agents task expected) "agents"
      (fun d => exists agents, d = AgentsData agents) s s'.
Proof.
  intros Hr. unfold phase_step, _phase_generate_agents.
  destruct (require_system_cases s) as [[exc E]|[system E]].
  { exists s. split; [now apply quiet_refl|left]. exists exc. now apply bind_raise. }
  rewrite (bind_ok _ _ _ _ _ E).
  destruct (log_step_step s "开始生成智能体团队" None Hr) as (s0 & E0 & Hq0).
  rewrite (bind_ok _ _ _ _ _ E0).
  destruct (call_step (generate_agents_only system task expected) s0 (quiet_ready _ _ Hq0))
    as (s1 & Ec & Hq1).
  pose proof (quiet_trans _ _ _ Hq0 Hq1) as Hq. clear Hq0 Hq1.
  destruct (generate_agents_only system task expected) as [[agents|exc] system'].
  - rewrite (bind_ok _ _ _ _ _ Ec). destruct agents as [|agent agents].
    + exists s1. split; [exact Hq|left]. eexists. reflexivity.
    + cbn [nonempty negb].
      match goal with |- context [for_each ?items ?body] =>
        destruct (for_each_step items body) with (s := s1) as (s2 & E2 & Hq2) end.
      { intros item s' Hr'. apply log_node_output_step. exact Hr'. }
      { exact (quiet_ready _ _ Hq). }
      rewrite (bind_ok _ _ _ _ _ E2).
      match goal with |- context [set_data ?k ?v] =>
        destruct (set_data_step s2 k v (quiet_ready _ _ Hq2)) as (s' & Es & Hq') end.
      { unfold key_ok. repeat split; try other_key. intros _. eexists. split; [reflexivity|].
        apply List.Forall_forall. intros v Hv. apply in_map_iff in Hv as (a & <- & _).
        eexists. reflexivity. }
      { other_key. }
      exists s'. split; [|right].
      { apply (quiet_trans s s1); [exact Hq|]. now apply (quiet_trans s1 s2). }
      eexists. split; [|eexists; reflexivity].
      rewrite (bind_ok _ _ _ _ _ Es). reflexivity.
  - exists s1. split; [exact Hq|left]. exists exc. now apply bind_raise.
Qed.

Lemma build_graph_step (s : state) (task : Task) (agents : list Agent) :
  ready_state s ->
  exists s',
    phase_step (_phase_build_graph task agents) "graph"
      (fun d => exists graph, d = GraphData graph) s s'.
Proof.
  intros Hr. unfold phase_step, _phase_build_graph.
  destruct (require_system_cases s) as [[exc E]|[system E]].
  { exists s. split; [now apply quiet_refl|left]. exists exc. now apply bind_raise. }
  rewrite (bind_ok _ _ _ _ _ E).
  destruct (log_step_step s "构建交互图" None Hr) as (s0 & E0 & Hq0).
  rewrite (bind_ok _ _ _ _ _ E0).
  destruct (call_step (_execute_interaction_graph_phase system agents task) s0
              (quiet_ready _ _ Hq0)) as (s1 & Ec & Hq1).
  pose proof (quiet_trans _ _ _ Hq0 Hq1) as Hq. clear Hq0 Hq1.
  destruct (_execute_interaction_graph_phase system agents task) as [[graph|exc] system'].
  - rewrite (bind_ok _ _ _ _ _ Ec).
    match goal with |- context [set_data ?k ?v] =>
      destruct (set_data_step s1 k v (quiet_ready _ _ Hq)) as (s' & Es & Hq') end.
    { unfold key_ok. repeat split; try other_key. intros _. right. eexists. reflexivity. }
    { other_key. }
    exists s'. split; [now apply (quiet_trans s s1 s')|right].
    eexists. split; [|eexists; reflexivity].
    rewrite (bind_ok _ _ _ _ _ Es). reflexivity.
  - exists s1. split; [exact Hq|left]. exists exc. now apply bind_raise.
Qed.

Hypothesis contents : contents_are_text.

Lemma process_request_step (s : state) (task : Task) (graph : InteractionGraph)
    (question : str) :
  ready_state s ->
  exists s',
    phase_step (_phase_process_request task graph question) "response"
      (fun d => exists response, d = ResponseData response) s s'.
Proof.
  intros Hr. unfold phase_step, _phase_process_request.
  destruct (require_system_cases s) as [[exc E]|[system E]].
  { exists s. split; [now apply quiet_refl|left]. exists exc. now apply bind_raise. }
  rewrite (bind_ok _ _ _ _ _ E).
  destruct (log_step_step s "执行用户问题处理流程" None Hr) as (s0 & E0 & Hq0).
  rewrite (bind_ok _ _ _ _ _ E0).
  destruct (call_step (process_user_request system question graph (utf8 "test_user")) s0
              (quiet_ready _ _ Hq0)) as (s1 & Ec & Hq1).
  pose proof (quiet_trans _ _ _ Hq0 Hq1) as Hq. clear Hq0 Hq1.
  destruct (process_user_request system question graph (utf8 "test_user"))
    as [[response|exc] system'] eqn:Ep.
  - rewrite (bind_ok _ _ _ _ _ Ec).
    destruct (log_node_output_step s1 (text "系统") (utf8 "响应") (content response)
                (quiet_ready _ _ Hq)) as (s2 & E2 & Hq2).
    rewrite (bind_ok _ _ _ _ _ E2).
    destruct (set_data_step s2 "final_result" (content response) (quiet_ready _ _ Hq2))
      as (s' & Es & Hq').
    { unfold key_ok. repeat split; try other_key. intros _.
      exact (proj1 contents _ _ _ _ _ _ Ep). }
    { other_key. }
    exists s'. split; [|right].
    { apply (quiet_trans s s1); [exact Hq|]. now apply (quiet_trans s1 s2). }
    eexists. split; [|eexists; reflexivity].
    rewrite (bind_ok _ _ _ _ _ Es). reflexivity.
  - exists s1. split; [exact Hq|left]. exists exc. now apply bind_raise.
Qed.

Lemma self_game_step (s : state) (task : Task) (agents : list Agent) :
  ready_state s ->
  exists s',
    phase_step (_phase_self_game task agents) "self_game"
      (fun d => exists session, d = SessionData session) s s'.
Proof.
  intros Hr. unfold phase_step, _phase_self_game.
  destruct (require_system_cases s) as [[exc E]|[system E]].
  { exists s. split; [now apply quiet_refl|left]. exists exc. now apply bind_raise. }
  rewrite (bind_ok _ _ _ _ _ E).
  destruct (log_step_step s "启动自博弈引擎" None Hr) as (s0 & E0 & Hq0).
  rewrite (bind_ok _ _ _ _ _ E0).
  destruct (call_step (start_game_session system task agents) s0 (quiet_ready _ _ Hq0))
    as (s1 & Ec & Hq1).
  pose proof (quiet_trans _ _ _ Hq0 Hq1) as Hq. clear Hq0 Hq1.
  destruct (start_game_session system task agents) as [[session|exc] system'] eqn:Ep.
  - rewrite (bind_ok _ _ _ _ _ Ec).
    match goal with |- context [set_data ?k ?v] =>
      destruct (set_data_step s1 k v (quiet_ready _ _ Hq)) as (s2 & Es & Hq2) end.
    { unfold key_ok. repeat split; try other_key. intros _. eexists. reflexivity. }
    { other_key. }
    rewrite (bind_ok _ _ _ _ _ Es).
    destruct (final_content session) as [final|] eqn:Ef.
    + destruct (set_data_step s2 "final_result" final (quiet_ready _ _ Hq2))
        as (s' & Es' & Hq').
      { unfold key_ok. repeat split; try other_key. intros _.
        exact (proj2 contents _ _ _ _ _ _ Ep Ef). }
      { other_key. }
      exists s'. split; [|right].
      { apply (quiet_trans s s1); [exact Hq|]. now apply (quiet_trans s1 s2). }
      eexists. split; [|eexists; reflexivity].
      rewrite (bind_ok _ _ _ _ _ Es'). reflexivity.
    + exists s2. split; [now apply (quiet_trans s s1 s2)|right].
      eexists. split; [|eexists; reflexivity]. reflexivity.
  - exists s1. split; [exact Hq|left]. exists exc. now apply bind_raise.
Qed.

(** *** The [try] block *)

Lemma guarded_ok {A} (phases : list PhaseResult) (statement : H A)
    (rest : A -> H (gmap str pyval)) (s s' : state) (a : A) :
  statement s = (Ok a, s') -> guarded phases statement rest s = rest a s'.
Proof. intros E. unfold guarded. now rewrite E. Qed.

Lemma guarded_raise {A} (phases : list PhaseResult) (statement : H A)
    (rest : A -> H (gmap str pyval)) (s s' : state) (exc : exn) :
  statement s = (Raise exc, s') ->
  guarded phases statement rest s = on_exception phases exc s'.
Proof. intros E. unfold guarded. now rewrite E. Qed.

Lemma stage_ok {B} (phase : H PhaseResult) (pick : phase_data -> result B)
    (s s' : state) (p : PhaseResult) (x : B) :
  phase s = (Ok p, s') -> pick (data p) = Ok x ->
  (p ← phase; x ← of_result (pick (data p)); mret (p, x)) s = (Ok (p, x), s').
Proof.
  intros E Ep. rewrite (bind_ok _ _ _ _ _ E). unfold mbind, H_bind, of_result.
  now rewrite Ep.
Qed.

Lemma stage_raise {B} (phase : H PhaseResult) (pick : phase_data -> result B)
    (s s' : state) (exc : exn) :
  phase s = (Raise exc, s') ->
  (p ← phase; x ← of_result (pick (data p)); mret (p, x)) s = (Raise exc, s').
Proof. intros E. now apply bind_raise. Qed.

(** How a run that has been quiet so far ends: by a [return] of the
    [try] block, or in its [except] branch. *)
Lemma ends (s sk : state) (phases : list PhaseResult) (success : bool)
    (reason : string) (extra : option (gmap str pyval)) :
  quiet s sk ->
  exists front errors moment s',
    test_data (logger s) !! utf8 "errors" = Some (PList errors)
    /\ returning phases success reason extra sk
       = (Ok (result_of (logger s) phases success reason extra), s')
    /\ files s' = files s ++ [(report_file (logger s), report_text front errors moment)]
    /\ test_data (logger s') !! utf8 "success" = Some (PBool success)
    /\ exists middle, log s' = log s ++ middle ++ [written_log (report_file (logger s))].
Proof.
  intros (Hr & Hl & Hp & Hf & He & [more Hm]).
  destruct (finalize_ready sk phases success reason extra Hr)
    as (front & errors & moment & seconds & s' & He' & E & _ & Hw & Hs & Hlog).
  exists front, errors, moment, s'. unfold returning. rewrite (guarded_ok _ _ _ _ _ _ E).
  split; [now rewrite <- He|]. split; [|split; [|split; [exact Hs|]]].
  - unfold mret, H_ret. f_equal. f_equal. now apply result_of_paths.
  - now rewrite Hw, Hf, Hp.
  - exists (more ++ [finished_log success seconds]).
    rewrite Hlog, Hm, Hp. now rewrite <- !app_assoc.
Qed.

Lemma ends_badly (s sk : state) (phases : list PhaseResult) (exc : exn) :
  quiet s sk ->
  exists front errors moment moment' s',
    test_data (logger s) !! utf8 "errors" = Some (PList errors)
    /\ on_exception phases exc sk
       = (Ok (result_of (logger s) phases false "completed"
                (Some (<[utf8 "error" := PStr (str_of_exn exc)]> ∅))), s')
    /\ files s'
       = files s
         ++ [(report_file (logger s),
              report_text front (errors ++ [error_record exc "full_flow" moment']) moment)]
    /\ test_data (logger s') !! utf8 "success" = Some (PBool false)
    /\ exists middle, log s' = log s ++ middle ++ [written_log (report_file (logger s))].
Proof.
  intros (Hr & Hl & Hp & Hf & He & [more Hm]).
  destruct (on_exception_ready sk phases exc Hr)
    as (front & errors & moment & seconds & s' & He' & E & _ & Hw & Hs & Hlog).
  exists front, errors, moment, (now (clock_reads sk)), s'. rewrite E.
  split; [now rewrite <- He|]. split; [|split; [|split; [exact Hs|]]].
  - f_equal. f_equal. now apply result_of_paths.
  - now rewrite Hw, Hf, Hp.
  - exists (more ++ [error_log exc "full_flow"; finished_log false seconds]).
    rewrite Hlog, Hm, Hp. now rewrite <- !app_assoc.
Qed.

Lemma limit_reached_true (limit : option Z) (phases : list PhaseResult) :
  limit_reached limit phases = true ->
  exists n, limit = Some n /\ n <= Z.of_nat (length phases).
Proof.
  destruct limit as [n|]; [|discriminate]. cbn [limit_reached]. intros E.
  exists n. split; [reflexivity|]. now apply Z.leb_le.
Qed.

Lemma limit_reached_false (limit : option Z) (phases : list PhaseResult) :
  limit_reached limit phases = false ->
  forall n, limit = Some n -> Z.of_nat (length phases) < n.
Proof.
  intros E n ->. cbn [limit_reached] in E. now apply Z.leb_gt.
Qed.

Lemma plain_one (k : string) (v : pyval) :
  k = "result"%string \/ k = "error"%string -> plain (Some (<[utf8 k := v]> ∅)).
Proof. intros [-> | ->] more [= <-]; repeat split; other_keys. Qed.

Lemma plain_two (v n : pyval) :
  plain (Some (<[utf8 "result" := v]> (<[utf8 "agents_generated" := n]> ∅))).
Proof. intros more [= <-]; repeat split; other_keys. Qed.


Lemma error_of_error (v : pyval) :
  is_Some (error_of (Some (<[utf8 "error" := v]> ∅))).
Proof. cbn [error_of]. rewrite lookup_insert_eq. eauto. Qed.

Lemma error_of_result (v : pyval) : error_of (Some (<[utf8 "result" := v]> ∅)) = None.
Proof. cbn [error_of]. other_keys. Qed.

Lemma error_of_result_agents (v n : pyval) :
  error_of (Some (<[utf8 "result" := v]> (<[utf8 "agents_generated" := n]> ∅))) = None.
Proof. cbn [error_of]. other_keys. Qed.

(** The log file of a run: the two records of line 41, then the rest. *)
Ltac log_tail Hlog :=
  let middle := fresh "middle" in
  destruct Hlog as (middle & Hlog); exists middle; rewrite Hlog;
  repeat match goal with b := _ : state |- _ => subst b end;
  cbn [log logged logger]; now rewrite <- app_assoc.

(** The run ends in its [except] branch. *)
Ltac ends_in_except s Hq Hm Hlow :=
  match goal with |- context [on_exception ?phases ?exc ?sk] =>
    let front := fresh "front" in
    let errors := fresh "errors" in
    let moment := fresh "moment" in
    let moment' := fresh "moment'" in
    let s' := fresh "s'" in
    let He := fresh "He" in
    let Hw := fresh "Hw" in
    let Hs := fresh "Hs" in
    let Hlog := fresh "Hlog" in
    destruct (ends_badly s sk phases exc Hq)
      as (front & errors & moment & moment' & s' & He & -> & Hw & Hs & Hlog);
    exists phases, false, "completed"%string,
      (Some (<[utf8 "error" := PStr (str_of_exn exc)]> ∅)), s', front, errors,
      [error_record exc "full_flow" moment'], moment;
    split; [reflexivity|]; split; [exact He|]; split; [exact Hw|]; split; [exact Hs|];
    split; [exists exc, moment'; now split|];
    split; [reflexivity|]; split; [apply plain_one; now right|];
    split; [|log_tail Hlog];
    right; right; split; [reflexivity|]; split; [reflexivity|];
    split; [cbn [length app]; lia|]; split; [apply error_of_error|];
    let n := fresh "n" in
    let Hn := fresh "Hn" in
    let Hp := fresh "Hp" in
    intros n Hn Hp; pose proof (Hlow n (Hm n Hn Hp)) as Hlow';
    cbn [length app] in Hlow' |- *; lia
  end.

(** The run ends at the limit. *)
Ltac ends_at_limit s Hq Hm' Hlow Hl :=
  match goal with |- context [returning ?phases ?success ?reason ?extra ?sk] =>
    let front := fresh "front" in
    let errors := fresh "errors" in
    let moment := fresh "moment" in
    let s' := fresh "s'" in
    let He := fresh "He" in
    let Hw := fresh "Hw" in
    let Hs := fresh "Hs" in
    let Hlog := fresh "Hlog" in
    destruct (ends s sk phases success reason extra Hq)
      as (front & errors & moment & s' & He & -> & Hw & Hs & Hlog);
    exists phases, success, reason, extra, s', front, errors, [], moment;
    split; [reflexivity|]; split; [exact He|];
    split; [now rewrite app_nil_r|]; split; [exact Hs|];
    split; [reflexivity|]; split; [reflexivity|];
    split; [first [now intros more [=] | apply plain_one; now left]|];
    split; [|log_tail Hlog];
    right; left; split; [reflexivity|]; split; [reflexivity|];
    split; [first [reflexivity | apply error_of_result]|];
    let n := fresh "n" in
    let Hn := fresh "Hn" in
    let Hle := fresh "Hle" in
    destruct (limit_reached_true _ _ Hl) as (n & Hn & Hle);
    pose proof (Hlow n Hn) as Hlow'; destruct (Hm' n Hn) as (-> & Hp);
    cbn [length app] in Hle, Hlow' |- *;
    split; [f_equal; lia | lia]
  end.

(** Every run from a state whose test data are ready ends with a
    dictionary and one more file, the report. *)
Lemma run_outcome (question : str) (max_phases : option Z) (expected : option (Z * Z))
    (s : state) :
  ready_state s ->
  exists phases success reason extra s' front errors logged moment,
    run_with_logger question max_phases expected s
    = (Ok (result_of (logger s) phases success reason extra), s')
    /\ test_data (logger s) !! utf8 "errors" = Some (PList errors)
    /\ files s'
       = files s ++ [(report_file (logger s), report_text front (errors ++ logged) moment)]
    /\ test_data (logger s') !! utf8 "success" = Some (PBool success)
    /\ logged_by success extra logged
    /\ List.map name phases = take (length phases) six_names
    /\ plain extra
    /\ verdict max_phases (length phases) success reason (error_of extra)
    /\ exists middle,
         log s'
         = log s
           ++ [info (utf8 "Step: " ++ utf8 "测试开始");
               debug (utf8 "data=" ++ json_dumps (start_data question max_phases))]
           ++ middle ++ [written_log (report_file (logger s))].
Proof.
  intros Hr. unfold run_with_logger.
  rewrite (bind_ok _ _ _ _ _ (log_step_run _ _ s)).
  match goal with |- context [logged s ?records] => set (b := logged s records) end.
  assert (ready_state b) as Hb by exact Hr.
  destruct (set_data_step b "user_question" (PStr question) Hb) as (s0 & E0 & Hq).
  { unfold key_ok. repeat split; try other_key. intros _. right. eauto. }
  { other_key. }
  rewrite (bind_ok _ _ _ _ _ E0). cbv beta zeta. unfold try_block.
  set (m := match max_phases with
            | Some limit => if limit <=? 0 then None else Some limit
            | None => None
            end).
  assert (forall n, max_phases = Some n -> 0 < n -> m = Some n) as Hm.
  { intros n -> Hn. unfold m. destruct (Z.leb_spec n 0); [lia|reflexivity]. }
  assert (forall n, m = Some n -> max_phases = Some n /\ 0 < n) as Hm'.
  { intros n. unfold m. destruct max_phases as [limit|]; [|discriminate].
    destruct (Z.leb_spec limit 0); [discriminate|]. intros [= <-]. now split. }
  clearbody m. clear E0.
  assert (forall n, m = Some n -> Z.of_nat 0 < n) as Hl0.
  { intros n Hn. now destruct (Hm' n Hn). }
  (* setup *)
  destruct (setup_step s0 (quiet_ready _ _ Hq)) as (s1 & Hq1 & [[exc E]|(d & E & _)]);
    pose proof (quiet_trans _ _ _ Hq Hq1) as Hq1'; clear Hq Hq1.
  { rewrite (guarded_raise _ _ _ _ _ _ E). ends_in_except b Hq1' Hm Hl0. }
  rewrite (guarded_ok _ _ _ _ _ _ E). cbv beta iota zeta.
  destruct (limit_reached m _) eqn:Hl1; [ends_at_limit b Hq1' Hm' Hl0 Hl1|].
  pose proof (limit_reached_false _ _ Hl1) as Hlow1. clear Hl0 Hl1 E.
  (* task *)
  destruct (prepare_task_step s1 question (quiet_ready _ _ Hq1'))
    as (s2 & task & Hq2 & E);
    pose proof (quiet_trans _ _ _ Hq1' Hq2) as Hq2'; clear Hq1' Hq2.
  rewrite (guarded_ok _ _ _ _ _ _ (stage_ok _ data_task _ _ _ _ E eq_refl)).
  cbv beta iota zeta.
  destruct (limit_reached m _) eqn:Hl2; [ends_at_limit b Hq2' Hm' Hlow1 Hl2|].
  pose proof (limit_reached_false _ _ Hl2) as Hlow2. clear Hlow1 Hl2 E.
  (* agents *)
  destruct (generate_agents_step s2 task expected (quiet_ready _ _ Hq2'))
    as (s3 & Hq3 & [[exc E]|(d3 & E & [agents ->])]);
    pose proof (quiet_trans _ _ _ Hq2' Hq3) as Hq3'; clear Hq2' Hq3.
  { rewrite (guarded_raise _ _ _ _ _ _ (stage_raise _ data_agents _ _ _ E)).
    ends_in_except b Hq3' Hm Hlow2. }
  rewrite (guarded_ok _ _ _ _ _ _ (stage_ok _ data_agents _ _ _ _ E eq_refl)).
  cbv beta iota zeta.
  destruct (limit_reached m _) eqn:Hl3; [ends_at_limit b Hq3' Hm' Hlow2 Hl3|].
  pose proof (limit_reached_false _ _ Hl3) as Hlow3. clear Hlow2 Hl3 E.
  (* graph *)
  destruct (build_graph_step s3 task agents (quiet_ready _ _ Hq3'))
    as (s4 & Hq4 & [[exc E]|(d4 & E & [graph ->])]);
    pose proof (quiet_trans _ _ _ Hq3' Hq4) as Hq4'; clear Hq3' Hq4.
  { rewrite (guarded_raise _ _ _ _ _ _ (stage_raise _ data_graph _ _ _ E)).
    ends_in_except b Hq4' Hm Hlow3. }
  rewrite (guarded_ok _ _ _ _ _ _ (stage_ok _ data_graph _ _ _ _ E eq_refl)).
  cbv beta iota zeta.
  destruct (limit_reached m _) eqn:Hl4; [ends_at_limit b Hq4' Hm' Hlow3 Hl4|].
  pose proof (limit_reached_false _ _ Hl4) as Hlow4. clear Hlow3 Hl4 E.
  (* response *)
  destruct (process_request_step s4 task graph question (quiet_ready _ _ Hq4'))
    as (s5 & Hq5 & [[exc E]|(d5 & E & [response ->])]);
    pose proof (quiet_trans _ _ _ Hq4' Hq5) as Hq5'; clear Hq4' Hq5.
  { rewrite (guarded_raise _ _ _ _ _ _ (stage_raise _ data_response _ _ _ E)).
    ends_in_except b Hq5' Hm Hlow4. }
  rewrite (guarded_ok _ _ _ _ _ _ (stage_ok _ data_response _ _ _ _ E eq_refl)).
  cbv beta iota zeta.
  destruct (limit_reached m _) eqn:Hl5; [ends_at_limit b Hq5' Hm' Hlow4 Hl5|].
  pose proof (limit_reached_false _ _ Hl5) as Hlow5. clear Hlow4 Hl5 E.
  (* self game *)
  destruct (self_game_step s5 task agents (quiet_ready _ _ Hq5'))
    as (s6 & Hq6 & [[exc E]|(d6 & E & [session ->])]);
    pose proof (quiet_trans _ _ _ Hq5' Hq6) as Hq6'; clear Hq5' Hq6.
  { rewrite (guarded_raise _ _ _ _ _ _ (stage_raise _ data_session _ _ _ E)).
    ends_in_except b Hq6' Hm Hlow5. }
  rewrite (guarded_ok _ _ _ _ _ _ (stage_ok _ data_session _ _ _ _ E eq_refl)).
  cbv beta iota zeta.
  match goal with |- context [returning ?phases ?success ?reason ?extra ?sk] =>
    destruct (ends b sk phases success reason extra Hq6')
      as (front & errors & moment & s' & He & -> & Hw & Hs & Hlog);
    exists phases, success, reason, extra, s', front, errors, [], moment
  end.
  split; [reflexivity|]. split; [exact He|]. split; [now rewrite app_nil_r|].
  split; [exact Hs|]. split; [reflexivity|].
  split; [reflexivity|]. split; [apply plain_two|].
  split; [|log_tail Hlog].
  left. split; [reflexivity|]. split; [reflexivity|]. split; [reflexivity|].
  split; [apply error_of_result_agents|].
  intros limit Hlimit. destruct (Z.leb_spec limit 0) as [Hle|Hgt]; [now left|right].
  pose proof (Hlow5 limit (Hm limit Hlimit Hgt)) as Hlow. cbn [length app] in Hlow. lia.
Qed.

(** *** The fresh logger *)

(** *** The fresh logger *)

Lemma initial_state_ready (test_name : str) (start_time : time) :
  ready (_initial_state test_name start_time).
Proof.
  split; [|unfold _initial_state; repeat split].
  - change (map_Forall key_ok (_initial_state test_name start_time)).
    unfold _initial_state.
    repeat (apply map_Forall_insert_2; [unfold key_ok; repeat split; try other_key; intros _|]);
      try apply map_Forall_empty;
      first [ now left
            | eexists; split; [reflexivity|constructor]
            | eexists; reflexivity ].
  - other_keys. rewrite lookup_insert_eq. eauto.
  - other_keys. rewrite lookup_insert_eq. eauto.
  - other_keys. rewrite lookup_insert_eq. eauto.
Qed.

Lemma new_logger_ready (test_name : str) (log_root : option str) (reads : nat) :
  ready_state (new_logger test_name log_root reads).
Proof. apply initial_state_ready. Qed.

(** *** The dictionary of [_finalize] *)

Lemma result_of_lookup (l : FullFlowTestLogger) (phases : list PhaseResult)
    (success : bool) (reason : string) (extra : option (gmap str pyval)) :
  plain extra ->
  let d := result_of l phases success reason extra in
  d !! utf8 "phases" = Some (phase_names phases)
  /\ d !! utf8 "success" = Some (PBool success)
  /\ d !! utf8 "termination_reason" = Some (text reason)
  /\ d !! utf8 "log_file" = Some (PStr (log_file l))
  /\ d !! utf8 "report_file" = Some (PStr (report_file l))
  /\ d !! utf8 "error" = error_of extra.
Proof.
  intros Hplain. cbv zeta. unfold result_of.
  set (base := <[utf8 "success" := PBool success]> _).
  assert (base !! utf8 "phases" = Some (phase_names phases)
          /\ base !! utf8 "success" = Some (PBool success)
          /\ base !! utf8 "termination_reason" = Some (text reason)
          /\ base !! utf8 "log_file" = Some (PStr (log_file l))
          /\ base !! utf8 "report_file" = Some (PStr (report_file l))
          /\ base !! utf8 "error" = None) as Hbase.
  { unfold base. repeat split; other_keys; now rewrite lookup_insert_eq. }
  set (full := match List.find _ phases with Some _ => _ | None => base end).
  assert (full !! utf8 "phases" = Some (phase_names phases)
          /\ full !! utf8 "success" = Some (PBool success)
          /\ full !! utf8 "termination_reason" = Some (text reason)
          /\ full !! utf8 "log_file" = Some (PStr (log_file l))
          /\ full !! utf8 "report_file" = Some (PStr (report_file l))
          /\ full !! utf8 "error" = None) as Hfull.
  { unfold full. destruct (List.find _ phases); [|exact Hbase].
    repeat split; rewrite lookup_insert_ne
      by (let Hk := fresh in intros Hk; vm_compute in Hk; discriminate);
      apply Hbase. }
  clearbody full. clear base Hbase.
  destruct Hfull as (H1 & H2 & H3 & H4 & H5 & H6).
  destruct extra as [more|]; [|now repeat split].
  destruct (Hplain more eq_refl) as (P1 & P2 & P3 & P4 & P5).
  repeat split.
  - now rewrite lookup_union_r.
  - now rewrite lookup_union_r.
  - now rewrite lookup_union_r.
  - now rewrite lookup_union_r.
  - now rewrite lookup_union_r.
  - cbn [error_of]. now rewrite lookup_union_l.
Qed.

Lemma phase_names_map (phases : list PhaseResult) :
  phase_names phases = PList (List.map PStr (List.map name phases)).
Proof. unfold phase_names. now rewrite List.map_map. Qed.

(** *** Limits *)

Lemma bind_ext {A B} (m : H A) (k k' : A -> H B) (s : state) :
  (forall a s', k a s' = k' a s') -> (m ≫= k) s = (m ≫= k') s.
Proof. intros E. unfold mbind, H_bind. destruct (m s) as [[a|exc] s']; auto. Qed.

Lemma guarded_ext {A} (phases : list PhaseResult) (statement : H A)
    (rest rest' : A -> H (gmap str pyval)) (s : state) :
  (forall a s', rest a s' = rest' a s') ->
  guarded phases statement rest s = guarded phases statement rest' s.
Proof. intros E. unfold guarded. destruct (statement s) as [[a|exc] s']; auto. Qed.

Lemma far_limit (limit : Z) (phases : list PhaseResult) :
  6 <= limit -> (length phases <= 5)%nat -> limit_reached (Some limit) phases = false.
Proof. intros Hl Hn. cbn [limit_reached]. apply Z.leb_gt. lia. Qed.


(** *** The log file is written, never read *)

Lemma prepend_prepend (a b : list log_record) (s : state) :
  prepend a (prepend b s) = prepend (a ++ b) s.
Proof. unfold prepend. cbn [logger clock_reads files log]. now rewrite app_assoc. Qed.

Lemma framed_ret {A} (a : A) : framed (mret a : H A).
Proof. intros before s. reflexivity. Qed.

Lemma framed_fail {A} (exc : exn) : framed (fail exc : H A).
Proof. intros before s. reflexivity. Qed.

Lemma framed_of_result {A} (r : result A) : framed (of_result r).
Proof. intros before s. reflexivity. Qed.

Lemma framed_bind {A B} (m : H A) (k : A -> H B) :
  framed m -> (forall a, framed (k a)) -> framed (m ≫= k).
Proof.
  intros Hm Hk before s. unfold mbind, H_bind. rewrite (Hm before s).
  destruct (m s) as [[a|exc] s']; cbn [fst snd]; [apply Hk|reflexivity].
Qed.

Lemma framed_read_clock : framed read_clock.
Proof. intros before s. reflexivity. Qed.

Lemma framed_the_logger : framed the_logger.
Proof. intros before s. reflexivity. Qed.

Lemma framed_the_data : framed the_data.
Proof. intros before s. reflexivity. Qed.

Lemma framed_set_data (k : string) (v : pyval) : framed (set_data k v).
Proof. intros before s. reflexivity. Qed.

Lemma framed_write_text (path content : str) : framed (write_text path content).
Proof. intros before s. reflexivity. Qed.

Lemma framed_set_system (system : System) : framed (set_system system).
Proof. intros before s. reflexivity. Qed.

Lemma framed_call {A} (outcome : result A * System) : framed (call outcome).
Proof. intros before s. reflexivity. Qed.

Lemma framed_emit (record : log_record) : framed (emit record).
Proof.
  intros before s. unfold emit, prepend. cbn [fst snd logger clock_reads files log].
  now rewrite app_assoc.
Qed.

Lemma framed_for_each {A} (items : list A) (body : A -> H unit) :
  (forall item, framed (body item)) -> framed (for_each items body).
Proof.
  intros Hb. induction items as [|item items IH]; cbn [for_each].
  - apply framed_ret.
  - apply framed_bind; [apply Hb|intros _; exact IH].
Qed.

Lemma framed_guarded {A} (phases : list PhaseResult) (statement : H A)
    (rest : A -> H (gmap str pyval)) :
  framed statement -> (forall a, framed (rest a)) ->
  (forall exc, framed (on_exception phases exc)) ->
  framed (guarded phases statement rest).
Proof.
  intros Hm Hk He before s. unfold guarded. rewrite (Hm before s).
  destruct (statement s) as [[a|exc] s']; cbn [fst snd]; [apply Hk|apply He].
Qed.

(** The frame of a computation made of the steps above. *)
Ltac frame :=
  repeat first
    [ apply framed_ret | apply framed_fail | apply framed_of_result
    | apply framed_read_clock | apply framed_the_logger | apply framed_the_data
    | apply framed_set_data | apply framed_write_text | apply framed_set_system
    | apply framed_call | apply framed_emit
    | apply framed_bind; [|intros ?]
    | apply framed_for_each; intros ?
    | match goal with
      | |- framed (match ?x with _ => _ end) => destruct x
      | |- framed (let x := _ in _) => cbv zeta
      end ].

Lemma framed_log_step (step : string) (data : option pyval) :
  framed (log_step step data).
Proof. unfold log_step. frame. Qed.

Lemma framed_log_node_output (node_name : pyval) (node_type : str) (output : pyval) :
  framed (log_node_output node_name node_type output).
Proof. unfold log_node_output. frame. Qed.

Lemma framed_log_error (error : exn) (context : string) :
  framed (log_error error context).
Proof. unfold log_error. frame. Qed.

Lemma framed_finalize_test (success : bool) : framed (finalize_test success).
Proof. unfold finalize_test, _write_report, _build_report. frame. Qed.

Lemma framed_finalize (phases : list PhaseResult) (success : bool) (reason : string)
    (extra : option (gmap str pyval)) :
  framed (_finalize phases success reason extra).
Proof. unfold _finalize. frame. Qed.

Lemma framed_on_exception (phases : list PhaseResult) (exc : exn) :
  framed (on_exception phases exc).
Proof.
  unfold on_exception. apply framed_bind; [apply framed_log_error|intros _].
  apply framed_finalize.
Qed.

Lemma framed_returning (phases : list PhaseResult) (success : bool) (reason : string)
    (extra : option (gmap str pyval)) :
  framed (returning phases success reason extra).
Proof.
  unfold returning. apply framed_guarded.
  - apply framed_finalize.
  - intros d. apply framed_ret.
  - apply framed_on_exception.
Qed.

Lemma framed_require_system : framed _require_system.
Proof. unfold _require_system. frame. Qed.

Lemma framed_phase_setup : framed _phase_setup.
Proof. unfold _phase_setup, log_step. frame. Qed.

Lemma framed_phase_prepare_task (question : str) : framed (_phase_prepare_task question).
Proof. unfold _phase_prepare_task, log_step. frame. Qed.

Lemma framed_phase_generate_agents (task : Task) (expected : option (Z * Z)) :
  framed (_phase_generate_agents task expected).
Proof.
  unfold _phase_generate_agents, _require_system, log_step, log_node_output. frame.
Qed.

Lemma framed_phase_build_graph (task : Task) (agents : list Agent) :
  framed (_phase_build_graph task agents).
Proof. unfold _phase_build_graph, _require_system, log_step. frame. Qed.

Lemma framed_phase_process_request (task : Task) (graph : InteractionGraph)
    (question : str) :
  framed (_phase_process_request task graph question).
Proof.
  unfold _phase_process_request, _require_system, log_step, log_node_output. frame.
Qed.

Lemma framed_phase_self_game (task : Task) (agents : list Agent) :
  framed (_phase_self_game task agents).
Proof. unfold _phase_self_game, _require_system, log_step. frame. Qed.

(** A statement of the [try] block: a phase, then the item read from
    its data. *)
Lemma framed_stage {B} (phase : H PhaseResult) (pick : phase_data -> result B) :
  framed phase ->
  framed (p ← phase; x ← of_result (pick (data p)); mret (p, x)).
Proof. intros Hp. apply framed_bind; [exact Hp|intros p]. frame. Qed.

Lemma framed_try_block (question : str) (max_phases : option Z)
    (expected : option (Z * Z)) :
  framed (try_block question max_phases expected).
Proof.
  unfold try_block.
  apply framed_guarded; [apply framed_phase_setup| |apply framed_on_exception].
  intros config. cbv zeta.
  destruct (limit_reached _ _); [apply framed_returning|].
  apply framed_guarded;
    [apply framed_stage, framed_phase_prepare_task| |apply framed_on_exception].
  intros [task_phase task]. cbv zeta.
  destruct (limit_reached _ _); [apply framed_returning|].
  apply framed_guarded;
    [apply framed_stage, framed_phase_generate_agents| |apply framed_on_exception].
  intros [agents_phase agents]. cbv zeta.
  destruct (limit_reached _ _); [apply framed_returning|].
  apply framed_guarded;
    [apply framed_stage, framed_phase_build_graph| |apply framed_on_exception].
  intros [graph_phase graph]. cbv zeta.
  destruct (limit_reached _ _); [apply framed_returning|].
  apply framed_guarded;
    [apply framed_stage, framed_phase_process_request| |apply framed_on_exception].
  intros [response_phase response]. cbv zeta.
  destruct (limit_reached _ _); [apply framed_returning|].
  apply framed_guarded;
    [apply framed_stage, framed_phase_self_game| |apply framed_on_exception].
  intros [game_phase session]. cbv zeta. apply framed_returning.
Qed.

(** Beyond five, a limit changes nothing in the [try] block. *)
Lemma try_block_far_limit (question : str) (limit : Z) (expected : option (Z * Z))
    (s : state) :
  6 <= limit ->
  try_block question (Some limit) expected s = try_block question None expected s.
Proof.
  intros Hl. unfold try_block.
  apply guarded_ext. intros config s1. cbv beta iota zeta.
  match goal with |- context [limit_reached (Some limit) ?p] =>
    rewrite (far_limit limit p Hl) by (cbn [length app]; lia);
    change (limit_reached None p) with false end.
  apply guarded_ext. intros [task_phase task] s2. cbv beta iota zeta.
  match goal with |- context [limit_reached (Some limit) ?p] =>
    rewrite (far_limit limit p Hl) by (cbn [length app]; lia);
    change (limit_reached None p) with false end.
  apply guarded_ext. intros [agents_phase agents] s3. cbv beta iota zeta.
  match goal with |- context [limit_reached (Some limit) ?p] =>
    rewrite (far_limit limit p Hl) by (cbn [length app]; lia);
    change (limit_reached None p) with false end.
  apply guarded_ext. intros [graph_phase graph] s4. cbv beta iota zeta.
  match goal with |- context [limit_reached (Some limit) ?p] =>
    rewrite (far_limit limit p Hl) by (cbn [length app]; lia);
    change (limit_reached None p) with false end.
  apply guarded_ext. intros [response_phase response] s5. cbv beta iota zeta.
  match goal with |- context [limit_reached (Some limit) ?p] =>
    rewrite (far_limit limit p Hl) by (cbn [length app]; lia);
    change (limit_reached None p) with false end.
  reflexivity.
Qed.

(** A run whose log file is empty at the start: the two records of
    line 41 come first, and the [try] block, which does not read the
    log file, goes on as it would from an empty one. *)
Lemma run_by_frame (question : str) (max_phases : option Z) (expected : option (Z * Z))
    (s : state) :
  log s = [] ->
  let limit :=
    match max_phases with
    | Some limit => if limit <=? 0 then None else Some limit
    | None => None
    end in
  let start :=
    {| logger :=
         with_data (logger s)
           (<[utf8 "user_question" := PStr question]> (test_data (logger s)));
       clock_reads := clock_reads s; files := files s; log := [] |} in
  run_with_logger question max_phases expected s
  = (fst (try_block question limit expected start),
     prepend [info (utf8 "Step: " ++ utf8 "测试开始");
              debug (utf8 "data=" ++ json_dumps (start_data question max_phases))]
       (snd (try_block question limit expected start))).
Proof.
  intros Hlog limit start. unfold run_with_logger.
  rewrite (bind_ok _ _ _ _ _ (log_step_run _ _ s)).
  match goal with |- (set_data ?k ?v ≫= ?rest) ?st = _ =>
    rewrite (bind_ok (set_data k v) rest st _ tt eq_refl) end.
  cbv zeta. fold limit. unfold logged. cbn [logger clock_reads files log].
  rewrite Hlog.
  exact (framed_try_block question limit expected
           [info (utf8 "Step: " ++ utf8 "测试开始");
            debug (utf8 "data=" ++ json_dumps (start_data question max_phases))] start).
Qed.

(** *** A run with a fresh logger *)

Lemma initial_errors (test_name : str) (log_root : option str) (reads : nat) :
  test_data (logger (new_logger test_name log_root reads)) !! utf8 "errors"
  = Some (PList []).
Proof.
  unfold new_logger. cbn [logger test_data]. unfold _initial_state.
  other_keys. now rewrite lookup_insert_eq.
Qed.

Lemma fresh_run_outcome (question : str) (max_phases : option Z)
    (expected : option (Z * Z)) (reads : nat) :
  let fresh := new_logger (utf8 "动态全流程测试") None reads in
  exists phases success reason extra s' front logged moment,
    run_full_flow_test question max_phases expected reads
    = (Ok (result_of (logger fresh) phases success reason extra), s')
    /\ files s' = [(report_file (logger fresh), report_text front logged moment)]
    /\ test_data (logger s') !! utf8 "success" = Some (PBool success)
    /\ logged_by success extra logged
    /\ List.map name phases = take (length phases) six_names
    /\ plain extra
    /\ verdict max_phases (length phases) success reason (error_of extra)
    /\ exists middle,
         log s'
         = [info (utf8 "Step: " ++ utf8 "测试开始");
            debug (utf8 "data=" ++ json_dumps (start_data question max_phases))]
           ++ middle ++ [written_log (report_file (logger fresh))].
Proof.
  intros fresh.
  destruct (run_outcome question max_phases expected fresh (new_logger_ready _ _ _))
    as (phases & success & reason & extra & s' & front & errors & logged & moment
        & E & He & Hw & Hs & Hlog & Hn & Hp & Hv & Hrecords).
  unfold fresh in He. rewrite initial_errors in He. injection He as <-.
  exists phases, success, reason, extra, s', front, logged, moment.
  split; [exact E|]. split; [exact Hw|]. split; [exact Hs|]. split; [exact Hlog|].
  split; [exact Hn|]. split; [exact Hp|]. split; [exact Hv|exact Hrecords].
Qed.

(** *** A run in which no agent is generated *)

Lemma setup_ok (s : state) (system : System) :
  (forall exc, config_file <> Some (Raise exc)) -> make_system = Ok system ->
  ready_state s ->
  exists d s',
    _phase_setup s = (Ok {| name := utf8 "setup"; data := d |}, s')
    /\ quiet s s' /\ _naga_system (logger s') = Some system.
Proof.
  intros Hc Hm Hr.
  destruct (setup_step s Hr) as (s' & Hq & [[exc E]|(d & E & _)]).
  - exfalso. revert E. unfold _phase_setup, log_step, emit.
    unfold mbind, H_bind, mret, H_ret, of_result, set_data, set_system. rewrite Hm.
    destruct config_file as [[config|exc']|]; try discriminate.
    now destruct (Hc exc').
  - exists d, s'. split; [exact E|]. split; [exact Hq|].
    revert E. unfold _phase_setup, log_step, emit.
    unfold mbind, H_bind, mret, H_ret, of_result, set_data, set_system. rewrite Hm.
    destruct config_file as [[config|exc']|]; try discriminate;
      intros [= _ <-]; reflexivity.
Qed.

Lemma prepare_task_system (s s' : state) (question : str) (p : PhaseResult) :
  _phase_prepare_task question s = (Ok p, s') ->
  _naga_system (logger s') = _naga_system (logger s).
Proof.
  unfold _phase_prepare_task, log_step, emit, mbind, H_bind, mret, H_ret, set_data.
  now intros [= _ <-].
Qed.

Lemma generate_agents_none (s : state) (system : System) (task : Task)
    (expected : option (Z * Z)) :
  _naga_system (logger s) = Some system ->
  fst (generate_agents_only system task expected) = Ok [] ->
  ready_state s ->
  exists s',
    _phase_generate_agents task expected s = (Raise (RuntimeError "未生成任何智能体"), s')
    /\ quiet s s'.
Proof.
  intros Hs Hg Hr. unfold _phase_generate_agents.
  assert (_require_system s = (Ok system, s)) as E.
  { unfold _require_system, mbind, H_bind, the_logger. now rewrite Hs. }
  rewrite (bind_ok _ _ _ _ _ E).
  destruct (log_step_step s "开始生成智能体团队" None Hr) as (s0 & E0 & Hq0).
  rewrite (bind_ok _ _ _ _ _ E0).
  destruct (call_step (generate_agents_only system task expected) s0
              (quiet_ready _ _ Hq0)) as (s1 & Ec & Hq).
  rewrite Hg in Ec. rewrite (bind_ok _ _ _ _ _ Ec).
  exists s1. split; [reflexivity|now apply (quiet_trans s s0 s1)].
Qed.

End RunFacts.

(** * Properties of the flow logger and of the gated run *)

(** ** The logger ([game/full_flow_logger.py]) *)

Section LoggerProperties.
Import PyStr FullFlow ReportReady ReadyFacts.

Context `{W : World}.

(** X13 ([FullFlowTestLogger._build_report]).  From test data of the
    shape the logger keeps, the report is built without an exception; it
    reads the clock once and changes nothing else.  Its last lines are
    the error section and the footer: the heading "## 错误信息" is
    followed by the line "无" when no error has been logged, and
    otherwise by one bullet "- **context**: error" for each logged error,
    in the order of logging. *)
Theorem report_ends_with_the_error_section (s : state) :
  floats_format -> ready_state s ->
  exists front errors,
    test_data (logger s) !! utf8 "errors" = Some (PList errors)
    /\ _build_report s = (Ok (report_text front errors (now (clock_reads s))), ticked s).
Proof. intros Hf Hr. exact (build_report_text Hf s Hr). Qed.

(** X14 ([FullFlowTestLogger.log_error]).  When the test data hold a
    list of errors, [log_error] first hands one record to the logger, of
    level ERROR and with the traceback asked for, which the FileHandler
    writes to the log file; its message is "Error (context): error", or
    "Error: error" when no context is given.  Then it appends one entry
    to the list.  Nothing else changes: the entries logged before stay
    in place, [write_text] is not called, the clock is read once.  The
    entry holds the text of the error, the moment, and a context that is
    never empty: the given one, or "general" when none is given. *)
Theorem log_error_logs_and_appends_one_entry (s : state) (error : exn)
    (context : string) (entries : list pyval) :
  test_data (logger s) !! utf8 "errors" = Some (PList entries) ->
  exists label,
    log_error error context s
    = (Ok tt,
       {| logger :=
            with_data (logger s)
              (<[utf8 "errors" :=
                   PList (entries
                          ++ [PDict (<[utf8 "context" := PStr label]>
                                     (<[utf8 "error" := PStr (str_of_exn error)]>
                                     (<[utf8 "timestamp" :=
                                          PStr (isoformat (now (clock_reads s)))]> ∅)))])]>
                 (test_data (logger s)));
          clock_reads := S (clock_reads s);
          files := files s;
          log := log s
                 ++ [{| record_level := ERROR;
                        record_message :=
                          utf8 "Error"
                          ++ (if nonempty (utf8 context)
                              then utf8 " (" ++ label ++ utf8 ")" else [])
                          ++ utf8 ": " ++ str_of_exn error;
                        exc_info := true |}] |})
    /\ label <> []
    /\ (nonempty (utf8 context) = true -> label = utf8 context)
    /\ (nonempty (utf8 context) = false -> label = utf8 "general").
Proof.
  intros He.
  exists (if nonempty (utf8 context) then utf8 context else utf8 "general").
  split; [|split; [|split]].
  - unfold log_error, mbind, H_bind, emit, the_data, of_result, data_item.
    cbn [logger test_data]. rewrite He. unfold read_clock, set_data, error_log, error_record.
    destruct (nonempty (utf8 context)); reflexivity.
  - destruct (utf8 context) as [|c rest]; [|discriminate].
    cbn [nonempty]. intros Hk. vm_compute in Hk. discriminate.
  - now intros ->.
  - now intros ->.
Qed.

(** X15 ([FullFlowTestLogger.log_error]).  When the test data hold no
    list under "errors", [log_error] raises before it reads the clock
    and leaves the logger as it was: KeyError when the key is missing,
    AttributeError when its value is not a list.  By then the record of
    the error has gone to the log file; the test data, the clock and the
    files written with [write_text] are as before. *)
Theorem log_error_needs_an_error_list (s : state) (error : exn) (context : string) :
  (forall entries, test_data (logger s) !! utf8 "errors" <> Some (PList entries)) ->
  log_error error context s
  = (Raise match test_data (logger s) !! utf8 "errors" with
           | None => KeyError
           | Some _ => AttributeError
           end,
     {| logger := logger s; clock_reads := clock_reads s; files := files s;
        log := log s ++ [error_log error context] |}).
Proof.
  intros Hno. unfold log_error, mbind, H_bind, emit, the_data, of_result, data_item.
  cbn [logger test_data].
  destruct (test_data (logger s) !! utf8 "errors") as [[| | | | |entries|]|];
    try reflexivity.
  now destruct (Hno entries).
Qed.



(** X25 ([FullFlowTestLogger.finalize_test], [_build_report]).  The
    report takes the final result as a line of its own.  Once a value
    that is truthy and not text has been stored as the final result,
    [finalize_test] raises TypeError, at the joining of the lines, and
    writes no report. *)
Theorem final_result_must_be_text (s : state) (success : bool) (v : pyval) :
  floats_format -> ready_state s -> truthy v = true -> ~ is_text v ->
  exists s',
    (set_data "final_result" v;; finalize_test success) s = (Raise TypeError, s')
    /\ files s' = files s.
Proof.
  intros Hf Hr Hv Hn. exact (finalize_test_final Hf s success v Hr Hv Hn).
Qed.

End LoggerProperties.

(** ** The gated run ([game/full_test_fix.py]) *)

Section RunProperties.
Import PyStr FullFlow ReportReady ReadyFacts.

Context `{W : World}.





(** X22 ([run_full_flow_test]).  A limit that is not positive, and a
    limit of 6 or more, are no limit: the run returns what the run
    without a limit returns, and leaves the same logger, clock and
    report.  The log files differ in one record: line 41 logs the limit
    as it was given, before it is looked at, so the second record of the
    log file shows the number in one run and null in the other; the
    records after it are the same. *)
Theorem limit_outside_one_to_five_shows_in_the_log_only (question : str) (limit : Z)
    (expected : option (Z * Z)) (reads : nat) :
  limit <= 0 \/ 6 <= limit ->
  fst (run_full_flow_test question (Some limit) expected reads)
  = fst (run_full_flow_test question None expected reads)
  /\ same_but_log (snd (run_full_flow_test question (Some limit) expected reads))
       (snd (run_full_flow_test question None expected reads))
  /\ exists later,
       log (snd (run_full_flow_test question (Some limit) expected reads))
       = [info (utf8 "Step: " ++ utf8 "测试开始");
          debug (utf8 "data=" ++ json_dumps (start_data question (Some limit)))]
         ++ later
       /\ log (snd (run_full_flow_test question None expected reads))
          = [info (utf8 "Step: " ++ utf8 "测试开始");
             debug (utf8 "data=" ++ json_dumps (start_data question None))]
            ++ later.
Proof.
  intros Hl. unfold run_full_flow_test.
  rewrite !run_by_frame by reflexivity. cbv zeta. cbn [fst snd].
  match goal with |- context [try_block question ?m expected ?start] =>
    assert (try_block question m expected start = try_block question None expected start)
      as ->
  end.
  { destruct Hl as [Hl|Hl].
    - now rewrite (proj2 (Z.leb_le limit 0) Hl).
    - rewrite (proj2 (Z.leb_gt limit 0)) by lia. now apply try_block_far_limit. }
  split; [reflexivity|]. split; [now repeat split|].
  eexists. split; reflexivity.
Qed.


(** X24 ([_require_system] and the four phases that call it).  On a
    logger to which no system has been attached, the phases that
    generate the agents, build the graph, process the request and play
    the game raise RuntimeError("System not initialised; setup phase
    must run first"); they make no call and leave the logger as it
    was. *)
Theorem later_phases_need_the_setup (s : state) (task : Task)
    (expected : option (Z * Z)) (agents : list Agent) (graph : InteractionGraph)
    (question : str) :
  _naga_system (logger s) = None ->
  _phase_generate_agents task expected s = (Raise not_initialised, s)
  /\ _phase_build_graph task agents s = (Raise not_initialised, s)
  /\ _phase_process_request task graph question s = (Raise not_initialised, s)
  /\ _phase_self_game task agents s = (Raise not_initialised, s).
Proof.
  intros Hs.
  assert (_require_system s = (Raise not_initialised, s)) as E.
  { unfold _require_system, mbind, H_bind, the_logger. now rewrite Hs. }
  repeat split; now apply bind_raise.
Qed.

End RunProperties.

(** ** Runs of the flow in a concrete world *)

Section FlowRuns.
Import PyStr FullFlow ReportReady ReadyFacts FlowExamples.

Lemma world_floats (agents : list Agent) (answer : pyval) :
  floats_format (W := world_with agents answer).
Proof. intros f. now exists (utf8 "0.00"). Qed.

Lemma world_contents (agents : list Agent) (answer : str) :
  contents_are_text (W := world_with agents (PStr answer)).
Proof.
  split.
  - intros system q graph user response system' [= <- _]. right. now eexists.
  - intros system task members session system' final [= <- _] [= <-]. right. now eexists.
Qed.

#[local] Existing Instance world.

Lemma report_ends_with_the_error_section_witness :
  exists front errors,
    test_data (logger fresh_state) !! utf8 "errors" = Some (PList errors)
    /\ _build_report fresh_state
       = (Ok (report_text front errors (now (clock_reads fresh_state))),
          ticked fresh_state).
Proof.
  apply (report_ends_with_the_error_section fresh_state).
  - apply world_floats.
  - apply new_logger_ready.
Defined.

Lemma log_error_logs_and_appends_one_entry_witness :
  exists label,
    log_error (OtherException "timeout") EmptyString fresh_state
    = (Ok tt,
       {| logger :=
            with_data (logger fresh_state)
              (<[utf8 "errors" :=
                   PList ([]
                          ++ [PDict (<[utf8 "context" := PStr label]>
                                     (<[utf8 "error" :=
                                          PStr (str_of_exn (OtherException "timeout"))]>
                                     (<[utf8 "timestamp" :=
                                          PStr (isoformat (now (clock_reads fresh_state)))]>
                                        ∅)))])]>
                 (test_data (logger fresh_state)));
          clock_reads := S (clock_reads fresh_state);
          files := files fresh_state;
          log := log fresh_state
                 ++ [{| record_level := ERROR;
                        record_message :=
                          utf8 "Error"
                          ++ (if nonempty (utf8 EmptyString)
                              then utf8 " (" ++ label ++ utf8 ")" else [])
                          ++ utf8 ": " ++ str_of_exn (OtherException "timeout");
                        exc_info := true |}] |})
    /\ label <> []
    /\ (nonempty (utf8 EmptyString) = true -> label = utf8 EmptyString)
    /\ (nonempty (utf8 EmptyString) = false -> label = utf8 "general").
Proof.
  apply (log_error_logs_and_appends_one_entry fresh_state (OtherException "timeout")
           EmptyString []).
  vm_compute. reflexivity.
Defined.

Lemma log_error_needs_an_error_list_witness :
  log_error (OtherException "timeout") EmptyString emptied
  = (Raise KeyError,
     {| logger := logger emptied; clock_reads := clock_reads emptied;
        files := files emptied;
        log := log emptied ++ [error_log (OtherException "timeout") EmptyString] |}).
Proof.
  apply (log_error_needs_an_error_list emptied (OtherException "timeout") EmptyString).
  intros entries. vm_compute. discriminate.
Defined.



Lemma final_result_must_be_text_witness :
  exists s',
    (set_data "final_result" (PInt 7);; finalize_test true) fresh_state
    = (Raise TypeError, s')
    /\ files s' = files fresh_state.
Proof.
  apply (final_result_must_be_text fresh_state true (PInt 7)).
  - apply world_floats.
  - apply new_logger_ready.
  - reflexivity.
  - intros [text Htext]. discriminate.
Defined.



Lemma limit_outside_one_to_five_shows_in_the_log_only_witness :
  fst (run_full_flow_test (W := world) question (Some 7) None 0)
  = fst (run_full_flow_test (W := world) question None None 0)
  /\ same_but_log (snd (run_full_flow_test (W := world) question (Some 7) None 0))
       (snd (run_full_flow_test (W := world) question None None 0))
  /\ exists later,
       log (snd (run_full_flow_test (W := world) question (Some 7) None 0))
       = [info (utf8 "Step: " ++ utf8 "测试开始");
          debug (utf8 "data=" ++ json_dumps (start_data question (Some 7)))]
         ++ later
       /\ log (snd (run_full_flow_test (W := world) question None None 0))
          = [info (utf8 "Step: " ++ utf8 "测试开始");
             debug (utf8 "data=" ++ json_dumps (start_data question None))]
            ++ later.
Proof.
  apply (limit_outside_one_to_five_shows_in_the_log_only (W := world) question 7 None 0).
  right. lia.
Defined.

Lemma later_phases_need_the_setup_witness :
  _phase_generate_agents (Examples.task) None fresh_state
  = (Raise not_initialised, fresh_state)
  /\ _phase_build_graph (Examples.task) [lead; coder] fresh_state
     = (Raise not_initialised, fresh_state)
  /\ _phase_process_request (Examples.task) {| graph_agents := [lead; coder] |} question
       fresh_state
     = (Raise not_initialised, fresh_state)
  /\ _phase_self_game (Examples.task) [lead; coder] fresh_state
     = (Raise not_initialised, fresh_state).
Proof.
  apply (later_phases_need_the_setup fresh_state Examples.task None [lead; coder]
           {| graph_agents := [lead; coder] |} question).
  reflexivity.
Defined.

(** The runs that the theorems speak of, computed.  With a limit of 2
    the run stops after the task phase; without a limit it plays the
    game and returns the content of the session; when no agent is
    generated it fails after the task phase. *)
Example run_with_limit_2 :
  match fst (run_full_flow_test (W := world) question (Some 2) None 0) with
  | Ok d => (d !! utf8 "phases", d !! utf8 "success", d !! utf8 "termination_reason")
  | Raise _ => (None, None, None)
  end
  = (Some (PList [text "setup"; text "task"]), Some (PBool true),
     Some (text "phase_limit")).
Proof. vm_compute. reflexivity. Qed.

Example run_without_limit :
  match fst (run_full_flow_test (W := world) question None None 0) with
  | Ok d => (d !! utf8 "phases", d !! utf8 "termination_reason", d !! utf8 "result",
             d !! utf8 "agents_generated")
  | Raise _ => (None, None, None, None)
  end
  = (Some (PList (List.map PStr six_names)), Some (text "completed"),
     Some (text "a better plan"), Some (PInt 2)).
Proof. vm_compute. reflexivity. Qed.

(** The log file of a run that the limit ends after the setup: the
    step and the data of line 41, the three steps of the setup, and the
    two records of [finalize_test].  The console shows all of them but
    the data, which are logged at level DEBUG. *)
Example log_of_a_run_with_limit_1 :
  let s' := snd (run_full_flow_test (W := world) question (Some 1) None 0) in
  List.map (fun record => (record_level record, record_message record)) (log s')
  = [(INFO, utf8 "Step: 测试开始");
     (DEBUG,
      utf8 "data={" ++ newline
      ++ utf8 "  " ++ quoted "question" ++ utf8 ": "
      ++ quoted "build a learning platform" ++ utf8 "," ++ newline
      ++ utf8 "  " ++ quoted "max_phases" ++ utf8 ": 1" ++ newline ++ utf8 "}");
     (INFO, utf8 "Step: 系统初始化");
     (INFO, utf8 "Step: 使用默认配置");
     (INFO, utf8 "Step: NagaGameSystem创建成功");
     (INFO, utf8 "Test finished: 成功 (0.00 秒)");
     (INFO, utf8 "Report written to logs/full_flow_test/result_0.md")]
  /\ length (console s') = 6%nat
  /\ List.map fst (files s') = [utf8 "logs/full_flow_test/result_0.md"].
Proof. vm_compute. repeat split. Qed.

(** With a limit of 7 the run is the run without a limit but for the
    second record of its log file. *)
Example limit_of_7_in_the_log :
  let limited := log (snd (run_full_flow_test (W := world) question (Some 7) None 0)) in
  let free := log (snd (run_full_flow_test (W := world) question None None 0)) in
  option_map record_message (nth_error limited 1) <> option_map record_message (nth_error free 1)
  /\ take 1 limited = take 1 free
  /\ drop 2 limited = drop 2 free
  /\ length free = 15%nat.
Proof.
  vm_compute. split; [discriminate|]. split; [reflexivity|]. split; reflexivity.
Qed.

(** A response whose content is a number is stored as the final result.
    When the run ends after the response phase, the lines of the report
    can not be joined, neither at the end of the [try] block nor in the
    [except] branch, and the TypeError leaves the run.  When the game is
    played, its content replaces the number and the run returns. *)
Example numeric_content_escapes :
  fst (run_full_flow_test (W := numeric) question (Some 5) None 0) = Raise TypeError
  /\ match fst (run_full_flow_test (W := numeric) question None None 0) with
     | Ok d => d !! utf8 "success"
     | Raise _ => None
     end = Some (PBool true).
Proof. split; vm_compute; reflexivity. Qed.

End FlowRuns.

Section BarrenRuns.
Import PyStr FullFlow ReportReady ReadyFacts FlowExamples.

#[local] Existing Instance barren.




End BarrenRuns.
